(** * Campus gate access control: verification, logging, alerting, broadcast

    A shallow embedding of the server side of the campus vehicle-gate
    application: the schema records ([shared/schema.ts]), the two storage
    classes [DrizzleStorage] and [MemoryStorage] behind the [IStorage]
    interface ([server/storage.ts]), and the Express route handlers together
    with the WebSocket [broadcast] ([server/routes.ts]).

    Conventions of the embedding
    - a TypeScript [string] is a [string]; a nullable column or an optional
      property is an [option]; a timestamp is its epoch-millisecond value in [Z];
    - a JavaScript [Map<string, V>] is an association list in insertion order
      (the storage code searches [map.values()] with [find], so order matters);
    - a database table is the list of its rows in scan order;
    - [crypto.randomUUID()] and [new Date()] read an explicit [Runtime] oracle;
    - [async] methods are state-passing functions that may throw. *)

From Stdlib Require Import List String ZArith Bool Arith Lia Permutation Sorted.
Import ListNotations.

Set Implicit Arguments.
Local Open Scope string_scope.

(** ** JavaScript values used by the server *)

(** [jsonb] columns and message payload fragments. *)
#[warnings="-register-all"]
Inductive Json : Type :=
| JUndefined
| JNull
| JBool (b : bool)
| JNum (n : Z)
| JStr (s : string)
| JObj (fields : list (string * Json)).

(** A property that may be [undefined], as a JSON fragment. *)
Definition json_of_field (f : option string) : Json :=
  match f with
  | Some s => JStr s
  | None => JUndefined
  end.

(** Truthiness of a nullable boolean column: [!x] is [negb (truthy x)]. *)
Definition truthy (b : option bool) : bool :=
  match b with
  | Some true => true
  | _ => false
  end.

(** Truthiness of a possibly missing string: [undefined], [null] and the
    empty string are falsy. *)
Definition truthy_str (s : option string) : bool :=
  match s with
  | Some s' => negb (String.eqb s' "")
  | None => false
  end.

(** [x || d] on possibly missing strings. *)
Definition or_default (s : option string) (d : string) : string :=
  match s with
  | Some s' => if String.eqb s' "" then d else s'
  | None => d
  end.

(** [x || null] on possibly missing strings. *)
Definition or_null (s : option string) : option string :=
  match s with
  | Some s' => if String.eqb s' "" then None else Some s'
  | None => None
  end.

(** ** Schema rows ([shared/schema.ts]) *)

Module Student.
Record t : Type := mk {
  id : string;
  studentId : string;
  name : string;
  rollNumber : string;
  department : string;
  year : string;
  division : string;
  contactNumber : string;
  photoUrl : option string;
  isActive : option bool;
  createdAt : option Z
}.
End Student.
Abbreviation Student := Student.t.

Module Vehicle.
Record t : Type := mk {
  id : string;
  studentId : string;
  plateNumber : string;
  vehicleType : string;
  model : option string;
  color : option string;
  isActive : option bool;
  createdAt : option Z
}.
End Vehicle.
Abbreviation Vehicle := Vehicle.t.

Module AccessLog.
Record t : Type := mk {
  id : string;
  studentId : option string;
  vehicleId : option string;
  plateNumber : option string;
  gateLocation : option string;
  accessStatus : string;
  reason : option string;
  timestamp : option Z;
  metadata : Json
}.
End AccessLog.
Abbreviation AccessLog := AccessLog.t.

Module Alert.
Record t : Type := mk {
  id : string;
  type : string;
  severity : string;
  title : string;
  description : string;
  gateLocation : option string;
  metadata : Json;
  isRead : option bool;
  createdAt : option Z
}.

(** [{ ...alert, isRead: true }] *)
Definition markRead (a : t) : t :=
  mk (id a) (type a) (severity a) (title a) (description a)
     (gateLocation a) (metadata a) (Some true) (createdAt a).
End Alert.
Abbreviation Alert := Alert.t.

(** [InsertAccessLog]: the row without [id] and [timestamp]. *)
Module InsertAccessLog.
Record t : Type := mk {
  studentId : option string;
  vehicleId : option string;
  plateNumber : option string;
  gateLocation : option string;
  accessStatus : string;
  reason : option string;
  metadata : Json
}.
End InsertAccessLog.
Abbreviation InsertAccessLog := InsertAccessLog.t.

(** [InsertAlert]: the row without [id] and [createdAt]; the handlers never
    supply [isRead]. *)
Module InsertAlert.
Record t : Type := mk {
  type : string;
  severity : string;
  title : string;
  description : string;
  gateLocation : option string;
  metadata : Json
}.
End InsertAlert.
Abbreviation InsertAlert := InsertAlert.t.

(** [StudentWithVehicle = Student & { vehicle?: Vehicle }] *)
Module StudentWithVehicle.
Record t : Type := mk {
  student : Student;
  vehicle : option Vehicle
}.
Definition id (s : t) : string := Student.id (student s).
Definition isActive (s : t) : option bool := Student.isActive (student s).
End StudentWithVehicle.
Abbreviation StudentWithVehicle := StudentWithVehicle.t.

(** Result of [verifyStudentAndVehicle]. *)
Module Verification.
Record t : Type := mk {
  student : option StudentWithVehicle;
  vehicle : option Vehicle;
  isValid : bool;
  reason : option string
}.
End Verification.
Abbreviation Verification := Verification.t.

(** Result of [getDashboardStats]. *)
Module Stats.
Record t : Type := mk {
  totalAccess : nat;
  granted : nat;
  denied : nat;
  activeGates : nat
}.
End Stats.
Abbreviation Stats := Stats.t.

(** ** JavaScript [Map<string, V>] in insertion order *)

Module JsMap.
Section WithValue.
Variable V : Type.

Definition t : Type := list (string * V).

Definition empty : t := [].

Fixpoint get (k : string) (m : t) : option V :=
  match m with
  | [] => None
  | (k', v) :: rest => if String.eqb k k' then Some v else get k rest
  end.

(** [set] keeps the position of a key that is already present and
    appends a new key at the end. *)
Fixpoint set (k : string) (v : V) (m : t) : t :=
  match m with
  | [] => [(k, v)]
  | (k', v') :: rest =>
      if String.eqb k k' then (k', v) :: rest else (k', v') :: set k v rest
  end.

Definition values (m : t) : list V := map snd m.

Definition keys (m : t) : list string := map fst m.

Definition has (k : string) (m : t) : bool :=
  match get k m with
  | Some _ => true
  | None => false
  end.
End WithValue.

Arguments empty {V}.
End JsMap.

(** ** Runtime oracle: generated ids and the clock *)

(** The database server behind [db]: the generators of the column
    defaults [gen_random_uuid()] and [now()] of the schema. *)
Record Postgres : Type := mkPostgres {
  gen_random_uuid : nat -> string;   (* the n-th value of [gen_random_uuid()] *)
  uuid_draws : nat;
  now : nat -> Z;                    (* the n-th value of [now()] *)
  now_reads : nat
}.

Record Runtime : Type := mkRuntime {
  uuids : nat -> string;      (* the n-th generated id *)
  uuid_calls : nat;
  clock : nat -> Z;           (* the n-th reading of [new Date()] *)
  clock_reads : nat;
  startOfDay : Z -> Z;        (* [d.setHours(0, 0, 0, 0)] *)
  nextDay : Z -> Z;           (* [d.setDate(d.getDate() + 1)] *)
  postgres : Postgres         (* the database server, when there is one *)
}.

(** [globalThis.crypto?.randomUUID?.() ?? `${Date.now()}-${Math.random()}`] *)
Definition generateId (rt : Runtime) : string * Runtime :=
  (uuids rt (uuid_calls rt),
   mkRuntime (uuids rt) (S (uuid_calls rt)) (clock rt) (clock_reads rt)
             (startOfDay rt) (nextDay rt) (postgres rt)).

(** [new Date()] *)
Definition newDate (rt : Runtime) : Z * Runtime :=
  (clock rt (clock_reads rt),
   mkRuntime (uuids rt) (uuid_calls rt) (clock rt) (S (clock_reads rt))
             (startOfDay rt) (nextDay rt) (postgres rt)).

(** The column defaults of one inserted row: the database server draws the
    id and reads its own clock; the process's generator and clock are not
    consulted. *)
Definition insertDefaults (rt : Runtime) : string * Z * Runtime :=
  let pg := postgres rt in
  (gen_random_uuid pg (uuid_draws pg),
   now pg (now_reads pg),
   mkRuntime (uuids rt) (uuid_calls rt) (clock rt) (clock_reads rt)
             (startOfDay rt) (nextDay rt)
             (mkPostgres (gen_random_uuid pg) (S (uuid_draws pg))
                         (now pg) (S (now_reads pg)))).

(** ** Outcome of a call that may throw *)

Inductive Outcome (A : Type) : Type :=
| Ok (a : A)
| Throw (msg : string).
Arguments Ok {A} a.
Arguments Throw {A} msg.

(** The four branches of the verification decision, shared text of the two
    storage classes. *)
Definition reason_student_not_found : string := "Student ID not found".
Definition reason_vehicle_not_registered : string := "Vehicle not registered".
Definition reason_not_owner : string := "Vehicle does not belong to this student".
Definition reason_inactive : string := "Student or vehicle is inactive".

(** A storage method: reads and updates the store [S], may consult the
    runtime, may throw. *)
Definition Op (S A : Type) : Type := S -> Runtime -> Outcome A * S * Runtime.

(** A method that only reads the store. *)
Definition pureOp {S A : Type} (f : S -> A) : Op S A :=
  fun this rt => (Ok (f this), this, rt).

(** ** [class MemoryStorage implements IStorage] *)

Module MemoryStorage.
Record t : Type := mk {
  students : JsMap.t Student;
  vehicles : JsMap.t Vehicle;
  accessLogs : JsMap.t AccessLog;
  alerts : JsMap.t Alert
}.

Definition empty : t := mk JsMap.empty JsMap.empty JsMap.empty JsMap.empty.

Definition getStudentByStudentId (studentId : string) (this : t)
  : option StudentWithVehicle :=
  match find (fun s => String.eqb (Student.studentId s) studentId)
             (JsMap.values (students this)) with
  | None => None
  | Some student =>
      let vehicle :=
        find (fun v => String.eqb (Vehicle.studentId v) (Student.id student))
             (JsMap.values (vehicles this)) in
      Some (StudentWithVehicle.mk student vehicle)
  end.

Definition getVehicleByPlate (plateNumber : string) (this : t)
  : option Vehicle :=
  find (fun v => String.eqb (Vehicle.plateNumber v) plateNumber)
       (JsMap.values (vehicles this)).

Definition createAccessLog (logInput : InsertAccessLog) (this : t)
  (rt : Runtime) : AccessLog * t * Runtime :=
  let (id, rt1) := generateId rt in
  let (now, rt2) := newDate rt1 in
  let log :=
    AccessLog.mk id
      (InsertAccessLog.studentId logInput)
      (InsertAccessLog.vehicleId logInput)
      (InsertAccessLog.plateNumber logInput)
      (InsertAccessLog.gateLocation logInput)
      (InsertAccessLog.accessStatus logInput)
      (InsertAccessLog.reason logInput)
      (Some now)
      (InsertAccessLog.metadata logInput) in
  (log,
   mk (students this) (vehicles this)
      (JsMap.set id log (accessLogs this)) (alerts this),
   rt2).

Definition createAlert (alertInput : InsertAlert) (this : t)
  (rt : Runtime) : Alert * t * Runtime :=
  let (id, rt1) := generateId rt in
  let (now, rt2) := newDate rt1 in
  let alert :=
    Alert.mk id
      (InsertAlert.type alertInput)
      (InsertAlert.severity alertInput)
      (InsertAlert.title alertInput)
      (InsertAlert.description alertInput)
      (InsertAlert.gateLocation alertInput)
      (InsertAlert.metadata alertInput)
      (Some false)
      (Some now) in
  (alert,
   mk (students this) (vehicles this) (accessLogs this)
      (JsMap.set id alert (alerts this)),
   rt2).

Definition markAlertAsRead (id : string) (this : t) : t :=
  match JsMap.get id (alerts this) with
  | Some alert =>
      mk (students this) (vehicles this) (accessLogs this)
         (JsMap.set id (Alert.markRead alert) (alerts this))
  | None => this
  end.

(** [new Date(l.timestamp).getTime()]; [new Date(null)] is the epoch. *)
Definition getTime (ts : option Z) : Z :=
  match ts with
  | Some t => t
  | None => 0%Z
  end.

Definition getDashboardStats (this : t) (rt : Runtime) : Stats * Runtime :=
  let (now, rt1) := newDate rt in
  let today := startOfDay rt now in
  let tomorrow := nextDay rt today in
  let todayLogs :=
    filter (fun l =>
              let t := getTime (AccessLog.timestamp l) in
              (today <=? t)%Z && (t <? tomorrow)%Z)
           (JsMap.values (accessLogs this)) in
  let granted :=
    List.length (filter (fun l => String.eqb (AccessLog.accessStatus l) "granted")
                   todayLogs) in
  let denied :=
    List.length (filter (fun l => String.eqb (AccessLog.accessStatus l) "denied")
                   todayLogs) in
  (Stats.mk (List.length todayLogs) granted denied 2, rt1).

Definition verifyStudentAndVehicle (studentId plateNumber : string)
  (this : t) : Verification :=
  let studentWithVehicle := getStudentByStudentId studentId this in
  let vehicle := getVehicleByPlate plateNumber this in
  match studentWithVehicle with
  | None =>
      Verification.mk None None false (Some reason_student_not_found)
  | Some student =>
      match vehicle with
      | None =>
          Verification.mk (Some student) None false
            (Some reason_vehicle_not_registered)
      | Some v =>
          if negb (String.eqb (Vehicle.studentId v)
                              (StudentWithVehicle.id student))
          then Verification.mk (Some student) (Some v) false
                 (Some reason_not_owner)
          else if negb (truthy (StudentWithVehicle.isActive student))
                  || negb (truthy (Vehicle.isActive v))
          then Verification.mk (Some student) (Some v) false
                 (Some reason_inactive)
          else Verification.mk (Some student) (Some v) true None
      end
  end.
End MemoryStorage.

(** ** Relational queries issued through the ORM *)

Module Sql.
Section Join.
Variables A B : Type.

(** [from(a).leftJoin(b, on)]: every left row paired with each matching
    right row, or with [null] when none matches. *)
Definition leftJoin (l : list A) (r : list B) (on : A -> B -> bool)
  : list (A * option B) :=
  flat_map
    (fun a =>
       match filter (on a) r with
       | [] => [(a, None)]
       | bs => map (fun b => (a, Some b)) bs
       end)
    l.
End Join.

Definition where_ {A : Type} (p : A -> bool) (rows : list A) : list A :=
  filter p rows.

Definition limit {A : Type} (n : nat) (rows : list A) : list A :=
  firstn n rows.
End Sql.

(** ** [class DrizzleStorage implements IStorage] *)

Module DrizzleStorage.
(** The four tables of the schema. *)
Record t : Type := mk {
  students : list Student;
  vehicles : list Vehicle;
  accessLogs : list AccessLog;
  alerts : list Alert
}.

Definition getStudentByStudentId (studentId : string) (db : t)
  : option StudentWithVehicle :=
  let result :=
    Sql.limit 1
      (Sql.where_
         (fun row => String.eqb (Student.studentId (fst row)) studentId)
         (Sql.leftJoin (students db) (vehicles db)
            (fun s v => String.eqb (Student.id s) (Vehicle.studentId v)))) in
  match result with
  | [] => None
  | row :: _ => Some (StudentWithVehicle.mk (fst row) (snd row))
  end.

Definition getVehicleByPlate (plateNumber : string) (db : t)
  : option Vehicle :=
  hd_error
    (Sql.limit 1
       (Sql.where_
          (fun v => String.eqb (Vehicle.plateNumber v) plateNumber)
          (vehicles db))).

Definition existsb_id {A : Type} (key : A -> string) (id : string)
  (rows : list A) : bool :=
  existsb (fun r => String.eqb (key r) id) rows.

(** A nullable foreign key holds when it is [null] or names a row. *)
Definition references {A : Type} (key : A -> string) (fk : option string)
  (rows : list A) : bool :=
  match fk with
  | None => true
  | Some id => existsb_id key id rows
  end.

(** [db.insert(accessLogs).values(log).returning()]: the defaults
    [gen_random_uuid()] and [now()] fill [id] and [timestamp]; the insert
    is rejected when a NOT NULL, foreign key or primary key constraint of
    the table fails. *)
Definition createAccessLog (log : InsertAccessLog) : Op t AccessLog :=
  fun db rt =>
    let '(id, now, rt2) := insertDefaults rt in
    let row :=
      AccessLog.mk id
        (InsertAccessLog.studentId log)
        (InsertAccessLog.vehicleId log)
        (InsertAccessLog.plateNumber log)
        (InsertAccessLog.gateLocation log)
        (InsertAccessLog.accessStatus log)
        (InsertAccessLog.reason log)
        (Some now)
        (InsertAccessLog.metadata log) in
    match InsertAccessLog.gateLocation log with
    | None => (Throw "null value in column gate_location", db, rt2)
    | Some _ =>
        if negb (references Student.id (InsertAccessLog.studentId log)
                            (students db))
           || negb (references Vehicle.id (InsertAccessLog.vehicleId log)
                               (vehicles db))
        then (Throw "foreign key violation on access_logs", db, rt2)
        else if existsb_id AccessLog.id id (accessLogs db)
        then (Throw "duplicate key on access_logs", db, rt2)
        else (Ok row,
              mk (students db) (vehicles db) (accessLogs db ++ [row])
                 (alerts db),
              rt2)
    end.

(** [db.insert(alerts).values(alert).returning()]: the defaults
    [gen_random_uuid()], [false] and [now()] fill [id], [isRead] and
    [createdAt]. *)
Definition createAlert (alert : InsertAlert) : Op t Alert :=
  fun db rt =>
    let '(id, now, rt2) := insertDefaults rt in
    let row :=
      Alert.mk id
        (InsertAlert.type alert)
        (InsertAlert.severity alert)
        (InsertAlert.title alert)
        (InsertAlert.description alert)
        (InsertAlert.gateLocation alert)
        (InsertAlert.metadata alert)
        (Some false)
        (Some now) in
    if existsb_id Alert.id id (alerts db)
    then (Throw "duplicate key on alerts", db, rt2)
    else (Ok row,
          mk (students db) (vehicles db) (accessLogs db)
             (alerts db ++ [row]),
          rt2).

(** [db.update(alerts).set({ isRead: true }).where(eq(alerts.id, id))] *)
Definition markAlertAsRead (id : string) (db : t) : t :=
  mk (students db) (vehicles db) (accessLogs db)
     (map (fun a => if String.eqb (Alert.id a) id then Alert.markRead a else a)
          (alerts db)).

(** [gte(timestamp, today)] and [lt(timestamp, tomorrow)]: a [null]
    timestamp satisfies neither comparison. *)
Definition inRange (today tomorrow : Z) (ts : option Z) : bool :=
  match ts with
  | Some t => (today <=? t)%Z && (t <? tomorrow)%Z
  | None => false
  end.

Definition getDashboardStats (db : t) (rt : Runtime) : Stats * Runtime :=
  let (now, rt1) := newDate rt in
  let today := startOfDay rt now in
  let tomorrow := nextDay rt today in
  let todayLogs :=
    Sql.where_ (fun l => inRange today tomorrow (AccessLog.timestamp l))
               (accessLogs db) in
  let granted :=
    List.length (filter (fun l => String.eqb (AccessLog.accessStatus l) "granted")
                   todayLogs) in
  let denied :=
    List.length (filter (fun l => String.eqb (AccessLog.accessStatus l) "denied")
                   todayLogs) in
  (Stats.mk (List.length todayLogs) granted denied 2, rt1).

Definition verifyStudentAndVehicle (studentId plateNumber : string)
  (db : t) : Verification :=
  let student := getStudentByStudentId studentId db in
  let vehicle := getVehicleByPlate plateNumber db in
  match student with
  | None =>
      Verification.mk None None false (Some reason_student_not_found)
  | Some s =>
      match vehicle with
      | None =>
          Verification.mk (Some s) None false
            (Some reason_vehicle_not_registered)
      | Some v =>
          if negb (String.eqb (Vehicle.studentId v) (StudentWithVehicle.id s))
          then Verification.mk (Some s) (Some v) false
                 (Some reason_not_owner)
          else if negb (truthy (StudentWithVehicle.isActive s))
                  || negb (truthy (Vehicle.isActive v))
          then Verification.mk (Some s) (Some v) false
                 (Some reason_inactive)
          else Verification.mk (Some s) (Some v) true None
      end
  end.
End DrizzleStorage.

(** ** [interface IStorage]: the methods the gate routes call *)

Class IStorage (S : Type) : Type := {
  getStudentByStudentId : string -> Op S (option StudentWithVehicle);
  getVehicleByPlate : string -> Op S (option Vehicle);
  createAccessLog : InsertAccessLog -> Op S AccessLog;
  createAlert : InsertAlert -> Op S Alert;
  markAlertAsRead : string -> Op S unit;
  getDashboardStats : Op S Stats;
  verifyStudentAndVehicle : string -> string -> Op S Verification
}.

#[export] Instance MemoryStorage_IStorage : IStorage MemoryStorage.t := {
  getStudentByStudentId studentId :=
    pureOp (MemoryStorage.getStudentByStudentId studentId);
  getVehicleByPlate plateNumber :=
    pureOp (MemoryStorage.getVehicleByPlate plateNumber);
  createAccessLog logInput := fun this rt =>
    let '(log, this', rt') := MemoryStorage.createAccessLog logInput this rt in
    (Ok log, this', rt');
  createAlert alertInput := fun this rt =>
    let '(alert, this', rt') := MemoryStorage.createAlert alertInput this rt in
    (Ok alert, this', rt');
  markAlertAsRead id := fun this rt =>
    (Ok tt, MemoryStorage.markAlertAsRead id this, rt);
  getDashboardStats := fun this rt =>
    let (stats, rt') := MemoryStorage.getDashboardStats this rt in
    (Ok stats, this, rt');
  verifyStudentAndVehicle studentId plateNumber :=
    pureOp (MemoryStorage.verifyStudentAndVehicle studentId plateNumber)
}.

#[export] Instance DrizzleStorage_IStorage : IStorage DrizzleStorage.t := {
  getStudentByStudentId studentId :=
    pureOp (DrizzleStorage.getStudentByStudentId studentId);
  getVehicleByPlate plateNumber :=
    pureOp (DrizzleStorage.getVehicleByPlate plateNumber);
  createAccessLog := DrizzleStorage.createAccessLog;
  createAlert := DrizzleStorage.createAlert;
  markAlertAsRead id := fun db rt =>
    (Ok tt, DrizzleStorage.markAlertAsRead id db, rt);
  getDashboardStats := fun db rt =>
    let (stats, rt') := DrizzleStorage.getDashboardStats db rt in
    (Ok stats, db, rt');
  verifyStudentAndVehicle studentId plateNumber :=
    pureOp (DrizzleStorage.verifyStudentAndVehicle studentId plateNumber)
}.

(** ** WebSocket observers and messages ([server/routes.ts]) *)

Inductive ReadyState : Type := CONNECTING | OPEN | CLOSING | CLOSED.

Definition isOpen (s : ReadyState) : bool :=
  match s with
  | OPEN => true
  | _ => false
  end.

Module WebSocket.
Record t : Type := mk {
  socketId : nat;
  readyState : ReadyState;
  sent : list string          (* frames written to the transport so far *)
}.

(** [client.send(data)]: writes the frame on an open transport, throws
    while the socket is still connecting, and drops the frame once the
    socket is closing or closed. *)
Definition send (data : string) (client : t) : Outcome unit * t :=
  match readyState client with
  | OPEN => (Ok tt, mk (socketId client) OPEN (sent client ++ [data]))
  | CONNECTING => (Throw "WebSocket is not open: readyState 0", client)
  | CLOSING | CLOSED => (Ok tt, client)
  end.
End WebSocket.
Abbreviation WebSocket := WebSocket.t.

(** [{ ...accessLog, student, vehicle }] *)
Module LogWithDetails.
Record t : Type := mk {
  accessLog : AccessLog;
  student : option StudentWithVehicle;
  vehicle : option Vehicle
}.
End LogWithDetails.
Abbreviation LogWithDetails := LogWithDetails.t.

(** The [data] carried by the events of the gate routes. *)
Inductive Payload : Type :=
| PAlert (alert : Alert)
| PLog (log : LogWithDetails).

Module WebSocketMessage.
Record t : Type := mk {
  type : string;
  data : Payload
}.
End WebSocketMessage.
Abbreviation WebSocketMessage := WebSocketMessage.t.

(** ** Requests and responses of the routes *)

(** [req.body] of [POST /api/verify-access]; [None] is a missing field. *)
Module VerifyBody.
Record t : Type := mk {
  studentId : option string;
  plateNumber : option string;
  gateLocation : option string
}.
End VerifyBody.

(** [req.body] of [POST /api/grant-access]. The handler hands [studentId]
    and [plateNumber] to the storage unchecked, where the interface takes
    strings. *)
Module GrantBody.
Record t : Type := mk {
  studentId : string;
  plateNumber : string;
  gateLocation : option string
}.
End GrantBody.

(** [req.body] of [POST /api/deny-access]. *)
Module DenyBody.
Record t : Type := mk {
  studentId : option string;
  plateNumber : option string;
  gateLocation : option string;
  reason : option string
}.
End DenyBody.

Inductive Body : Type :=
| BError (error : string)
| BSuccess
| BStats (stats : Stats)
| BVerification (verification : Verification) (accessLog : LogWithDetails)
| BGranted (accessLog : LogWithDetails)
| BDenied (accessLog : LogWithDetails) (alert : Alert).

Module Response.
Record t : Type := mk {
  status : nat;
  body : Body
}.
(** [res.json(b)] *)
Definition json (b : Body) : t := mk 200 b.
(** [res.status(code).json({ error })] *)
Definition error (code : nat) (msg : string) : t := mk code (BError msg).
End Response.
Abbreviation Response := Response.t.

(** ** The server process *)

(** What a handler did, in order: the storage methods it called and the
    serialisations and deliveries of [broadcast]. The record is ghost state
    of the model; no code reads it. *)
Inductive Event : Type :=
| EGetStudentByStudentId (studentId : string)
| EGetVehicleByPlate (plateNumber : string)
| EVerifyStudentAndVehicle (studentId plateNumber : string)
| ECreateAccessLog (log : InsertAccessLog)
| ECreateAlert (alert : InsertAlert)
| EMarkAlertAsRead (id : string)
| EGetDashboardStats
| EStringify (message : WebSocketMessage)
| ESend (socketId : nat) (data : string).

Definition isCreateAlert (e : Event) : bool :=
  match e with
  | ECreateAlert _ => true
  | _ => false
  end.

Definition isCreateAccessLog (e : Event) : bool :=
  match e with
  | ECreateAccessLog _ => true
  | _ => false
  end.

Definition isLookup (e : Event) : bool :=
  match e with
  | EGetStudentByStudentId _ | EGetVehicleByPlate _
  | EVerifyStudentAndVehicle _ _ => true
  | _ => false
  end.

Definition isBroadcast (e : Event) : bool :=
  match e with
  | EStringify _ | ESend _ _ => true
  | _ => false
  end.

Module World.
Record t (S : Type) : Type := mk {
  storage : S;
  runtime : Runtime;
  connectedClients : list WebSocket;
  trace : list Event
}.
Arguments mk {S}.
End World.
Abbreviation World := World.t.

(** A computation inside a route handler: it may throw, and what it did to
    the process before throwing stays done. *)
Definition Handler (S A : Type) : Type := World S -> Outcome A * World S.

Definition ret {S A : Type} (a : A) : Handler S A := fun w => (Ok a, w).

Definition bind {S A B : Type} (m : Handler S A) (k : A -> Handler S B)
  : Handler S B :=
  fun w =>
    match m w with
    | (Ok a, w') => k a w'
    | (Throw e, w') => (Throw e, w')
    end.

Declare Scope handler_scope.
Delimit Scope handler_scope with handler.
Notation "x <- m ;; k" := (bind m (fun x => k))
  (at level 100, m at next level, right associativity) : handler_scope.
Notation "m ;;; k" := (bind m (fun _ => k))
  (at level 100, right associativity) : handler_scope.

(** [try { body } catch (error) { res.status(500).json({ error: msg }) }] *)
Definition tryCatch {S : Type} (body : Handler S Response) (msg : string)
  : World S -> Response * World S :=
  fun w =>
    match body w with
    | (Ok r, w') => (r, w')
    | (Throw _, w') => (Response.error 500 msg, w')
    end.

(** [await storage.method(...)], recorded in the trace. *)
Definition await {S A : Type} (e : Event) (op : Op S A) : Handler S A :=
  fun w =>
    let '(r, s', rt') := op (World.storage w) (World.runtime w) in
    (r, World.mk s' rt' (World.connectedClients w) (World.trace w ++ [e])).

(** The body of [connectedClients.forEach] in [broadcast], client by
    client: the outcome, the clients afterwards and the deliveries made. *)
Fixpoint forEachClient (messageStr : string) (clients : list WebSocket)
  : Outcome unit * list WebSocket * list Event :=
  match clients with
  | [] => (Ok tt, [], [])
  | client :: rest =>
      if isOpen (WebSocket.readyState client) then
        match WebSocket.send messageStr client with
        | (Ok _, client') =>
            let '(r, rest', evs) := forEachClient messageStr rest in
            (r, client' :: rest',
             ESend (WebSocket.socketId client) messageStr :: evs)
        | (Throw e, client') =>
            (Throw e, client' :: rest,
             [ESend (WebSocket.socketId client) messageStr])
        end
      else
        let '(r, rest', evs) := forEachClient messageStr rest in
        (r, client :: rest', evs)
  end.

(** The value of a field the guard has found truthy. *)
Definition the (s : option string) : string :=
  match s with
  | Some s' => s'
  | None => ""
  end.

(** [`${x}`] for a possibly undefined string. *)
Definition interpolate (s : option string) : string :=
  match s with
  | Some s' => s'
  | None => "undefined"
  end.

(** The object literals the routes pass to the storage. *)

(** [POST /api/verify-access]: the argument of [storage.createAccessLog]. *)
Definition verifyAccessLog (body : VerifyBody.t) (verification : Verification)
  : InsertAccessLog :=
  InsertAccessLog.mk
    (or_null (option_map StudentWithVehicle.id
                         (Verification.student verification)))
    (or_null (option_map Vehicle.id (Verification.vehicle verification)))
    (VerifyBody.plateNumber body)
    (VerifyBody.gateLocation body)
    (if Verification.isValid verification then "granted" else "denied")
    (Verification.reason verification)
    (JObj [("confidence", JNum 100)]).

(** [POST /api/verify-access]: the argument of [storage.createAlert]. *)
Definition verifyAlert (body : VerifyBody.t) (verification : Verification)
  : InsertAlert :=
  InsertAlert.mk
    "unauthorized_access"
    "critical"
    "Unauthorized Access Attempt"
    (interpolate (Verification.reason verification)
     ++ " - Vehicle: " ++ the (VerifyBody.plateNumber body))
    (VerifyBody.gateLocation body)
    (JObj [("studentId", json_of_field (VerifyBody.studentId body));
           ("plateNumber", json_of_field (VerifyBody.plateNumber body))]).

(** [POST /api/grant-access]: the argument of [storage.createAccessLog]. *)
Definition grantAccessLog (body : GrantBody.t)
  (student : option StudentWithVehicle) (vehicle : option Vehicle)
  : InsertAccessLog :=
  InsertAccessLog.mk
    (or_null (option_map StudentWithVehicle.id student))
    (or_null (option_map Vehicle.id vehicle))
    (Some (GrantBody.plateNumber body))
    (GrantBody.gateLocation body)
    "granted"
    (Some "Manual approval")
    (JObj [("manual", JBool true)]).

(** [POST /api/deny-access]: the argument of [storage.createAccessLog]. *)
Definition denyAccessLog (body : DenyBody.t)
  (student : option StudentWithVehicle) (vehicle : option Vehicle)
  : InsertAccessLog :=
  InsertAccessLog.mk
    (or_null (option_map StudentWithVehicle.id student))
    (or_null (option_map Vehicle.id vehicle))
    (Some (or_default (DenyBody.plateNumber body) "Unknown"))
    (DenyBody.gateLocation body)
    "denied"
    (Some (or_default (DenyBody.reason body) "Manual denial"))
    (JObj [("manual", JBool true)]).

(** [POST /api/deny-access]: the argument of [storage.createAlert]. *)
Definition denyAlert (body : DenyBody.t) : InsertAlert :=
  InsertAlert.mk
    "unauthorized_access"
    "critical"
    "Access Manually Denied"
    (or_default (DenyBody.reason body) "Manual denial" ++ " - Vehicle: "
     ++ or_default (DenyBody.plateNumber body) "Unknown")
    (DenyBody.gateLocation body)
    (JObj [("studentId", json_of_field (DenyBody.studentId body));
           ("plateNumber", json_of_field (DenyBody.plateNumber body));
           ("manual", JBool true)]).

(** The guard of [POST /api/verify-access]:
    [!studentId || !plateNumber || !gateLocation]. *)
Definition missingFields (body : VerifyBody.t) : bool :=
  negb (truthy_str (VerifyBody.studentId body))
  || negb (truthy_str (VerifyBody.plateNumber body))
  || negb (truthy_str (VerifyBody.gateLocation body)).

Section Routes.
Context {S : Type} `{IStorage S}.
(** [JSON.stringify] on messages. *)
Variable JSON_stringify : WebSocketMessage -> string.

Local Open Scope handler_scope.

Definition broadcast (message : WebSocketMessage) : Handler S unit :=
  fun w =>
    let messageStr := JSON_stringify message in
    let '(r, clients', evs) :=
      forEachClient messageStr (World.connectedClients w) in
    (r, World.mk (World.storage w) (World.runtime w) clients'
                 (World.trace w ++ EStringify message :: evs)).

(** [app.get("/api/dashboard/stats", ...)] *)
Definition get_dashboard_stats : World S -> Response * World S :=
  tryCatch
    (stats <- await EGetDashboardStats getDashboardStats ;;
     ret (Response.json (BStats stats)))
    "Failed to fetch dashboard stats".

(** [app.post("/api/verify-access", ...)] *)
Definition post_verify_access (body : VerifyBody.t)
  : World S -> Response * World S :=
  tryCatch
    (let studentId := VerifyBody.studentId body in
     let plateNumber := VerifyBody.plateNumber body in
     if missingFields body
     then ret (Response.error 400 "Missing required fields")
     else
       verification <-
         await (EVerifyStudentAndVehicle (the studentId) (the plateNumber))
               (verifyStudentAndVehicle (the studentId) (the plateNumber)) ;;
       let logInput := verifyAccessLog body verification in
       accessLog <- await (ECreateAccessLog logInput)
                          (createAccessLog logInput) ;;
       (if negb (Verification.isValid verification) then
          let alertInput := verifyAlert body verification in
          alert <- await (ECreateAlert alertInput) (createAlert alertInput) ;;
          broadcast (WebSocketMessage.mk "new_alert" (PAlert alert))
        else ret tt) ;;;
       let logWithDetails :=
         LogWithDetails.mk accessLog
           (Verification.student verification)
           (Verification.vehicle verification) in
       broadcast (WebSocketMessage.mk "access_log" (PLog logWithDetails)) ;;;
       ret (Response.json (BVerification verification logWithDetails)))
    "Failed to verify access".

(** [app.put("/api/alerts/:id/read", ...)] *)
Definition put_alert_read (id : string) : World S -> Response * World S :=
  tryCatch
    (await (EMarkAlertAsRead id) (markAlertAsRead id) ;;;
     ret (Response.json BSuccess))
    "Failed to mark alert as read".

(** [app.post("/api/grant-access", ...)] *)
Definition post_grant_access (body : GrantBody.t)
  : World S -> Response * World S :=
  tryCatch
    (let studentId := GrantBody.studentId body in
     let plateNumber := GrantBody.plateNumber body in
     student <- await (EGetStudentByStudentId studentId)
                      (getStudentByStudentId studentId) ;;
     vehicle <- await (EGetVehicleByPlate plateNumber)
                      (getVehicleByPlate plateNumber) ;;
     let logInput := grantAccessLog body student vehicle in
     accessLog <- await (ECreateAccessLog logInput)
                        (createAccessLog logInput) ;;
     let logWithDetails := LogWithDetails.mk accessLog student vehicle in
     broadcast (WebSocketMessage.mk "access_granted" (PLog logWithDetails)) ;;;
     ret (Response.json (BGranted logWithDetails)))
    "Failed to grant access".

(** [app.post("/api/deny-access", ...)] *)
Definition post_deny_access (body : DenyBody.t)
  : World S -> Response * World S :=
  tryCatch
    (let studentId := DenyBody.studentId body in
     let plateNumber := DenyBody.plateNumber body in
     student <-
       (if truthy_str studentId
        then await (EGetStudentByStudentId (the studentId))
                   (getStudentByStudentId (the studentId))
        else ret None) ;;
     vehicle <-
       (if truthy_str plateNumber
        then await (EGetVehicleByPlate (the plateNumber))
                   (getVehicleByPlate (the plateNumber))
        else ret None) ;;
     let logInput := denyAccessLog body student vehicle in
     accessLog <- await (ECreateAccessLog logInput)
                        (createAccessLog logInput) ;;
     let alertInput := denyAlert body in
     alert <- await (ECreateAlert alertInput) (createAlert alertInput) ;;
     let logWithDetails := LogWithDetails.mk accessLog student vehicle in
     broadcast (WebSocketMessage.mk "access_denied" (PLog logWithDetails)) ;;;
     broadcast (WebSocketMessage.mk "new_alert" (PAlert alert)) ;;;
     ret (Response.json (BDenied logWithDetails alert)))
    "Failed to deny access".
End Routes.

(** [export const storage: IStorage =
      hasDatabaseUrl ? new DrizzleStorage() : new MemoryStorage()] *)
Definition StorageState (hasDatabaseUrl : bool) : Type :=
  if hasDatabaseUrl then DrizzleStorage.t else MemoryStorage.t.

Definition storage (hasDatabaseUrl : bool)
  : IStorage (StorageState hasDatabaseUrl) :=
  match hasDatabaseUrl as b return IStorage (StorageState b) with
  | true => DrizzleStorage_IStorage
  | false => MemoryStorage_IStorage
  end.

(** ** Specification vocabulary *)

(** The decision both storage classes take once the two lookups are done. *)
Definition verdict (student : option StudentWithVehicle)
  (vehicle : option Vehicle) : Verification :=
  match student with
  | None => Verification.mk None None false (Some reason_student_not_found)
  | Some s =>
      match vehicle with
      | None =>
          Verification.mk (Some s) None false
            (Some reason_vehicle_not_registered)
      | Some v =>
          if negb (String.eqb (Vehicle.studentId v) (StudentWithVehicle.id s))
          then Verification.mk (Some s) (Some v) false (Some reason_not_owner)
          else if negb (truthy (StudentWithVehicle.isActive s))
                  || negb (truthy (Vehicle.isActive v))
          then Verification.mk (Some s) (Some v) false (Some reason_inactive)
          else Verification.mk (Some s) (Some v) true None
      end
  end.

(** The four checks of the verification, in the order they are made. *)
Inductive Check : Type :=
| IdentityResolved
| VehicleResolved
| VehicleOwnedByIdentity
| BothActive.

(** The first check that fails on a pair of lookup results, if any. *)
Definition firstFailing (student : option StudentWithVehicle)
  (vehicle : option Vehicle) : option Check :=
  match student, vehicle with
  | None, _ => Some IdentityResolved
  | Some _, None => Some VehicleResolved
  | Some s, Some v =>
      if negb (String.eqb (Vehicle.studentId v) (StudentWithVehicle.id s))
      then Some VehicleOwnedByIdentity
      else if truthy (StudentWithVehicle.isActive s)
              && truthy (Vehicle.isActive v)
      then None
      else Some BothActive
  end.

(** The reason the code reports for a failed check. *)
Definition reasonOf (c : Check) : string :=
  match c with
  | IdentityResolved => "Student ID not found"
  | VehicleResolved => "Vehicle not registered"
  | VehicleOwnedByIdentity => "Vehicle does not belong to this student"
  | BothActive => "Student or vehicle is inactive"
  end.

(** The same store content held by the database and by the in-memory
    maps: each table lists the values of the corresponding map. *)
Definition represents (db : DrizzleStorage.t) (m : MemoryStorage.t) : Prop :=
  DrizzleStorage.students db = JsMap.values (MemoryStorage.students m)
  /\ DrizzleStorage.vehicles db = JsMap.values (MemoryStorage.vehicles m)
  /\ DrizzleStorage.accessLogs db = JsMap.values (MemoryStorage.accessLogs m)
  /\ DrizzleStorage.alerts db = JsMap.values (MemoryStorage.alerts m).

(** A lookup by external id resolves a stored student carrying that id,
    and resolves nothing only when no stored student carries it. *)
Definition resolvesIdentity (studentId : string) (rows : list Student)
  (found : option StudentWithVehicle) : Prop :=
  match found with
  | Some s =>
      In (StudentWithVehicle.student s) rows
      /\ Student.studentId (StudentWithVehicle.student s) = studentId
  | None => forall x, In x rows -> Student.studentId x <> studentId
  end.

(** A lookup by plate resolves a stored vehicle carrying that plate, and
    resolves nothing only when no stored vehicle carries it. *)
Definition resolvesVehicle (plateNumber : string) (rows : list Vehicle)
  (found : option Vehicle) : Prop :=
  match found with
  | Some v => In v rows /\ Vehicle.plateNumber v = plateNumber
  | None => forall x, In x rows -> Vehicle.plateNumber x <> plateNumber
  end.

(** The verdict [r] on the lookup results [student] and [vehicle] is valid
    exactly when all four checks pass, is otherwise fixed by the first check
    that fails, and has no reason when valid. *)
Definition decidedInOrder (student : option StudentWithVehicle)
  (vehicle : option Vehicle) (r : Verification) : Prop :=
  (Verification.isValid r = true
   <-> exists s v,
         student = Some s /\ vehicle = Some v
         /\ Vehicle.studentId v = StudentWithVehicle.id s
         /\ StudentWithVehicle.isActive s = Some true
         /\ Vehicle.isActive v = Some true)
  /\ (student = None ->
      Verification.isValid r = false
      /\ Verification.reason r = Some (reasonOf IdentityResolved))
  /\ (forall s, student = Some s -> vehicle = None ->
      Verification.isValid r = false
      /\ Verification.reason r = Some (reasonOf VehicleResolved))
  /\ (forall s v, student = Some s -> vehicle = Some v ->
      Vehicle.studentId v <> StudentWithVehicle.id s ->
      Verification.isValid r = false
      /\ Verification.reason r = Some (reasonOf VehicleOwnedByIdentity))
  /\ (forall s v, student = Some s -> vehicle = Some v ->
      Vehicle.studentId v = StudentWithVehicle.id s ->
      StudentWithVehicle.isActive s <> Some true
      \/ Vehicle.isActive v <> Some true ->
      Verification.isValid r = false
      /\ Verification.reason r = Some (reasonOf BothActive))
  /\ (Verification.isValid r = true -> Verification.reason r = None).

(** What [broadcast] does to one observer. *)
Definition deliver (messageStr : string) (client : WebSocket) : WebSocket :=
  if isOpen (WebSocket.readyState client)
  then WebSocket.mk (WebSocket.socketId client) OPEN
                    (WebSocket.sent client ++ [messageStr])
  else client.

(** The deliveries of one broadcast, in order. *)
Definition deliveries (messageStr : string) (clients : list WebSocket)
  : list Event :=
  map (fun c => ESend (WebSocket.socketId c) messageStr)
      (filter (fun c => isOpen (WebSocket.readyState c)) clients).

(** The events a handler added to the trace. *)
Definition added (before after : list Event) (evs : list Event) : Prop :=
  after = (before ++ evs)%list.

(** Every stored log carries one of the two statuses of the schema. *)
Definition statusesWellFormed (logs : list AccessLog) : Prop :=
  forall l, In l logs ->
    AccessLog.accessStatus l = "granted" \/ AccessLog.accessStatus l = "denied".

(** A response that reports a denial: an invalid verdict of the automatic
    route, or the answer of the manual deny route. *)
Definition isDenial (r : Response) : bool :=
  match Response.body r with
  | BVerification v _ => negb (Verification.isValid v)
  | BDenied _ _ => true
  | _ => false
  end.

(** The process after one storage call that left the store [s] and the
    runtime [rt]. *)
Definition afterCall {S : Type} (e : Event) (s : S) (rt : Runtime)
  (w : World S) : World S :=
  World.mk s rt (World.connectedClients w) (World.trace w ++ [e]).

(** The process after one broadcast of [message]. *)
Definition afterBroadcast {S : Type}
  (JSON_stringify : WebSocketMessage -> string) (message : WebSocketMessage)
  (w : World S) : World S :=
  World.mk (World.storage w) (World.runtime w)
    (map (deliver (JSON_stringify message)) (World.connectedClients w))
    (World.trace w
     ++ EStringify message
        :: deliveries (JSON_stringify message) (World.connectedClients w)).

(** A request field that is missing or empty. *)
Definition absent (field : option string) : Prop :=
  field = None \/ field = Some "".

(** The log entry [MemoryStorage.createAccessLog] builds from its input
    when the runtime is [rt]: the next generated id and the current time
    around the fields of the input. *)
Definition memoryLog (rt : Runtime) (entry : InsertAccessLog) : AccessLog :=
  AccessLog.mk (uuids rt (uuid_calls rt))
    (InsertAccessLog.studentId entry)
    (InsertAccessLog.vehicleId entry)
    (InsertAccessLog.plateNumber entry)
    (InsertAccessLog.gateLocation entry)
    (InsertAccessLog.accessStatus entry)
    (InsertAccessLog.reason entry)
    (Some (clock rt (clock_reads rt)))
    (InsertAccessLog.metadata entry).

(** The alert [MemoryStorage.createAlert] builds from its input when the
    runtime is [rt]: unread, under the next generated id, at the current
    time. *)
Definition memoryAlert (rt : Runtime) (input : InsertAlert) : Alert :=
  Alert.mk (uuids rt (uuid_calls rt))
    (InsertAlert.type input)
    (InsertAlert.severity input)
    (InsertAlert.title input)
    (InsertAlert.description input)
    (InsertAlert.gateLocation input)
    (InsertAlert.metadata input)
    (Some false)
    (Some (clock rt (clock_reads rt))).

(** The runtime after [n] generated ids and [n] clock readings. *)
Definition advance (n : nat) (rt : Runtime) : Runtime :=
  mkRuntime (uuids rt) (n + uuid_calls rt) (clock rt) (n + clock_reads rt)
            (startOfDay rt) (nextDay rt) (postgres rt).

(** The same rows held by the database and by the in-memory maps, in any
    order: each table is a rearrangement of the values of the corresponding
    map. *)
Definition sameContent (db : DrizzleStorage.t) (m : MemoryStorage.t) : Prop :=
  Permutation (DrizzleStorage.students db)
              (JsMap.values (MemoryStorage.students m))
  /\ Permutation (DrizzleStorage.vehicles db)
                 (JsMap.values (MemoryStorage.vehicles m))
  /\ Permutation (DrizzleStorage.accessLogs db)
                 (JsMap.values (MemoryStorage.accessLogs m))
  /\ Permutation (DrizzleStorage.alerts db)
                 (JsMap.values (MemoryStorage.alerts m)).

(** An id generator that never returns the same id twice, as
    [crypto.randomUUID()] promises. *)
Definition neverRepeats (ids : nat -> string) : Prop :=
  forall i j, ids i = ids j -> i = j.

(** Every key of the map is an id the process generated earlier. *)
Definition drawnEarlier {V : Type} (rt : Runtime) (m : JsMap.t V) : Prop :=
  forall k, In k (JsMap.keys m) ->
            exists i, i < uuid_calls rt /\ k = uuids rt i.

(** The fields of a log entry that come from the input of the write:
    everything but the generated id and timestamp. *)
Definition entryOf (log : AccessLog) : InsertAccessLog :=
  InsertAccessLog.mk (AccessLog.studentId log) (AccessLog.vehicleId log)
    (AccessLog.plateNumber log) (AccessLog.gateLocation log)
    (AccessLog.accessStatus log) (AccessLog.reason log)
    (AccessLog.metadata log).

(** ** Sample data *)

(** A gate with one active student who owns one active vehicle. *)
Definition alice : Student :=
  Student.mk "u-1" "S100" "Alice" "R1" "CS" "2" "A" "555-0100"
             None (Some true) (Some 0%Z).

Definition car : Vehicle :=
  Vehicle.mk "v-1" "u-1" "ABC123" "car" None None (Some true) (Some 0%Z).

Definition campus : MemoryStorage.t :=
  MemoryStorage.mk [("u-1", alice)] [("v-1", car)] [] [].

Definition campus_db : DrizzleStorage.t :=
  DrizzleStorage.mk [alice] [car] [] [].

(** A second vehicle of Alice. *)
Definition van : Vehicle :=
  Vehicle.mk "v-2" "u-1" "VAN001" "van" None None (Some true) (Some 0%Z).

(** Alice owns the car and the van; the maps hold the car first. *)
Definition fleet : MemoryStorage.t :=
  MemoryStorage.mk [("u-1", alice)] [("v-1", car); ("v-2", van)] [] [].

(** The same rows in the database, with the vehicles table scanned van
    first. *)
Definition fleet_db : DrizzleStorage.t :=
  DrizzleStorage.mk [alice] [van; car] [] [].

Definition gateRuntime : Runtime :=
  mkRuntime (fun n => String (Ascii.ascii_of_nat (65 + n)) EmptyString) 0
            (fun n => Z.of_nat n) 0
            (fun _ => 0%Z) (fun _ => 86400000%Z)
            (mkPostgres
               (fun n => String (Ascii.ascii_of_nat (97 + n)) EmptyString) 0
               (fun n => Z.of_nat (100 + n)) 0).

(** An id generator that counts: [#], [I#], [II#], ... *)
Fixpoint tally (n : nat) : string :=
  match n with
  | 0 => "#"
  | S k => String (Ascii.ascii_of_nat 73) (tally k)
  end.

Definition countingRuntime : Runtime :=
  mkRuntime tally 0 (fun n => Z.of_nat n) 0
            (fun _ => 0%Z) (fun _ => 86400000%Z) (postgres gateRuntime).

Definition dashboard : WebSocket := WebSocket.mk 1 OPEN [].

Definition staleDashboard : WebSocket := WebSocket.mk 2 CLOSED [].

(** A stand-in for [JSON.stringify]: the event type of the message. *)
Definition typeOnly (message : WebSocketMessage) : string :=
  WebSocketMessage.type message.

Definition gate : World MemoryStorage.t :=
  World.mk campus gateRuntime [dashboard; staleDashboard] [].

(** The gate with the counting generator. *)
Definition countingGate : World MemoryStorage.t :=
  World.mk campus countingRuntime [dashboard; staleDashboard] [].

(** The gate on the database. *)
Definition gate_db : World DrizzleStorage.t :=
  World.mk campus_db gateRuntime [dashboard; staleDashboard] [].

Definition scenario1 : VerifyBody.t :=
  VerifyBody.mk (Some "S100") (Some "ABC123") (Some "Gate1").

Definition scenario2 : VerifyBody.t :=
  VerifyBody.mk (Some "S100") (Some "XYZ999") (Some "Gate1").

Definition noStudentId : VerifyBody.t :=
  VerifyBody.mk (Some "") (Some "ABC123") (Some "Gate1").

Definition scenario3 : DenyBody.t :=
  DenyBody.mk None (Some "ABC123") (Some "Gate1") (Some "Suspicious").

Definition morningLog : AccessLog :=
  AccessLog.mk "l-1" (Some "u-1") (Some "v-1") (Some "ABC123") (Some "Gate1")
               "granted" None (Some 10%Z) (JObj [("confidence", JNum 100)]).

Definition eveningLog : AccessLog :=
  AccessLog.mk "l-2" (Some "u-1") None (Some "XYZ999") (Some "Gate1")
               "denied" (Some "Vehicle not registered") (Some 20%Z)
               (JObj [("confidence", JNum 100)]).

Definition busyCampus : MemoryStorage.t :=
  MemoryStorage.mk [("u-1", alice)] [("v-1", car)]
                   [("l-1", morningLog); ("l-2", eveningLog)] [].

(** * The rest of the server *)

(** ** Array, string and number primitives *)

(** A JavaScript number as the routes produce it: an integer or [NaN]. *)
Inductive JsNumber : Type :=
| NaN
| Int (n : Z).

Module Js.
Section Arrays.
Variable A : Type.

(** [x] goes before the first element it does not have to follow. *)
Fixpoint insert (compareFn : A -> A -> Z) (x : A) (l : list A) : list A :=
  match l with
  | [] => [x]
  | y :: rest =>
      if (compareFn x y <=? 0)%Z then x :: y :: rest
      else y :: insert compareFn x rest
  end.

(** [array.sort(compareFn)]; the sort is stable. *)
Definition sort (compareFn : A -> A -> Z) (l : list A) : list A :=
  fold_right (insert compareFn) [] l.

(** [array.slice(0, end)]: [NaN] counts as 0 and a negative [end] counts
    from the end of the array. *)
Definition slice0 (end_ : JsNumber) (l : list A) : list A :=
  match end_ with
  | NaN => []
  | Int n =>
      if (n <? 0)%Z
      then firstn (Z.to_nat (Z.max (Z.of_nat (List.length l) + n) 0)) l
      else firstn (Z.to_nat n) l
  end.
End Arrays.

End Js.

Module JsMapMore.
Section WithValue.
Variable V : Type.

(** [map.delete(k)] *)
Definition delete (k : string) (m : JsMap.t V) : JsMap.t V :=
  filter (fun kv => negb (String.eqb k (fst kv))) m.
End WithValue.
End JsMapMore.

(** ** Inputs of the administrative methods *)

(** An optional property that the spread [{ ...defaults, ...input }] lets
    override a default: [None] is an absent property. *)
Definition spreadOver {A : Type} (input : option A) (default : A) : A :=
  match input with
  | Some v => v
  | None => default
  end.

(** [InsertStudent]: the row without [id] and [createdAt]; [photoUrl] and
    [isActive] may be absent, [null] or a value. *)
Module InsertStudent.
Record t : Type := mk {
  studentId : string;
  name : string;
  rollNumber : string;
  department : string;
  year : string;
  division : string;
  contactNumber : string;
  photoUrl : option (option string);
  isActive : option (option bool)
}.
End InsertStudent.
Abbreviation InsertStudent := InsertStudent.t.

(** [Partial<InsertStudent>] *)
Module StudentPatch.
Record t : Type := mk {
  studentId : option string;
  name : option string;
  rollNumber : option string;
  department : option string;
  year : option string;
  division : option string;
  contactNumber : option string;
  photoUrl : option (option string);
  isActive : option (option bool)
}.

Definition empty : t := mk None None None None None None None None None.

(** [{ ...existing, ...patch }] *)
Definition apply (existing : Student) (patch : t) : Student :=
  Student.mk (Student.id existing)
    (spreadOver (studentId patch) (Student.studentId existing))
    (spreadOver (name patch) (Student.name existing))
    (spreadOver (rollNumber patch) (Student.rollNumber existing))
    (spreadOver (department patch) (Student.department existing))
    (spreadOver (year patch) (Student.year existing))
    (spreadOver (division patch) (Student.division existing))
    (spreadOver (contactNumber patch) (Student.contactNumber existing))
    (spreadOver (photoUrl patch) (Student.photoUrl existing))
    (spreadOver (isActive patch) (Student.isActive existing))
    (Student.createdAt existing).
End StudentPatch.

(** [InsertVehicle]: the row without [id] and [createdAt]. *)
Module InsertVehicle.
Record t : Type := mk {
  studentId : string;
  plateNumber : string;
  vehicleType : string;
  model : option (option string);
  color : option (option string);
  isActive : option (option bool)
}.

(** [{ ...vehicleData, studentId }] *)
Definition withStudentId (v : t) (id : string) : t :=
  mk id (plateNumber v) (vehicleType v) (model v) (color v) (isActive v).
End InsertVehicle.
Abbreviation InsertVehicle := InsertVehicle.t.

(** [Partial<InsertVehicle>] *)
Module VehiclePatch.
Record t : Type := mk {
  studentId : option string;
  plateNumber : option string;
  vehicleType : option string;
  model : option (option string);
  color : option (option string);
  isActive : option (option bool)
}.

(** [{ ...existing, ...patch }] *)
Definition apply (existing : Vehicle) (patch : t) : Vehicle :=
  Vehicle.mk (Vehicle.id existing)
    (spreadOver (studentId patch) (Vehicle.studentId existing))
    (spreadOver (plateNumber patch) (Vehicle.plateNumber existing))
    (spreadOver (vehicleType patch) (Vehicle.vehicleType existing))
    (spreadOver (model patch) (Vehicle.model existing))
    (spreadOver (color patch) (Vehicle.color existing))
    (spreadOver (isActive patch) (Vehicle.isActive existing))
    (Vehicle.createdAt existing).
End VehiclePatch.

(** [AccessLogWithDetails = AccessLog & { student?: Student; vehicle?: Vehicle }] *)
Module AccessLogWithDetails.
Record t : Type := mk {
  accessLog : AccessLog;
  student : option Student;
  vehicle : option Vehicle
}.
End AccessLogWithDetails.
Abbreviation AccessLogWithDetails := AccessLogWithDetails.t.

(** ** [class MemoryStorage]: the administrative and listing methods *)

Module MemoryAdmin.
Import MemoryStorage.

Definition getStudent (id : string) (this : MemoryStorage.t) : option Student :=
  JsMap.get id (students this).

Definition getVehicle (id : string) (this : MemoryStorage.t) : option Vehicle :=
  JsMap.get id (vehicles this).

Definition createStudent (studentInput : InsertStudent) : Op MemoryStorage.t Student :=
  fun this rt =>
    match find (fun s => String.eqb (Student.studentId s)
                                    (InsertStudent.studentId studentInput))
               (JsMap.values (students this)) with
    | Some _ => (Throw "studentId must be unique", this, rt)
    | None =>
        let (id, rt1) := generateId rt in
        let (now, rt2) := newDate rt1 in
        let student :=
          Student.mk id
            (InsertStudent.studentId studentInput)
            (InsertStudent.name studentInput)
            (InsertStudent.rollNumber studentInput)
            (InsertStudent.department studentInput)
            (InsertStudent.year studentInput)
            (InsertStudent.division studentInput)
            (InsertStudent.contactNumber studentInput)
            (spreadOver (InsertStudent.photoUrl studentInput) None)
            (spreadOver (InsertStudent.isActive studentInput) (Some true))
            (Some now) in
        (Ok student,
         mk (JsMap.set id student (students this)) (vehicles this)
            (accessLogs this) (alerts this),
         rt2)
    end.

Definition updateStudent (id : string) (student : StudentPatch.t)
  : Op MemoryStorage.t Student :=
  fun this rt =>
    match JsMap.get id (students this) with
    | None => (Throw "Student not found", this, rt)
    | Some existing =>
        let updated := StudentPatch.apply existing student in
        (Ok updated,
         mk (JsMap.set id updated (students this)) (vehicles this)
            (accessLogs this) (alerts this),
         rt)
    end.

(** [for (const [vid, v] of this.vehicles)
       if (v.studentId === id) this.vehicles.delete(vid)] *)
Definition cascade (id : string) (vehicles : JsMap.t Vehicle)
  : JsMap.t Vehicle :=
  fold_left
    (fun acc entry =>
       if String.eqb (Vehicle.studentId (snd entry)) id
       then JsMapMore.delete (fst entry) acc
       else acc)
    vehicles vehicles.

Definition deleteStudent (id : string) (this : MemoryStorage.t)
  : MemoryStorage.t :=
  mk (JsMapMore.delete id (students this))
     (cascade id (vehicles this))
     (accessLogs this) (alerts this).

Section Search.
(** [String.prototype.toLowerCase] *)
Variable toLowerCase : string -> string.

End Search.

Definition createVehicle (vehicleInput : InsertVehicle) : Op MemoryStorage.t Vehicle :=
  fun this rt =>
    if existsb (fun v => String.eqb (Vehicle.plateNumber v)
                                    (InsertVehicle.plateNumber vehicleInput))
               (JsMap.values (vehicles this))
    then (Throw "plateNumber must be unique", this, rt)
    else
      let (id, rt1) := generateId rt in
      let (now, rt2) := newDate rt1 in
      let vehicle :=
        Vehicle.mk id
          (InsertVehicle.studentId vehicleInput)
          (InsertVehicle.plateNumber vehicleInput)
          (InsertVehicle.vehicleType vehicleInput)
          (spreadOver (InsertVehicle.model vehicleInput) None)
          (spreadOver (InsertVehicle.color vehicleInput) None)
          (spreadOver (InsertVehicle.isActive vehicleInput) (Some true))
          (Some now) in
      (Ok vehicle,
       mk (students this) (JsMap.set id vehicle (vehicles this))
          (accessLogs this) (alerts this),
       rt2).

Definition updateVehicle (id : string) (vehicle : VehiclePatch.t)
  : Op MemoryStorage.t Vehicle :=
  fun this rt =>
    match JsMap.get id (vehicles this) with
    | None => (Throw "Vehicle not found", this, rt)
    | Some existing =>
        let updated := VehiclePatch.apply existing vehicle in
        (Ok updated,
         mk (students this) (JsMap.set id updated (vehicles this))
            (accessLogs this) (alerts this),
         rt)
    end.

(** [(a, b) => new Date(b.timestamp).getTime() - new Date(a.timestamp).getTime()] *)
Definition newestLogFirst (a b : AccessLog) : Z :=
  (getTime (AccessLog.timestamp b) - getTime (AccessLog.timestamp a))%Z.

(** [(a, b) => new Date(b.createdAt).getTime() - new Date(a.createdAt).getTime()] *)
Definition newestAlertFirst (a b : Alert) : Z :=
  (getTime (Alert.createdAt b) - getTime (Alert.createdAt a))%Z.

(** [{ ...l, student: l.studentId ? this.students.get(l.studentId) : undefined,
          vehicle: l.vehicleId ? this.vehicles.get(l.vehicleId) : undefined }] *)
Definition withDetails (this : MemoryStorage.t) (l : AccessLog)
  : AccessLogWithDetails :=
  AccessLogWithDetails.mk l
    (match or_null (AccessLog.studentId l) with
     | Some id => JsMap.get id (students this)
     | None => None
     end)
    (match or_null (AccessLog.vehicleId l) with
     | Some id => JsMap.get id (vehicles this)
     | None => None
     end).

(** [getRecentAccessLogs(limit = 50)]; [None] is an omitted argument. *)
Definition getRecentAccessLogs (limit : option JsNumber)
  (this : MemoryStorage.t) : list AccessLogWithDetails :=
  let logs :=
    Js.slice0 (spreadOver limit (Int 50))
      (Js.sort newestLogFirst (JsMap.values (accessLogs this))) in
  map (withDetails this) logs.

Definition getAccessLogsByStudent (studentId : string)
  (this : MemoryStorage.t) : list AccessLogWithDetails :=
  let logs :=
    Js.sort newestLogFirst
      (filter (fun l =>
                 match AccessLog.studentId l with
                 | Some id => String.eqb id studentId
                 | None => false
                 end)
              (JsMap.values (accessLogs this))) in
  map (withDetails this) logs.

(** [getRecentAlerts(limit = 20)] *)
Definition getRecentAlerts (limit : option JsNumber)
  (this : MemoryStorage.t) : list Alert :=
  Js.slice0 (spreadOver limit (Int 20))
    (Js.sort newestAlertFirst (JsMap.values (alerts this))).
End MemoryAdmin.

(** ** The administrative and listing routes, and the socket lifecycle *)

Module Server.
(** The server process over the in-memory storage. *)
Record t : Type := mk {
  storage : MemoryStorage.t;
  runtime : Runtime;
  connectedClients : list WebSocket
}.

(** The [data] of the events of the student routes. *)
Inductive Payload : Type :=
| PStudentAdded (student : Student) (vehicle : Vehicle)
| PStudentDeleted (id : string).

Record Message : Type := mkMessage {
  type : string;
  data : Payload
}.

Inductive Body : Type :=
| BError (error : string)
| BSuccess
| BStudent (student : StudentWithVehicle)
| BStudentAdded (student : Student) (vehicle : Vehicle)
| BStudentUpdated (student : Student)
| BStudents (students : list StudentWithVehicle)
| BLogs (logs : list AccessLogWithDetails)
| BAlerts (alerts : list Alert).

Record Response : Type := mkResponse {
  status : nat;
  body : Body
}.

(** [req.body] of [POST /api/students]; [None] is a part the insert schema
    rejects. *)
Record StudentsBody : Type := mkStudentsBody {
  student : option InsertStudent;
  vehicle : option InsertVehicle
}.

(** [broadcast(message)] on the observers of the process. *)
Definition broadcast {M : Type} (JSON_stringify : M -> string) (message : M)
  (srv : t) : Outcome unit * t :=
  let '(r, clients', _) :=
    forEachClient (JSON_stringify message) (connectedClients srv) in
  (r, mk (storage srv) (runtime srv) clients').

Section StudentRoutes.
Variable toLowerCase : string -> string.
Variable JSON_stringify : Message -> string.


(** [app.get("/api/students/:studentId", ...)] *)
Definition get_student (studentId : string) (srv : t) : Response :=
  match MemoryStorage.getStudentByStudentId studentId (storage srv) with
  | None => mkResponse 404 (BError "Student not found")
  | Some student => mkResponse 200 (BStudent student)
  end.

(** [app.post("/api/students", ...)] *)
Definition post_students (body : StudentsBody) (srv : t) : Response * t :=
  let invalid := mkResponse 400 (BError "Invalid student data") in
  match student body, vehicle body with
  | Some studentData, Some vehicleData =>
      match MemoryAdmin.createStudent studentData (storage srv) (runtime srv)
      with
      | (Throw _, m1, rt1) => (invalid, mk m1 rt1 (connectedClients srv))
      | (Ok student, m1, rt1) =>
          match MemoryAdmin.createVehicle
                  (InsertVehicle.withStudentId vehicleData (Student.id student))
                  m1 rt1 with
          | (Throw _, m2, rt2) => (invalid, mk m2 rt2 (connectedClients srv))
          | (Ok vehicle, m2, rt2) =>
              match broadcast JSON_stringify
                      (mkMessage "student_added"
                                 (PStudentAdded student vehicle))
                      (mk m2 rt2 (connectedClients srv)) with
              | (Throw _, srv') => (invalid, srv')
              | (Ok _, srv') =>
                  (mkResponse 200 (BStudentAdded student vehicle), srv')
              end
          end
      end
  | _, _ => (invalid, srv)
  end.


(** [app.delete("/api/students/:id", ...)] *)
Definition delete_student (id : string) (srv : t) : Response * t :=
  let srv1 :=
    mk (MemoryAdmin.deleteStudent id (storage srv)) (runtime srv)
       (connectedClients srv) in
  match broadcast JSON_stringify
          (mkMessage "student_deleted" (PStudentDeleted id)) srv1 with
  | (Throw _, srv') =>
      (mkResponse 500 (BError "Failed to delete student"), srv')
  | (Ok _, srv') => (mkResponse 200 BSuccess, srv')
  end.
End StudentRoutes.

Section ListingRoutes.
(** [parseInt] on a query parameter. *)
Variable parseInt : string -> JsNumber.

(** [req.query.limit ? parseInt(req.query.limit) : fallback] *)
Definition limitOf (limit : option string) (fallback : Z) : JsNumber :=
  if truthy_str limit then parseInt (the limit) else Int fallback.


(** [app.get("/api/alerts", ...)] *)
Definition get_alerts (limit : option string) (srv : t) : Response :=
  mkResponse 200
    (BAlerts (MemoryAdmin.getRecentAlerts (Some (limitOf limit 20))
                                          (storage srv))).
End ListingRoutes.

(** The double quote character. *)
Definition quote : string := String (Ascii.ascii_of_nat 34) EmptyString.

(** [JSON.stringify({ type })] *)
Definition typeOnlyMessage (type : string) : string :=
  "{" ++ quote ++ "type" ++ quote ++ ":" ++ quote ++ type ++ quote ++ "}".

(** [ws.send(data)] on the socket of the set with the given id. *)
Fixpoint sendTo (socketId : nat) (data : string) (clients : list WebSocket)
  : Outcome unit * list WebSocket :=
  match clients with
  | [] => (Ok tt, [])
  | client :: rest =>
      if Nat.eqb (WebSocket.socketId client) socketId then
        let (r, client') := WebSocket.send data client in
        (r, client' :: rest)
      else
        let (r, rest') := sendTo socketId data rest in
        (r, client :: rest')
  end.

(** [connectedClients.add(ws)]: a set holds each socket once. *)
Definition add (ws : WebSocket) (clients : list WebSocket) : list WebSocket :=
  if existsb (fun c => Nat.eqb (WebSocket.socketId c) (WebSocket.socketId ws))
             clients
  then clients
  else clients ++ [ws].

(** [wss.on('connection', (ws) => ...)]: the socket joins the set and is
    greeted. *)
Definition onConnection (ws : WebSocket) (clients : list WebSocket)
  : Outcome unit * list WebSocket :=
  sendTo (WebSocket.socketId ws) (typeOnlyMessage "connected") (add ws clients).

(** [ws.on('close', ...)]: [connectedClients.delete(ws)]. *)
Definition onClose (socketId : nat) (clients : list WebSocket)
  : list WebSocket :=
  filter (fun c => negb (Nat.eqb (WebSocket.socketId c) socketId)) clients.

Section Messages.
(** [JSON.parse(data.toString()).type] when the frame parses to a message
    with a string type; [None] when parsing or the property access throws,
    or the type is not a string. *)
Variable messageType : string -> option string.

(** [ws.on('message', (data) => ...)]: a ping is answered with a pong; any
    error is caught and logged. *)
Definition onMessage (socketId : nat) (data : string)
  (clients : list WebSocket) : list WebSocket :=
  match messageType data with
  | Some type =>
      if String.eqb type "ping"
      then snd (sendTo socketId (typeOnlyMessage "pong") clients)
      else clients
  | None => clients
  end.
End Messages.
End Server.

(** ** Vocabulary of the further properties *)

(** No two stored students carry the same external id. *)
Definition uniqueStudentIds (m : MemoryStorage.t) : Prop :=
  NoDup (map Student.studentId (JsMap.values (MemoryStorage.students m))).

(** No two stored vehicles carry the same plate. *)
Definition uniquePlates (m : MemoryStorage.t) : Prop :=
  NoDup (map Vehicle.plateNumber (JsMap.values (MemoryStorage.vehicles m))).

(** A map that holds each key once and each record under its own id. *)
Definition keyedBy {V : Type} (key : V -> string) (m : JsMap.t V) : Prop :=
  NoDup (JsMap.keys m) /\ forall k v, In (k, v) m -> key v = k.

(** A list in which every element is at least as recent as all later ones. *)
Definition newestFirst {A : Type} (time : A -> Z) (l : list A) : Prop :=
  forall i j a b,
    i < j -> nth_error l i = Some a -> nth_error l j = Some b ->
    (time b <= time a)%Z.

(** The alert as it is after marking the alert with the given id as read. *)
Definition readIf (id : string) (a : Alert) : Alert :=
  if String.eqb (Alert.id a) id then Alert.markRead a else a.

(** The student [MemoryStorage.createStudent] builds from its input when the
    runtime is [rt]. *)
Definition newStudent (rt : Runtime) (input : InsertStudent) : Student :=
  Student.mk (uuids rt (uuid_calls rt))
    (InsertStudent.studentId input)
    (InsertStudent.name input)
    (InsertStudent.rollNumber input)
    (InsertStudent.department input)
    (InsertStudent.year input)
    (InsertStudent.division input)
    (InsertStudent.contactNumber input)
    (spreadOver (InsertStudent.photoUrl input) None)
    (spreadOver (InsertStudent.isActive input) (Some true))
    (Some (clock rt (clock_reads rt))).

(** The vehicle [MemoryStorage.createVehicle] builds from its input when the
    runtime is [rt]. *)
Definition newVehicle (rt : Runtime) (input : InsertVehicle) : Vehicle :=
  Vehicle.mk (uuids rt (uuid_calls rt))
    (InsertVehicle.studentId input)
    (InsertVehicle.plateNumber input)
    (InsertVehicle.vehicleType input)
    (spreadOver (InsertVehicle.model input) None)
    (spreadOver (InsertVehicle.color input) None)
    (spreadOver (InsertVehicle.isActive input) (Some true))
    (Some (clock rt (clock_reads rt))).



(** The socket after the server has sent it the frames: only an open socket
    receives them. *)
Definition receive (frames : list string) (client : WebSocket) : WebSocket :=
  if isOpen (WebSocket.readyState client)
  then WebSocket.mk (WebSocket.socketId client) OPEN
                    (WebSocket.sent client ++ frames)
  else client.

(** What one more log entry adds to the counts of the day. *)
Definition countOf (status : string) (log : AccessLog) : nat :=
  if String.eqb (AccessLog.accessStatus log) status then 1 else 0.

(** A socket that has just connected. *)
Definition kiosk : WebSocket := WebSocket.mk 7 OPEN [].

(** ** Sample data of the further properties *)

(** A second student, without a vehicle. *)
Definition bob : Student :=
  Student.mk "u-2" "S200" "Bob" "R2" "EE" "1" "B" "555-0200"
             None (Some true) (Some 0%Z).

Definition twoStudents : MemoryStorage.t :=
  MemoryStorage.mk [("u-1", alice); ("u-2", bob)] [("v-1", car)] [] [].



(** An unread alert. *)
Definition firstAlert : Alert :=
  Alert.mk "a-1" "unauthorized_access" "critical" "Unauthorized Access Attempt"
           "Vehicle not registered - Vehicle: XYZ999" (Some "Gate1") JNull
           (Some false) (Some 5%Z).

Definition alarmedCampus : MemoryStorage.t :=
  MemoryStorage.mk [("u-1", alice)] [("v-1", car)] [] [("a-1", firstAlert)].

(** A stand-in for [JSON.stringify] on the events of the student routes:
    the event type of the message. *)
Definition wire (message : Server.Message) : string := Server.type message.

(** The server over the campus, with the two observers of the gate. *)
Definition frontDesk : Server.t :=
  Server.mk campus gateRuntime [dashboard; staleDashboard].

(** A registration: Bob and his bike. *)
Definition bobInput : InsertStudent :=
  InsertStudent.mk "S200" "Bob" "R2" "EE" "1" "B" "555-0200" None None.

Definition bikeInput : InsertVehicle :=
  InsertVehicle.mk "whoever" "NEW777" "bike" None None None.

(** A stand-in for the type of a parsed frame: every frame is a ping. *)
Definition alwaysPing (data : string) : option string := Some "ping".

(** The database of the campus with two log entries. *)
Definition busy_db : DrizzleStorage.t :=
  DrizzleStorage.mk [alice] [car] [morningLog; eveningLog] [].

(** * Properties *)

(** ** Lists and maps *)

Lemma find_hd_filter (A : Type) (p : A -> bool) (l : list A) :
  find p l = hd_error (filter p l).
Proof.
  induction l as [|x l IH]; simpl; [reflexivity|].
  destruct (p x); simpl; auto.
Qed.

Lemma find_none_iff (A : Type) (p : A -> bool) (l : list A) :
  find p l = None <-> forall x, In x l -> p x = false.
Proof.
  split.
  - intros Hf x Hin. exact (find_none p l Hf x Hin).
  - induction l as [|x l IH]; simpl; intros Hall; [reflexivity|].
    rewrite (Hall x (or_introl eq_refl)). apply IH.
    intros y Hy. apply Hall. now right.
Qed.

Lemma hd_firstn_1 (A : Type) (l : list A) :
  hd_error (firstn 1 l) = hd_error l.
Proof. destruct l; reflexivity. Qed.

Module JsMapFacts.
Section WithValue.
Variable V : Type.
Implicit Types (m : JsMap.t V) (k : string) (v : V).

Lemma get_in_split m k v :
  JsMap.get k m = Some v ->
  exists pre post,
    m = (pre ++ (k, v) :: post)%list /\ ~ In k (JsMap.keys pre).
Proof.
  induction m as [|[k' v'] m IH]; simpl; [discriminate|].
  destruct (String.eqb_spec k k') as [->|Hne].
  - intros [= ->]. exists [], m. split; [reflexivity|]. simpl. tauto.
  - intros Hg. destruct (IH Hg) as (pre & post & -> & Hnin).
    exists ((k', v') :: pre), post. split; [reflexivity|].
    simpl. intros [Heq|Hin]; [congruence|contradiction].
Qed.

Lemma set_at_first pre post k v v' :
  ~ In k (JsMap.keys pre) ->
  JsMap.set k v' (pre ++ (k, v) :: post)%list
  = (pre ++ (k, v') :: post)%list.
Proof.
  induction pre as [|[k0 v0] pre IH]; simpl; intros Hnin.
  - now rewrite String.eqb_refl.
  - destruct (String.eqb_spec k k0) as [->|Hne]; [tauto|].
    rewrite IH; [reflexivity|tauto].
Qed.

Lemma get_none_not_in m k :
  JsMap.get k m = None <-> ~ In k (JsMap.keys m).
Proof.
  induction m as [|[k' v'] m IH]; simpl; [tauto|].
  destruct (String.eqb_spec k k') as [->|Hne].
  - split; [discriminate|tauto].
  - rewrite IH. split; [intros Hn [Heq|Hin]; [congruence|tauto] | tauto].
Qed.

Lemma set_fresh m k v :
  JsMap.get k m = None -> JsMap.set k v m = (m ++ [(k, v)])%list.
Proof.
  induction m as [|[k' v'] m IH]; simpl; [reflexivity|].
  destruct (String.eqb_spec k k'); [discriminate|].
  intros Hg. now rewrite IH.
Qed.

Lemma get_set_same m k v : JsMap.get k (JsMap.set k v m) = Some v.
Proof.
  induction m as [|[k' v'] m IH]; simpl.
  - now rewrite String.eqb_refl.
  - destruct (String.eqb_spec k k') as [->|Hne]; simpl.
    + now rewrite String.eqb_refl.
    + destruct (String.eqb_spec k k'); [contradiction|exact IH].
Qed.

Lemma get_set_other m k k' v :
  k' <> k -> JsMap.get k' (JsMap.set k v m) = JsMap.get k' m.
Proof.
  intros Hne. induction m as [|[k0 v0] m IH]; simpl.
  - destruct (String.eqb_spec k' k); [contradiction|reflexivity].
  - destruct (String.eqb_spec k k0) as [->|Hk]; simpl.
    + destruct (String.eqb_spec k' k0); [contradiction|reflexivity].
    + destruct (String.eqb_spec k' k0); [reflexivity|exact IH].
Qed.

Lemma get_app m1 m2 k :
  JsMap.get k (m1 ++ m2)%list
  = match JsMap.get k m1 with
    | Some v => Some v
    | None => JsMap.get k m2
    end.
Proof.
  induction m1 as [|[k' v'] m1 IH]; simpl; [reflexivity|].
  destruct (String.eqb k k'); [reflexivity|exact IH].
Qed.
End WithValue.
End JsMapFacts.

(** ** The two lookups *)

Lemma leftJoin_cons (A B : Type) (on : A -> B -> bool) a l r :
  Sql.leftJoin (a :: l) r on
  = ((match filter (on a) r with
      | [] => [(a, None)]
      | bs => map (fun b => (a, Some b)) bs
      end) ++ Sql.leftJoin l r on)%list.
Proof. reflexivity. Qed.

(** The joined query resolves the first student with the given external
    id and pairs it with the first vehicle that references it. *)
Lemma drizzle_getStudentByStudentId_find studentId db :
  DrizzleStorage.getStudentByStudentId studentId db
  = match find (fun s => String.eqb (Student.studentId s) studentId)
               (DrizzleStorage.students db) with
    | None => None
    | Some s =>
        Some (StudentWithVehicle.mk s
                (find (fun v => String.eqb (Vehicle.studentId v) (Student.id s))
                      (DrizzleStorage.vehicles db)))
    end.
Proof.
  unfold DrizzleStorage.getStudentByStudentId, Sql.limit, Sql.where_.
  generalize (DrizzleStorage.vehicles db) as vs.
  generalize (DrizzleStorage.students db) as ss.
  induction ss as [|s ss IH]; intros vs; [reflexivity|].
  rewrite leftJoin_cons, filter_app. simpl find.
  destruct (String.eqb_spec (Student.studentId s) studentId) as [Heq|Hne].
  - assert (Hfind :
      find (fun v => String.eqb (Vehicle.studentId v) (Student.id s)) vs
      = hd_error (filter (fun v => String.eqb (Student.id s) (Vehicle.studentId v)) vs)).
    { rewrite find_hd_filter. f_equal. apply filter_ext.
      intros v. apply String.eqb_sym. }
    rewrite Hfind.
    destruct (filter (fun v => String.eqb (Student.id s) (Vehicle.studentId v)) vs)
      as [|b bs]; simpl.
    + apply String.eqb_eq in Heq. now rewrite Heq.
    + apply String.eqb_eq in Heq. now rewrite Heq.
  - assert (Hnil :
      filter (fun row : Student * option Vehicle =>
                String.eqb (Student.studentId (fst row)) studentId)
             match filter (fun v => String.eqb (Student.id s) (Vehicle.studentId v)) vs with
             | [] => [(s, None)]
             | b :: bs => map (fun b0 => (s, Some b0)) (b :: bs)
             end = []).
    { destruct (filter _ vs) as [|b bs].
      - simpl. apply String.eqb_neq in Hne. now rewrite Hne.
      - apply String.eqb_neq in Hne.
        induction (b :: bs) as [|x xs IHx]; simpl; [reflexivity|].
        now rewrite Hne. }
    rewrite Hnil. simpl app. apply IH.
Qed.

Lemma drizzle_getVehicleByPlate_find plateNumber db :
  DrizzleStorage.getVehicleByPlate plateNumber db
  = find (fun v => String.eqb (Vehicle.plateNumber v) plateNumber)
         (DrizzleStorage.vehicles db).
Proof.
  unfold DrizzleStorage.getVehicleByPlate, Sql.limit, Sql.where_.
  now rewrite hd_firstn_1, find_hd_filter.
Qed.

Lemma memory_verify_verdict studentId plateNumber m :
  MemoryStorage.verifyStudentAndVehicle studentId plateNumber m
  = verdict (MemoryStorage.getStudentByStudentId studentId m)
            (MemoryStorage.getVehicleByPlate plateNumber m).
Proof. reflexivity. Qed.

Lemma drizzle_verify_verdict studentId plateNumber db :
  DrizzleStorage.verifyStudentAndVehicle studentId plateNumber db
  = verdict (DrizzleStorage.getStudentByStudentId studentId db)
            (DrizzleStorage.getVehicleByPlate plateNumber db).
Proof. reflexivity. Qed.

Lemma truthy_true_iff b : truthy b = true <-> b = Some true.
Proof. destruct b as [[|]|]; simpl; split; congruence. Qed.

(** The verdict is valid exactly when no check fails, and its reason is the
    reason of the first failing check. *)
Lemma verdict_firstFailing student vehicle :
  Verification.isValid (verdict student vehicle)
  = match firstFailing student vehicle with None => true | Some _ => false end
  /\ Verification.reason (verdict student vehicle)
     = option_map reasonOf (firstFailing student vehicle).
Proof.
  unfold verdict, firstFailing.
  destruct student as [s|]; [|split; reflexivity].
  destruct vehicle as [v|]; [|split; reflexivity].
  destruct (String.eqb (Vehicle.studentId v) (StudentWithVehicle.id s)); simpl;
    [|split; reflexivity].
  destruct (truthy (StudentWithVehicle.isActive s)),
           (truthy (Vehicle.isActive v)); split; reflexivity.
Qed.

Lemma firstFailing_none_iff student vehicle :
  firstFailing student vehicle = None
  <-> exists s v,
        student = Some s /\ vehicle = Some v
        /\ Vehicle.studentId v = StudentWithVehicle.id s
        /\ StudentWithVehicle.isActive s = Some true
        /\ Vehicle.isActive v = Some true.
Proof.
  unfold firstFailing. split.
  - destruct student as [s|]; [|discriminate].
    destruct vehicle as [v|]; [|discriminate].
    destruct (String.eqb_spec (Vehicle.studentId v) (StudentWithVehicle.id s));
      simpl; [|discriminate].
    destruct (truthy (StudentWithVehicle.isActive s)) eqn:Hs; [|discriminate].
    destruct (truthy (Vehicle.isActive v)) eqn:Hv; [|discriminate].
    intros _. exists s, v. rewrite <- !truthy_true_iff. auto.
  - intros (s & v & -> & -> & Hown & Hs & Hv).
    rewrite Hown, String.eqb_refl, Hs, Hv. reflexivity.
Qed.

Lemma find_resolves (A : Type) (p : A -> bool) (l : list A) :
  match find p l with
  | Some x => In x l /\ p x = true
  | None => forall x, In x l -> p x = false
  end.
Proof.
  destruct (find p l) as [x|] eqn:Hf.
  - exact (find_some p l Hf).
  - now apply find_none_iff.
Qed.

Lemma memory_resolvesIdentity studentId m :
  resolvesIdentity studentId (JsMap.values (MemoryStorage.students m))
    (MemoryStorage.getStudentByStudentId studentId m).
Proof.
  unfold MemoryStorage.getStudentByStudentId, resolvesIdentity.
  pose proof (find_resolves
                (fun s => String.eqb (Student.studentId s) studentId)
                (JsMap.values (MemoryStorage.students m))) as Hf.
  destruct (find _ _) as [s|]; simpl.
  - destruct Hf as [Hin Heq]. split; [exact Hin|now apply String.eqb_eq].
  - intros x Hin. apply String.eqb_neq. now apply Hf.
Qed.

Lemma memory_resolvesVehicle plateNumber m :
  resolvesVehicle plateNumber (JsMap.values (MemoryStorage.vehicles m))
    (MemoryStorage.getVehicleByPlate plateNumber m).
Proof.
  unfold MemoryStorage.getVehicleByPlate, resolvesVehicle.
  pose proof (find_resolves
                (fun v => String.eqb (Vehicle.plateNumber v) plateNumber)
                (JsMap.values (MemoryStorage.vehicles m))) as Hf.
  destruct (find _ _) as [v|]; simpl.
  - destruct Hf as [Hin Heq]. split; [exact Hin|now apply String.eqb_eq].
  - intros x Hin. apply String.eqb_neq. now apply Hf.
Qed.

Lemma drizzle_resolvesIdentity studentId db :
  resolvesIdentity studentId (DrizzleStorage.students db)
    (DrizzleStorage.getStudentByStudentId studentId db).
Proof.
  rewrite drizzle_getStudentByStudentId_find. unfold resolvesIdentity.
  pose proof (find_resolves
                (fun s => String.eqb (Student.studentId s) studentId)
                (DrizzleStorage.students db)) as Hf.
  destruct (find _ _) as [s|]; simpl.
  - destruct Hf as [Hin Heq]. split; [exact Hin|now apply String.eqb_eq].
  - intros x Hin. apply String.eqb_neq. now apply Hf.
Qed.

Lemma drizzle_resolvesVehicle plateNumber db :
  resolvesVehicle plateNumber (DrizzleStorage.vehicles db)
    (DrizzleStorage.getVehicleByPlate plateNumber db).
Proof.
  rewrite drizzle_getVehicleByPlate_find. unfold resolvesVehicle.
  pose proof (find_resolves
                (fun v => String.eqb (Vehicle.plateNumber v) plateNumber)
                (DrizzleStorage.vehicles db)) as Hf.
  destruct (find _ _) as [v|]; simpl.
  - destruct Hf as [Hin Heq]. split; [exact Hin|now apply String.eqb_eq].
  - intros x Hin. apply String.eqb_neq. now apply Hf.
Qed.

Lemma firstFailing_cases student vehicle :
  match firstFailing student vehicle with
  | Some IdentityResolved => student = None
  | Some VehicleResolved => (exists s, student = Some s) /\ vehicle = None
  | Some VehicleOwnedByIdentity =>
      exists s v, student = Some s /\ vehicle = Some v
                  /\ Vehicle.studentId v <> StudentWithVehicle.id s
  | Some BothActive =>
      exists s v, student = Some s /\ vehicle = Some v
                  /\ Vehicle.studentId v = StudentWithVehicle.id s
                  /\ (StudentWithVehicle.isActive s <> Some true
                      \/ Vehicle.isActive v <> Some true)
  | None =>
      exists s v, student = Some s /\ vehicle = Some v
                  /\ Vehicle.studentId v = StudentWithVehicle.id s
                  /\ StudentWithVehicle.isActive s = Some true
                  /\ Vehicle.isActive v = Some true
  end.
Proof.
  destruct (firstFailing student vehicle) as [c|] eqn:Hff.
  - unfold firstFailing in Hff.
    destruct student as [s|]; [|now injection Hff as <-].
    destruct vehicle as [v|]; [|injection Hff as <-; eauto].
    destruct (String.eqb_spec (Vehicle.studentId v) (StudentWithVehicle.id s))
      as [Hown|Hown]; simpl in Hff.
    + destruct (truthy (StudentWithVehicle.isActive s)) eqn:Hs;
        destruct (truthy (Vehicle.isActive v)) eqn:Hv;
        simpl in Hff; try discriminate; injection Hff as <-;
        exists s, v; repeat split; auto.
      * right. rewrite <- truthy_true_iff. congruence.
      * left. rewrite <- truthy_true_iff. congruence.
      * left. rewrite <- truthy_true_iff. congruence.
    + injection Hff as <-. eauto.
  - now apply firstFailing_none_iff.
Qed.

Lemma verdict_decidedInOrder student vehicle :
  decidedInOrder student vehicle (verdict student vehicle).
Proof.
  destruct (verdict_firstFailing student vehicle) as [Hvalid Hreason].
  unfold decidedInOrder. rewrite Hvalid, Hreason.
  split; [|split; [|split; [|split; [|split]]]].
  - rewrite <- firstFailing_none_iff.
    destruct (firstFailing student vehicle); split; congruence.
  - intros ->. split; reflexivity.
  - intros s -> ->. split; reflexivity.
  - intros s v -> -> Hown. unfold firstFailing.
    destruct (String.eqb_spec (Vehicle.studentId v) (StudentWithVehicle.id s));
      [contradiction|split; reflexivity].
  - intros s v -> -> Hown Hinactive. unfold firstFailing.
    rewrite Hown, String.eqb_refl. cbn [negb].
    assert (Hand : truthy (StudentWithVehicle.isActive s)
                   && truthy (Vehicle.isActive v) = false).
    { apply andb_false_iff.
      destruct Hinactive as [Hs|Hv]; [left|right];
        apply not_true_is_false; rewrite truthy_true_iff; assumption. }
    rewrite Hand. split; reflexivity.
  - destruct (firstFailing student vehicle); [discriminate|reflexivity].
Qed.

Lemma reasonOf_injective c1 c2 : reasonOf c1 = reasonOf c2 -> c1 = c2.
Proof. destruct c1, c2; simpl; intros Heq; try reflexivity; discriminate. Qed.

(** ** Verification verdict *)

(** C1. In both storage classes the verdict of [verifyStudentAndVehicle] is
    valid if and only if the student lookup and the vehicle lookup both
    resolve a stored record, the vehicle references the resolved student's
    internal id and both active flags are true. When a check fails, the
    verdict is invalid and its reason is the one of the first failing check
    in the order identity, vehicle, ownership, activity (a resolved student
    without a registered vehicle is reported as not registered whatever the
    active flags); the four reasons are pairwise distinct, and a valid
    verdict carries no reason. *)
Theorem C1_verdict_fixed_by_first_failing_check :
  forall studentId plateNumber,
    (forall m : MemoryStorage.t,
        resolvesIdentity studentId (JsMap.values (MemoryStorage.students m))
          (MemoryStorage.getStudentByStudentId studentId m)
        /\ resolvesVehicle plateNumber (JsMap.values (MemoryStorage.vehicles m))
             (MemoryStorage.getVehicleByPlate plateNumber m)
        /\ decidedInOrder
             (MemoryStorage.getStudentByStudentId studentId m)
             (MemoryStorage.getVehicleByPlate plateNumber m)
             (MemoryStorage.verifyStudentAndVehicle studentId plateNumber m))
    /\ (forall db : DrizzleStorage.t,
        resolvesIdentity studentId (DrizzleStorage.students db)
          (DrizzleStorage.getStudentByStudentId studentId db)
        /\ resolvesVehicle plateNumber (DrizzleStorage.vehicles db)
             (DrizzleStorage.getVehicleByPlate plateNumber db)
        /\ decidedInOrder
             (DrizzleStorage.getStudentByStudentId studentId db)
             (DrizzleStorage.getVehicleByPlate plateNumber db)
             (DrizzleStorage.verifyStudentAndVehicle studentId plateNumber db))
    /\ (forall c1 c2, reasonOf c1 = reasonOf c2 -> c1 = c2).
Proof.
  intros studentId plateNumber. split; [|split].
  - intros m. split; [apply memory_resolvesIdentity|].
    split; [apply memory_resolvesVehicle|].
    rewrite memory_verify_verdict. apply verdict_decidedInOrder.
  - intros db. split; [apply drizzle_resolvesIdentity|].
    split; [apply drizzle_resolvesVehicle|].
    rewrite drizzle_verify_verdict. apply verdict_decidedInOrder.
  - exact reasonOf_injective.
Qed.

Example verify_scenario_1 :
  MemoryStorage.verifyStudentAndVehicle "S100" "ABC123" campus
  = Verification.mk (Some (StudentWithVehicle.mk alice (Some car)))
                    (Some car) true None.
Proof. reflexivity. Qed.

Example verify_scenario_2 :
  MemoryStorage.verifyStudentAndVehicle "S100" "XYZ999" campus
  = Verification.mk (Some (StudentWithVehicle.mk alice (Some car)))
                    None false (Some "Vehicle not registered").
Proof. reflexivity. Qed.

(** C5, as stated, fails: on a store without students the verification of
    any token is denied with the reason ["Student ID not found"], which is
    not the string ["Identity not found"]. *)
Lemma C5_counterexample_identity_reason :
  MemoryStorage.getStudentByStudentId "S100" MemoryStorage.empty = None
  /\ Verification.isValid
       (MemoryStorage.verifyStudentAndVehicle "S100" "ABC123"
          MemoryStorage.empty) = false
  /\ Verification.reason
       (MemoryStorage.verifyStudentAndVehicle "S100" "ABC123"
          MemoryStorage.empty) = Some "Student ID not found"
  /\ Verification.reason
       (MemoryStorage.verifyStudentAndVehicle "S100" "ABC123"
          MemoryStorage.empty) <> Some "Identity not found".
Proof. repeat split. discriminate. Qed.

Lemma verdict_denied_reason student vehicle :
  Verification.isValid (verdict student vehicle) = false ->
  (student = None
   /\ Verification.reason (verdict student vehicle)
      = Some "Student ID not found")
  \/ ((exists s, student = Some s) /\ vehicle = None
      /\ Verification.reason (verdict student vehicle)
         = Some "Vehicle not registered")
  \/ ((exists s v, student = Some s /\ vehicle = Some v
                   /\ Vehicle.studentId v <> StudentWithVehicle.id s)
      /\ Verification.reason (verdict student vehicle)
         = Some "Vehicle does not belong to this student")
  \/ ((exists s v, student = Some s /\ vehicle = Some v
                   /\ Vehicle.studentId v = StudentWithVehicle.id s
                   /\ (StudentWithVehicle.isActive s <> Some true
                       \/ Vehicle.isActive v <> Some true))
      /\ Verification.reason (verdict student vehicle)
         = Some "Student or vehicle is inactive").
Proof.
  destruct (verdict_firstFailing student vehicle) as [Hvalid Hreason].
  rewrite Hvalid, Hreason.
  pose proof (firstFailing_cases student vehicle) as Hc.
  destruct (firstFailing student vehicle) as [[| | |]|]; simpl; intros Hden.
  - left. auto.
  - right. left. destruct Hc. auto.
  - right. right. left. auto.
  - right. right. right. auto.
  - discriminate.
Qed.

(** ** The two storage classes agree *)

Lemma represents_getStudentByStudentId db m studentId :
  represents db m ->
  DrizzleStorage.getStudentByStudentId studentId db
  = MemoryStorage.getStudentByStudentId studentId m.
Proof.
  intros (Hs & Hv & _). rewrite drizzle_getStudentByStudentId_find.
  unfold MemoryStorage.getStudentByStudentId. now rewrite Hs, Hv.
Qed.

Lemma represents_getVehicleByPlate db m plateNumber :
  represents db m ->
  DrizzleStorage.getVehicleByPlate plateNumber db
  = MemoryStorage.getVehicleByPlate plateNumber m.
Proof.
  intros (_ & Hv & _). rewrite drizzle_getVehicleByPlate_find.
  unfold MemoryStorage.getVehicleByPlate. now rewrite Hv.
Qed.

(** ** Row order *)

Lemma unique_key_determines (A : Type) (key : A -> string) (l : list A) a b :
  NoDup (map key l) -> In a l -> In b l -> key a = key b -> a = b.
Proof.
  induction l as [|x l IH]; simpl; [tauto|].
  intros Hnd Ha Hb Hkey. inversion Hnd as [|k ks Hnin Hnd']; subst.
  destruct Ha as [->|Ha], Hb as [->|Hb]; auto.
  - exfalso. apply Hnin. rewrite Hkey. now apply in_map.
  - exfalso. apply Hnin. rewrite <- Hkey. now apply in_map.
Qed.

(** A lookup by a unique column does not depend on the scan order. *)
Lemma find_by_unique_key (A : Type) (key : A -> string) (x : string)
  (l l' : list A) :
  NoDup (map key l) -> Permutation l l' ->
  find (fun a => String.eqb (key a) x) l
  = find (fun a => String.eqb (key a) x) l'.
Proof.
  intros Hnd Hperm.
  destruct (find (fun a => String.eqb (key a) x) l) as [a|] eqn:Hl;
    destruct (find (fun a => String.eqb (key a) x) l') as [b|] eqn:Hl';
    try reflexivity.
  - apply find_some in Hl, Hl'. destruct Hl as [Ha Hka], Hl' as [Hb Hkb].
    apply String.eqb_eq in Hka, Hkb. f_equal.
    apply (@unique_key_determines A key l a b Hnd Ha).
    + apply (Permutation_in _ (Permutation_sym Hperm) Hb).
    + congruence.
  - apply find_some in Hl. destruct Hl as [Ha Hka].
    pose proof (find_none _ _ Hl' a (Permutation_in _ Hperm Ha)) as Hf.
    simpl in Hf. congruence.
  - apply find_some in Hl'. destruct Hl' as [Hb Hkb].
    pose proof (find_none _ _ Hl b
                  (Permutation_in _ (Permutation_sym Hperm) Hb)) as Hf.
    simpl in Hf. congruence.
Qed.

(** The verdict looks at the student row only, not at the joined vehicle. *)
Lemma verdict_student_row (s s' : option StudentWithVehicle)
  (v : option Vehicle) :
  option_map StudentWithVehicle.student s
  = option_map StudentWithVehicle.student s' ->
  option_map StudentWithVehicle.student (Verification.student (verdict s v))
  = option_map StudentWithVehicle.student (Verification.student (verdict s' v))
  /\ Verification.vehicle (verdict s v) = Verification.vehicle (verdict s' v)
  /\ Verification.isValid (verdict s v) = Verification.isValid (verdict s' v)
  /\ Verification.reason (verdict s v) = Verification.reason (verdict s' v).
Proof.
  destruct s as [[row j]|], s' as [[row' j']|]; simpl; try discriminate;
    [|repeat split].
  intros [= <-]. unfold verdict, StudentWithVehicle.id,
                  StudentWithVehicle.isActive.
  cbn [StudentWithVehicle.student].
  destruct v as [v|]; [|repeat split].
  destruct (negb (String.eqb (Vehicle.studentId v) (Student.id row)));
    [repeat split|].
  destruct (negb (truthy (Student.isActive row))
            || negb (truthy (Vehicle.isActive v))); repeat split.
Qed.

(** Under the unique constraints of the schema on [student_id] and
    [plate_number], the verdict of the database class does not depend on
    the order in which the tables are scanned: the resolved student row,
    the resolved vehicle, the validity flag and the reason are the same. *)
Lemma drizzle_verification_row_order (db db' : DrizzleStorage.t)
  studentId plateNumber :
  NoDup (map Student.studentId (DrizzleStorage.students db)) ->
  NoDup (map Vehicle.plateNumber (DrizzleStorage.vehicles db)) ->
  Permutation (DrizzleStorage.students db) (DrizzleStorage.students db') ->
  Permutation (DrizzleStorage.vehicles db) (DrizzleStorage.vehicles db') ->
  let r := DrizzleStorage.verifyStudentAndVehicle studentId plateNumber db in
  let r' := DrizzleStorage.verifyStudentAndVehicle studentId plateNumber db' in
  option_map StudentWithVehicle.student (Verification.student r)
  = option_map StudentWithVehicle.student (Verification.student r')
  /\ Verification.vehicle r = Verification.vehicle r'
  /\ Verification.isValid r = Verification.isValid r'
  /\ Verification.reason r = Verification.reason r'.
Proof.
  intros Hus Huv Hps Hpv. cbv zeta.
  rewrite !drizzle_verify_verdict, !drizzle_getVehicleByPlate_find.
  rewrite <- (@find_by_unique_key _ Vehicle.plateNumber plateNumber _ _ Huv Hpv).
  apply verdict_student_row.
  rewrite !drizzle_getStudentByStudentId_find.
  rewrite <- (@find_by_unique_key _ Student.studentId studentId _ _ Hus Hps).
  destruct (find _ (DrizzleStorage.students db)); reflexivity.
Qed.

(** With the tables scanned in the order of the maps, the two classes give
    the same result. *)
Lemma represents_verify db m studentId plateNumber :
  represents db m ->
  DrizzleStorage.verifyStudentAndVehicle studentId plateNumber db
  = MemoryStorage.verifyStudentAndVehicle studentId plateNumber m.
Proof.
  intros Hrep. rewrite drizzle_verify_verdict, memory_verify_verdict.
  now rewrite (represents_getStudentByStudentId studentId Hrep),
              (represents_getVehicleByPlate plateNumber Hrep).
Qed.

(** C7, as stated, fails: the database and the maps can hold the same
    content, within the unique constraints of the schema, and give different
    student resolutions. Alice owns a car and a van; the maps hold the car
    first and the vehicles table is scanned van first; a verification of
    Alice with the plate of the car is valid in both classes and resolves
    the car, but the student it returns carries the van in the database
    class and the car in the in-memory class. *)
Lemma C7_counterexample_scan_order :
  let viaDb :=
    DrizzleStorage.verifyStudentAndVehicle "S100" "ABC123" fleet_db in
  let viaMemory :=
    MemoryStorage.verifyStudentAndVehicle "S100" "ABC123" fleet in
  sameContent fleet_db fleet
  /\ NoDup (map Student.studentId (DrizzleStorage.students fleet_db))
  /\ NoDup (map Vehicle.plateNumber (DrizzleStorage.vehicles fleet_db))
  /\ Verification.student viaDb
     = Some (StudentWithVehicle.mk alice (Some van))
  /\ Verification.student viaMemory
     = Some (StudentWithVehicle.mk alice (Some car))
  /\ Verification.student viaDb <> Verification.student viaMemory
  /\ Verification.isValid viaDb = true
  /\ Verification.isValid viaMemory = true.
Proof.
  cbv zeta.
  split.
  { unfold sameContent. simpl. repeat split; try apply Permutation_refl.
    apply perm_swap. }
  split; [simpl; repeat constructor; simpl; tauto|].
  split; [simpl; repeat constructor; simpl; intuition discriminate|].
  split; [reflexivity|]. split; [reflexivity|].
  split; [discriminate|]. split; reflexivity.
Qed.

(** C7 (amended). When the tables are scanned in the order in which the
    maps hold their values, [verifyStudentAndVehicle] gives the same result
    in both storage classes, and so does the exported [storage] object
    whichever class the configuration selects. When the database and the
    maps hold the same rows in any order, and the external ids and the
    plates are unique as the schema requires, the two classes resolve the
    same student row and the same vehicle and return the same validity flag
    and the same reason; the vehicle attached to the returned student is the
    same as well when no student owns more than one vehicle. *)
Theorem C7_storage_classes_agree_on_verification :
  (forall (db : DrizzleStorage.t) (m : MemoryStorage.t),
      represents db m ->
      forall studentId plateNumber,
        let viaDb :=
          DrizzleStorage.verifyStudentAndVehicle studentId plateNumber db in
        let viaMemory :=
          MemoryStorage.verifyStudentAndVehicle studentId plateNumber m in
        Verification.student viaDb = Verification.student viaMemory
        /\ Verification.vehicle viaDb = Verification.vehicle viaMemory
        /\ Verification.isValid viaDb = Verification.isValid viaMemory
        /\ Verification.reason viaDb = Verification.reason viaMemory
        /\ forall rt,
             @verifyStudentAndVehicle _ (storage true) studentId plateNumber
                                      db rt
             = (Ok viaMemory, db, rt)
             /\ @verifyStudentAndVehicle _ (storage false) studentId
                                         plateNumber m rt
                = (Ok viaMemory, m, rt))
  /\ (forall (db : DrizzleStorage.t) (m : MemoryStorage.t),
      sameContent db m ->
      NoDup (map Student.studentId (DrizzleStorage.students db)) ->
      NoDup (map Vehicle.plateNumber (DrizzleStorage.vehicles db)) ->
      forall studentId plateNumber,
        let viaDb :=
          DrizzleStorage.verifyStudentAndVehicle studentId plateNumber db in
        let viaMemory :=
          MemoryStorage.verifyStudentAndVehicle studentId plateNumber m in
        option_map StudentWithVehicle.student (Verification.student viaDb)
        = option_map StudentWithVehicle.student (Verification.student viaMemory)
        /\ Verification.vehicle viaDb = Verification.vehicle viaMemory
        /\ Verification.isValid viaDb = Verification.isValid viaMemory
        /\ Verification.reason viaDb = Verification.reason viaMemory
        /\ (NoDup (map Vehicle.studentId (DrizzleStorage.vehicles db)) ->
            viaDb = viaMemory)
        /\ forall rt,
             @verifyStudentAndVehicle _ (storage true) studentId plateNumber
                                      db rt
             = (Ok viaDb, db, rt)
             /\ @verifyStudentAndVehicle _ (storage false) studentId
                                         plateNumber m rt
                = (Ok viaMemory, m, rt)).
Proof.
  split.
  - intros db m Hrep studentId plateNumber. cbv zeta.
    rewrite (represents_verify studentId plateNumber Hrep). repeat split.
    simpl. unfold pureOp. now rewrite (represents_verify _ _ Hrep).
  - intros db m (Hps & Hpv & _) Hus Huv studentId plateNumber. cbv zeta.
    assert (Hobject :
      forall rt,
        @verifyStudentAndVehicle _ (storage true) studentId plateNumber db rt
        = (Ok (DrizzleStorage.verifyStudentAndVehicle studentId plateNumber db),
           db, rt)
        /\ @verifyStudentAndVehicle _ (storage false) studentId plateNumber
                                    m rt
           = (Ok (MemoryStorage.verifyStudentAndVehicle studentId plateNumber m),
              m, rt)).
    { intros rt. split; reflexivity. }
    revert Hobject.
    generalize (@verifyStudentAndVehicle _ (storage true) studentId
                                         plateNumber db) as viaTrue.
    generalize (@verifyStudentAndVehicle _ (storage false) studentId
                                         plateNumber m) as viaFalse.
    intros viaFalse viaTrue Hobject.
    assert (Hvehicle :
      DrizzleStorage.getVehicleByPlate plateNumber db
      = MemoryStorage.getVehicleByPlate plateNumber m).
    { rewrite drizzle_getVehicleByPlate_find.
      unfold MemoryStorage.getVehicleByPlate.
      apply (@find_by_unique_key _ Vehicle.plateNumber plateNumber _ _ Huv Hpv). }
    assert (Hstudent :
      find (fun s => String.eqb (Student.studentId s) studentId)
           (DrizzleStorage.students db)
      = find (fun s => String.eqb (Student.studentId s) studentId)
             (JsMap.values (MemoryStorage.students m))).
    { apply (@find_by_unique_key _ Student.studentId studentId _ _ Hus Hps). }
    rewrite drizzle_verify_verdict, memory_verify_verdict, Hvehicle.
    assert (Hrow :
      option_map StudentWithVehicle.student
        (DrizzleStorage.getStudentByStudentId studentId db)
      = option_map StudentWithVehicle.student
          (MemoryStorage.getStudentByStudentId studentId m)).
    { rewrite drizzle_getStudentByStudentId_find.
      unfold MemoryStorage.getStudentByStudentId. rewrite Hstudent.
      now destruct (find _ (JsMap.values (MemoryStorage.students m))). }
    destruct (verdict_student_row _ _
                (MemoryStorage.getVehicleByPlate plateNumber m) Hrow)
      as (H1 & H2 & H3 & H4).
    split; [exact H1|]. split; [exact H2|]. split; [exact H3|].
    split; [exact H4|]. split.
    2:{ intros rt. destruct (Hobject rt) as [Ht Hf]. rewrite Ht, Hf.
        rewrite drizzle_verify_verdict, memory_verify_verdict, Hvehicle.
        split; reflexivity. }
    intros Huo. f_equal.
    rewrite drizzle_getStudentByStudentId_find.
    unfold MemoryStorage.getStudentByStudentId. rewrite Hstudent.
    destruct (find _ (JsMap.values (MemoryStorage.students m))) as [s|];
      [|reflexivity].
    do 2 f_equal.
    apply (@find_by_unique_key _ Vehicle.studentId (Student.id s) _ _ Huo Hpv).
Qed.

(** The amended C7 on the campus where Alice owns two vehicles and the
    vehicles table is scanned in the other order. *)
Lemma C7_storage_classes_agree_witness :
  sameContent fleet_db fleet
  /\ ~ represents fleet_db fleet
  /\ Verification.vehicle
       (DrizzleStorage.verifyStudentAndVehicle "S100" "ABC123" fleet_db)
     = Verification.vehicle
         (MemoryStorage.verifyStudentAndVehicle "S100" "ABC123" fleet)
  /\ Verification.isValid
       (DrizzleStorage.verifyStudentAndVehicle "S100" "ABC123" fleet_db)
     = Verification.isValid
         (MemoryStorage.verifyStudentAndVehicle "S100" "ABC123" fleet)
  /\ DrizzleStorage.verifyStudentAndVehicle "S100" "ABC123" campus_db
     = MemoryStorage.verifyStudentAndVehicle "S100" "ABC123" campus.
Proof.
  assert (Hsame : sameContent fleet_db fleet).
  { unfold sameContent. simpl. repeat split; try apply Permutation_refl.
    apply perm_swap. }
  split; [exact Hsame|]. split; [intros (_ & Hv & _); discriminate Hv|].
  destruct (proj2 C7_storage_classes_agree_on_verification
              fleet_db fleet Hsame) with (studentId := "S100")
                                         (plateNumber := "ABC123")
    as (_ & Hvehicle & Hvalid & _).
  - simpl. repeat constructor. simpl. tauto.
  - simpl. repeat constructor; simpl; intuition discriminate.
  - split; [exact Hvehicle|]. split; [exact Hvalid|].
    destruct (proj2 C7_storage_classes_agree_on_verification
                campus_db campus) with (studentId := "S100")
                                       (plateNumber := "ABC123")
      as (_ & _ & _ & _ & Hall & _).
    + unfold sameContent. simpl. repeat split; apply Permutation_refl.
    + simpl. repeat constructor. simpl. tauto.
    + simpl. repeat constructor. simpl. tauto.
    + apply Hall. simpl. repeat constructor. simpl. tauto.
Defined.

(** ** Dashboard statistics *)

Lemma statusesWellFormed_filter (p : AccessLog -> bool) logs :
  statusesWellFormed logs -> statusesWellFormed (filter p logs).
Proof.
  intros Hwf l Hin. apply Hwf. apply filter_In in Hin. tauto.
Qed.

Lemma granted_plus_denied logs :
  statusesWellFormed logs ->
  List.length logs
  = List.length
      (filter (fun l => String.eqb (AccessLog.accessStatus l) "granted") logs)
    + List.length
        (filter (fun l => String.eqb (AccessLog.accessStatus l) "denied") logs).
Proof.
  induction logs as [|l logs IH]; intros Hwf; [reflexivity|].
  assert (Hrest : statusesWellFormed logs).
  { intros x Hx. apply Hwf. now right. }
  specialize (IH Hrest). simpl.
  destruct (Hwf l (or_introl eq_refl)) as [Hst|Hst]; rewrite Hst; simpl; lia.
Qed.

(** C9. In both storage classes [getDashboardStats] reports [activeGates]
    as the constant 2 whatever the store holds, and when every stored log
    has the status ['granted'] or ['denied'] the total of today's accesses
    is the granted count plus the denied count. *)
Theorem C9_dashboard_stats_total :
  (forall (m : MemoryStorage.t) (rt : Runtime),
      let stats := fst (MemoryStorage.getDashboardStats m rt) in
      Stats.activeGates stats = 2
      /\ (statusesWellFormed (JsMap.values (MemoryStorage.accessLogs m)) ->
          Stats.totalAccess stats = Stats.granted stats + Stats.denied stats))
  /\ (forall (db : DrizzleStorage.t) (rt : Runtime),
      let stats := fst (DrizzleStorage.getDashboardStats db rt) in
      Stats.activeGates stats = 2
      /\ (statusesWellFormed (DrizzleStorage.accessLogs db) ->
          Stats.totalAccess stats = Stats.granted stats + Stats.denied stats)).
Proof.
  split.
  - intros m rt. unfold MemoryStorage.getDashboardStats. simpl.
    split; [reflexivity|]. intros Hwf.
    apply granted_plus_denied. now apply statusesWellFormed_filter.
  - intros db rt. unfold DrizzleStorage.getDashboardStats, Sql.where_. simpl.
    split; [reflexivity|]. intros Hwf.
    apply granted_plus_denied. now apply statusesWellFormed_filter.
Qed.

(** ** Entries are stored under their own id *)

Lemma memory_createAccessLog_stored logInput (m : MemoryStorage.t) rt :
  let '(log, m', _) := MemoryStorage.createAccessLog logInput m rt in
  JsMap.get (AccessLog.id log) (MemoryStorage.accessLogs m') = Some log.
Proof.
  unfold MemoryStorage.createAccessLog. simpl. apply JsMapFacts.get_set_same.
Qed.

Lemma memory_createAlert_stored alertInput (m : MemoryStorage.t) rt :
  let '(alert, m', _) := MemoryStorage.createAlert alertInput m rt in
  JsMap.get (Alert.id alert) (MemoryStorage.alerts m') = Some alert
  /\ Alert.isRead alert = Some false.
Proof.
  unfold MemoryStorage.createAlert. simpl.
  split; [apply JsMapFacts.get_set_same|reflexivity].
Qed.

(** Marking as read keeps every alert under its own id. *)
Lemma memory_markAlertAsRead_keyed id (m : MemoryStorage.t) :
  (forall k a, JsMap.get k (MemoryStorage.alerts m) = Some a -> Alert.id a = k) ->
  forall k a,
    JsMap.get k (MemoryStorage.alerts (MemoryStorage.markAlertAsRead id m))
    = Some a ->
    Alert.id a = k.
Proof.
  intros Hkeyed k a. unfold MemoryStorage.markAlertAsRead.
  destruct (JsMap.get id (MemoryStorage.alerts m)) as [old|] eqn:Hget;
    [|apply Hkeyed].
  cbn [MemoryStorage.alerts].
  destruct (String.eqb_spec k id) as [->|Hne].
  - rewrite JsMapFacts.get_set_same. intros [= <-].
    exact (Hkeyed id old Hget).
  - rewrite JsMapFacts.get_set_other by exact Hne. apply Hkeyed.
Qed.

(** ** Marking an alert as read *)

(** C10. [MemoryStorage.markAlertAsRead] leaves the students, the vehicles
    and the access logs as they are. When no alert is stored under the id,
    the whole store is unchanged. Otherwise the alert map changes at one
    entry only, the one stored under the id: its [isRead] flag becomes true
    and all its other fields, its key and its position stay the same. The
    route [PUT /api/alerts/:id/read] answers 200 with the success body in
    both cases, and does nothing else than that one storage call. *)
Theorem C10_markAlertAsRead_frame :
  forall (m : MemoryStorage.t) (id : string),
    let m' := MemoryStorage.markAlertAsRead id m in
    MemoryStorage.students m' = MemoryStorage.students m
    /\ MemoryStorage.vehicles m' = MemoryStorage.vehicles m
    /\ MemoryStorage.accessLogs m' = MemoryStorage.accessLogs m
    /\ ((JsMap.get id (MemoryStorage.alerts m) = None /\ m' = m)
        \/ (exists pre a post,
               MemoryStorage.alerts m = (pre ++ (id, a) :: post)%list
               /\ ~ In id (JsMap.keys pre)
               /\ MemoryStorage.alerts m'
                  = (pre ++ (id, Alert.markRead a) :: post)%list
               /\ Alert.isRead (Alert.markRead a) = Some true
               /\ Alert.id (Alert.markRead a) = Alert.id a
               /\ Alert.type (Alert.markRead a) = Alert.type a
               /\ Alert.severity (Alert.markRead a) = Alert.severity a
               /\ Alert.title (Alert.markRead a) = Alert.title a
               /\ Alert.description (Alert.markRead a) = Alert.description a
               /\ Alert.gateLocation (Alert.markRead a) = Alert.gateLocation a
               /\ Alert.metadata (Alert.markRead a) = Alert.metadata a
               /\ Alert.createdAt (Alert.markRead a) = Alert.createdAt a))
    /\ forall (rt : Runtime) (clients : list WebSocket) (trace : list Event),
         put_alert_read id (World.mk m rt clients trace)
         = (Response.mk 200 BSuccess,
            World.mk m' rt clients (trace ++ [EMarkAlertAsRead id])%list).
Proof.
  intros m id. cbv zeta.
  split; [|split; [|split; [|split]]].
  - unfold MemoryStorage.markAlertAsRead.
    destruct (JsMap.get id (MemoryStorage.alerts m)); reflexivity.
  - unfold MemoryStorage.markAlertAsRead.
    destruct (JsMap.get id (MemoryStorage.alerts m)); reflexivity.
  - unfold MemoryStorage.markAlertAsRead.
    destruct (JsMap.get id (MemoryStorage.alerts m)); reflexivity.
  - unfold MemoryStorage.markAlertAsRead.
    destruct (JsMap.get id (MemoryStorage.alerts m)) as [a|] eqn:Hget.
    + right.
      destruct (JsMapFacts.get_in_split _ _ Hget)
        as (pre & post & Heq & Hnin).
      exists pre, a, post. cbn [MemoryStorage.alerts]. rewrite Heq.
      rewrite JsMapFacts.set_at_first by exact Hnin.
      repeat split. exact Hnin.
    + left. split; reflexivity.
  - intros rt clients trace. reflexivity.
Qed.

(** ** Broadcast *)

Lemma forEachClient_delivers messageStr clients :
  forEachClient messageStr clients
  = (Ok tt, map (deliver messageStr) clients, deliveries messageStr clients).
Proof.
  induction clients as [|c clients IH]; [reflexivity|].
  unfold deliveries in *. simpl. unfold deliver at 1, WebSocket.send.
  destruct (WebSocket.readyState c) eqn:Hst; simpl; rewrite IH; reflexivity.
Qed.

Section BroadcastFacts.
Context {S : Type}.
Variable JSON_stringify : WebSocketMessage -> string.

Lemma broadcast_run message (w : World S) :
  broadcast JSON_stringify message w
  = (Ok tt,
     World.mk (World.storage w) (World.runtime w)
       (map (deliver (JSON_stringify message)) (World.connectedClients w))
       (World.trace w
        ++ EStringify message
           :: deliveries (JSON_stringify message) (World.connectedClients w))).
Proof.
  unfold broadcast. now rewrite forEachClient_delivers.
Qed.
End BroadcastFacts.

(** C6. For every message and every set of connected observers, whatever the
    storage behind the server, [broadcast] returns normally; it serialises
    the message once, before any delivery; every observer whose transport is
    open gets exactly that serialised string appended to what was sent to it
    and keeps its state otherwise; every observer whose transport is not
    open is left untouched; one delivery is made per open observer, in the
    order of the set, and none to the others; the store and the runtime are
    not touched. *)
Theorem C6_broadcast_delivers_to_open_observers :
  forall (S : Type) (JSON_stringify : WebSocketMessage -> string)
         (message : WebSocketMessage) (w : World S),
    let messageStr := JSON_stringify message in
    exists clients' evs,
      broadcast JSON_stringify message w
      = (Ok tt,
         World.mk (World.storage w) (World.runtime w) clients'
                  (World.trace w ++ EStringify message :: evs))
      /\ evs = map (fun c => ESend (WebSocket.socketId c) messageStr)
                   (filter (fun c => isOpen (WebSocket.readyState c))
                           (World.connectedClients w))
      /\ List.length clients' = List.length (World.connectedClients w)
      /\ forall n c,
           nth_error (World.connectedClients w) n = Some c ->
           (WebSocket.readyState c = OPEN ->
            nth_error clients' n
            = Some (WebSocket.mk (WebSocket.socketId c) OPEN
                                 (WebSocket.sent c ++ [messageStr])))
           /\ (WebSocket.readyState c <> OPEN ->
               nth_error clients' n = Some c).
Proof.
  intros S JSON_stringify message w messageStr.
  exists (map (deliver messageStr) (World.connectedClients w)),
         (deliveries messageStr (World.connectedClients w)).
  split; [apply broadcast_run|].
  split; [reflexivity|].
  split; [apply length_map|].
  intros n c Hn. rewrite nth_error_map, Hn. simpl. unfold deliver.
  split.
  - intros ->. reflexivity.
  - intros Hne. destruct (WebSocket.readyState c); simpl; congruence.
Qed.

(** ** Running the routes *)

Section RouteFacts.
Context {S : Type} `{IStorage S}.
Variable JSON_stringify : WebSocketMessage -> string.

Lemma broadcast_afterBroadcast message (w : World S) :
  broadcast JSON_stringify message w
  = (Ok tt, afterBroadcast JSON_stringify message w).
Proof. apply broadcast_run. Qed.

Lemma await_ok (A : Type) (e : Event) (op : Op S A) (w : World S) a s rt :
  op (World.storage w) (World.runtime w) = (Ok a, s, rt) ->
  await e op w = (Ok a, afterCall e s rt w).
Proof. intros Hop. unfold await. now rewrite Hop. Qed.

Lemma await_throw (A : Type) (e : Event) (op : Op S A) (w : World S) msg s rt :
  op (World.storage w) (World.runtime w) = (Throw msg, s, rt) ->
  await e op w = (Throw msg, afterCall e s rt w).
Proof. intros Hop. unfold await. now rewrite Hop. Qed.

(** What a run of [POST /api/verify-access] can be: the guard answers 400
    and nothing happens; or a storage call throws and the answer is 500; or
    the verification, the log write and, on a denial, the alert write all
    succeed, the events are broadcast and the answer is 200. *)
Lemma post_verify_access_inv body (w : World S) resp w' :
  post_verify_access JSON_stringify body w = (resp, w') ->
  let studentId := the (VerifyBody.studentId body) in
  let plateNumber := the (VerifyBody.plateNumber body) in
  (missingFields body = true
   /\ resp = Response.mk 400 (BError "Missing required fields")
   /\ w' = w)
  \/ (missingFields body = false
      /\ resp = Response.mk 500 (BError "Failed to verify access"))
  \/ (missingFields body = false
      /\ exists v s1 rt1 log s2 rt2,
          verifyStudentAndVehicle studentId plateNumber
            (World.storage w) (World.runtime w) = (Ok v, s1, rt1)
          /\ createAccessLog (verifyAccessLog body v) s1 rt1
             = (Ok log, s2, rt2)
          /\ let w2 :=
               afterCall (ECreateAccessLog (verifyAccessLog body v)) s2 rt2
                 (afterCall (EVerifyStudentAndVehicle studentId plateNumber)
                            s1 rt1 w) in
             let details :=
               LogWithDetails.mk log (Verification.student v)
                                 (Verification.vehicle v) in
             let logMessage := WebSocketMessage.mk "access_log" (PLog details) in
             resp = Response.mk 200 (BVerification v details)
             /\ ((Verification.isValid v = true
                  /\ w' = afterBroadcast JSON_stringify logMessage w2)
                 \/ (Verification.isValid v = false
                     /\ exists alert s3 rt3,
                         createAlert (verifyAlert body v) s2 rt2
                         = (Ok alert, s3, rt3)
                         /\ w' = afterBroadcast JSON_stringify logMessage
                                  (afterBroadcast JSON_stringify
                                     (WebSocketMessage.mk "new_alert"
                                                          (PAlert alert))
                                     (afterCall
                                        (ECreateAlert (verifyAlert body v))
                                        s3 rt3 w2))))).
Proof.
  intros Hrun. cbv zeta. unfold post_verify_access, tryCatch in Hrun.
  cbv zeta in Hrun.
  destruct (missingFields body) eqn:Hguard.
  - left. unfold ret in Hrun. injection Hrun as <- <-. auto.
  - right. unfold bind at 1 in Hrun.
    destruct (verifyStudentAndVehicle (the (VerifyBody.studentId body))
                (the (VerifyBody.plateNumber body))
                (World.storage w) (World.runtime w))
      as [[[v|msg] s1] rt1] eqn:Hverify.
    2:{ rewrite (await_throw _ _ _ Hverify) in Hrun.
        injection Hrun as <- <-. left. auto. }
    rewrite (await_ok _ _ _ Hverify) in Hrun.
    unfold bind at 1 in Hrun.
    destruct (createAccessLog (verifyAccessLog body v) s1 rt1)
      as [[[log|msg] s2] rt2] eqn:Hlog.
    2:{ rewrite (await_throw _ _ (afterCall _ s1 rt1 w) Hlog) in Hrun.
        injection Hrun as <- <-. left. auto. }
    rewrite (await_ok _ _ (afterCall _ s1 rt1 w) Hlog) in Hrun.
    unfold bind at 1 in Hrun.
    destruct (Verification.isValid v) eqn:Hvalid; cbn [negb] in Hrun.
    + unfold ret at 1 in Hrun. unfold bind at 1 in Hrun.
      rewrite broadcast_afterBroadcast in Hrun.
      unfold ret in Hrun. injection Hrun as <- <-.
      right. split; [reflexivity|].
      exists v, s1, rt1, log, s2, rt2. repeat split; auto.
    + unfold bind at 1 in Hrun.
      destruct (createAlert (verifyAlert body v) s2 rt2)
        as [[[alert|msg] s3] rt3] eqn:Halert.
      2:{ rewrite (await_throw _ _ (afterCall _ s2 rt2 _) Halert) in Hrun.
          injection Hrun as <- <-. left. auto. }
      rewrite (await_ok _ _ (afterCall _ s2 rt2 _) Halert) in Hrun.
      rewrite broadcast_afterBroadcast in Hrun.
      unfold bind at 1 in Hrun.
      rewrite broadcast_afterBroadcast in Hrun.
      unfold ret in Hrun. injection Hrun as <- <-.
      right. split; [reflexivity|].
      exists v, s1, rt1, log, s2, rt2. repeat split; auto.
      right. split; [exact Hvalid|]. exists alert, s3, rt3. auto.
Qed.
End RouteFacts.

Lemma filter_deliveries_nil (p : Event -> bool) messageStr clients :
  (forall i d, p (ESend i d) = false) ->
  filter p (deliveries messageStr clients) = [].
Proof.
  intros Hp. unfold deliveries.
  induction (filter (fun c => isOpen (WebSocket.readyState c)) clients)
    as [|c cs IH]; simpl; [reflexivity|].
  now rewrite Hp.
Qed.

(** Normalises the trace of a world built with [afterCall] and
    [afterBroadcast] into [trace w ++ evs]. *)
Ltac trace_of_run :=
  cbn [afterCall afterBroadcast World.trace World.connectedClients
       World.storage World.runtime];
  rewrite <- ?app_assoc; cbn [app].

(** Evaluates a filter for one kind of storage call over such a trace. *)
Ltac count_calls :=
  repeat (progress
            (rewrite ?filter_app;
             cbn [filter isCreateAlert isCreateAccessLog isLookup isBroadcast];
             rewrite ?filter_deliveries_nil by reflexivity));
  rewrite ?app_nil_r; cbn [app].

Section ManualRoutes.
Context {S : Type} `{IStorage S}.
Variable JSON_stringify : WebSocketMessage -> string.

(** [POST /api/grant-access] calls the two lookups and the log write, never
    the alert write, whether or not it completes. *)
Lemma post_grant_access_no_alert body (w : World S) resp w' :
  post_grant_access JSON_stringify body w = (resp, w') ->
  exists evs,
    added (World.trace w) (World.trace w') evs
    /\ filter isCreateAlert evs = []
    /\ isDenial resp = false.
Proof.
  unfold post_grant_access, tryCatch, added. cbv zeta. intros Hrun.
  unfold bind at 1 in Hrun.
  destruct (getStudentByStudentId (GrantBody.studentId body)
              (World.storage w) (World.runtime w))
    as [[[student|msg] s1] rt1] eqn:Hstudent.
  2:{ rewrite (await_throw _ _ _ Hstudent) in Hrun. injection Hrun as <- <-.
      eexists. split; [trace_of_run; reflexivity|]. now count_calls. }
  rewrite (await_ok _ _ _ Hstudent) in Hrun. unfold bind at 1 in Hrun.
  destruct (getVehicleByPlate (GrantBody.plateNumber body) s1 rt1)
    as [[[vehicle|msg] s2] rt2] eqn:Hvehicle.
  2:{ rewrite (await_throw _ _ (afterCall _ s1 rt1 w) Hvehicle) in Hrun.
      injection Hrun as <- <-.
      eexists. split; [trace_of_run; reflexivity|]. now count_calls. }
  rewrite (await_ok _ _ (afterCall _ s1 rt1 w) Hvehicle) in Hrun.
  unfold bind at 1 in Hrun.
  destruct (createAccessLog (grantAccessLog body student vehicle) s2 rt2)
    as [[[log|msg] s3] rt3] eqn:Hlog.
  2:{ rewrite (await_throw _ _ (afterCall _ s2 rt2 _) Hlog) in Hrun.
      injection Hrun as <- <-.
      eexists. split; [trace_of_run; reflexivity|]. now count_calls. }
  rewrite (await_ok _ _ (afterCall _ s2 rt2 _) Hlog) in Hrun.
  unfold bind at 1 in Hrun. rewrite broadcast_afterBroadcast in Hrun.
  unfold ret in Hrun. injection Hrun as <- <-.
  eexists. split; [trace_of_run; reflexivity|]. now count_calls.
Qed.

(** A completed [POST /api/deny-access] made the alert write once, after
    the log write, whatever the two optional lookups resolved. *)
Lemma post_deny_access_one_alert body (w : World S) resp w' :
  post_deny_access JSON_stringify body w = (resp, w') ->
  Response.status resp <> 500 ->
  exists evs student vehicle,
    added (World.trace w) (World.trace w') evs
    /\ filter isCreateAlert evs = [ECreateAlert (denyAlert body)]
    /\ filter isCreateAccessLog evs
       = [ECreateAccessLog (denyAccessLog body student vehicle)]
    /\ isDenial resp = true
    /\ Response.status resp = 200.
Proof.
  unfold post_deny_access, tryCatch, added. cbv zeta. intros Hrun Hok.
  unfold bind at 1 in Hrun.
  assert (Hlookup1 :
    exists student w1 evs1,
      (if truthy_str (DenyBody.studentId body)
       then await (EGetStudentByStudentId (the (DenyBody.studentId body)))
                  (getStudentByStudentId (the (DenyBody.studentId body)))
       else ret None) w = (student, w1)
      /\ World.trace w1 = (World.trace w ++ evs1)%list
      /\ filter isCreateAlert evs1 = []
      /\ filter isCreateAccessLog evs1 = []).
  { destruct (truthy_str (DenyBody.studentId body)).
    - unfold await.
      destruct (getStudentByStudentId _ _ _) as [[r s1] rt1].
      do 3 eexists. split; [reflexivity|]. cbn. split; [reflexivity|]. auto.
    - exists (Ok None), w, []. rewrite app_nil_r. auto. }
  destruct Hlookup1 as (student & w1 & evs1 & Hrun1 & Htr1 & Hal1 & Hlg1).
  rewrite Hrun1 in Hrun.
  destruct student as [student|msg];
    [|injection Hrun as <- <-; now contradiction Hok].
  unfold bind at 1 in Hrun.
  assert (Hlookup2 :
    exists vehicle w2 evs2,
      (if truthy_str (DenyBody.plateNumber body)
       then await (EGetVehicleByPlate (the (DenyBody.plateNumber body)))
                  (getVehicleByPlate (the (DenyBody.plateNumber body)))
       else ret None) w1 = (vehicle, w2)
      /\ World.trace w2 = (World.trace w1 ++ evs2)%list
      /\ filter isCreateAlert evs2 = []
      /\ filter isCreateAccessLog evs2 = []).
  { destruct (truthy_str (DenyBody.plateNumber body)).
    - unfold await.
      destruct (getVehicleByPlate _ _ _) as [[r s2] rt2].
      do 3 eexists. split; [reflexivity|]. cbn. split; [reflexivity|]. auto.
    - exists (Ok None), w1, []. rewrite app_nil_r. auto. }
  destruct Hlookup2 as (vehicle & w2 & evs2 & Hrun2 & Htr2 & Hal2 & Hlg2).
  rewrite Hrun2 in Hrun.
  destruct vehicle as [vehicle|msg];
    [|injection Hrun as <- <-; now contradiction Hok].
  unfold bind at 1 in Hrun.
  destruct (createAccessLog (denyAccessLog body student vehicle)
              (World.storage w2) (World.runtime w2))
    as [[[log|msg] s3] rt3] eqn:Hlog.
  2:{ rewrite (await_throw _ _ _ Hlog) in Hrun.
      injection Hrun as <- <-. now contradiction Hok. }
  rewrite (await_ok _ _ _ Hlog) in Hrun. unfold bind at 1 in Hrun.
  destruct (createAlert (denyAlert body) s3 rt3)
    as [[[alert|msg] s4] rt4] eqn:Halert.
  2:{ rewrite (await_throw _ _ (afterCall _ s3 rt3 _) Halert) in Hrun.
      injection Hrun as <- <-. now contradiction Hok. }
  rewrite (await_ok _ _ (afterCall _ s3 rt3 _) Halert) in Hrun.
  unfold bind at 1 in Hrun. rewrite broadcast_afterBroadcast in Hrun.
  unfold bind at 1 in Hrun. rewrite broadcast_afterBroadcast in Hrun.
  unfold ret in Hrun. injection Hrun as <- <-.
  exists (evs1 ++ evs2
          ++ [ECreateAccessLog (denyAccessLog body student vehicle);
              ECreateAlert (denyAlert body)]
          ++ EStringify (WebSocketMessage.mk "access_denied"
                           (PLog (LogWithDetails.mk log student vehicle)))
             :: deliveries
                  (JSON_stringify
                     (WebSocketMessage.mk "access_denied"
                        (PLog (LogWithDetails.mk log student vehicle))))
                  (World.connectedClients w2)
          ++ EStringify (WebSocketMessage.mk "new_alert" (PAlert alert))
             :: deliveries
                  (JSON_stringify
                     (WebSocketMessage.mk "new_alert" (PAlert alert)))
                  (map (deliver
                          (JSON_stringify
                             (WebSocketMessage.mk "access_denied"
                                (PLog (LogWithDetails.mk log student vehicle)))))
                       (World.connectedClients w2)))%list,
         student, vehicle.
  split.
  { trace_of_run. rewrite Htr2, Htr1. rewrite <- !app_assoc. reflexivity. }
  split.
  { count_calls. rewrite Hal1, Hal2. reflexivity. }
  split.
  { count_calls. rewrite Hlg1, Hlg2. reflexivity. }
  split; reflexivity.
Qed.
End ManualRoutes.

Lemma absent_not_truthy field : absent field <-> truthy_str field = false.
Proof.
  unfold absent, truthy_str. destruct field as [s|].
  - destruct (String.eqb_spec s ""); simpl; split.
    + reflexivity.
    + intros _. right. now subst.
    + intros [Hn|[= Hs]]; [discriminate|contradiction].
    + discriminate.
  - split; auto.
Qed.

Lemma missingFields_iff body :
  missingFields body = true
  <-> absent (VerifyBody.studentId body)
      \/ absent (VerifyBody.plateNumber body)
      \/ absent (VerifyBody.gateLocation body).
Proof.
  unfold missingFields. rewrite !orb_true_iff, !negb_true_iff.
  rewrite !absent_not_truthy. tauto.
Qed.

Lemma truthy_str_some field :
  truthy_str field = true -> exists s, field = Some s /\ s <> "".
Proof.
  destruct field as [s|]; simpl; [|discriminate].
  destruct (String.eqb_spec s ""); simpl; [discriminate|].
  intros _. eauto.
Qed.

Section MemoryRoutes.
Variable JSON_stringify : WebSocketMessage -> string.

(** With the in-memory storage no call throws: a request that passes the
    guard is answered 200, and the store gains the log entry built from
    the verdict. *)
Lemma memory_post_verify_access_run body (w : World MemoryStorage.t) :
  missingFields body = false ->
  let m := World.storage w in
  let rt := World.runtime w in
  let v := MemoryStorage.verifyStudentAndVehicle
             (the (VerifyBody.studentId body))
             (the (VerifyBody.plateNumber body)) m in
  let log := memoryLog rt (verifyAccessLog body v) in
  exists w',
    post_verify_access JSON_stringify body w
    = (Response.mk 200
         (BVerification v
            (LogWithDetails.mk log (Verification.student v)
                               (Verification.vehicle v))),
       w')
    /\ MemoryStorage.students (World.storage w') = MemoryStorage.students m
    /\ MemoryStorage.vehicles (World.storage w') = MemoryStorage.vehicles m
    /\ MemoryStorage.accessLogs (World.storage w')
       = JsMap.set (AccessLog.id log) log (MemoryStorage.accessLogs m)
    /\ World.runtime w'
       = advance (if Verification.isValid v then 1 else 2) rt
    /\ MemoryStorage.alerts (World.storage w')
       = (if Verification.isValid v then MemoryStorage.alerts m
          else
            let alert := memoryAlert (advance 1 rt) (verifyAlert body v) in
            JsMap.set (Alert.id alert) alert (MemoryStorage.alerts m)).
Proof.
  intros Hguard. cbv zeta.
  unfold post_verify_access, tryCatch. cbv zeta. rewrite Hguard.
  unfold bind at 1.
  erewrite await_ok by reflexivity.
  unfold bind at 1. unfold await at 1.
  cbn [createAccessLog MemoryStorage_IStorage afterCall
       World.storage World.runtime World.connectedClients World.trace].
  unfold MemoryStorage.createAccessLog, generateId, newDate.
  cbn [uuids uuid_calls clock clock_reads startOfDay nextDay fst snd].
  unfold bind at 1.
  destruct (Verification.isValid
              (MemoryStorage.verifyStudentAndVehicle
                 (the (VerifyBody.studentId body))
                 (the (VerifyBody.plateNumber body)) (World.storage w)))
    eqn:Hvalid; cbn [negb].
  - unfold ret at 1. unfold bind at 1.
    rewrite broadcast_afterBroadcast. unfold ret.
    eexists. split; [reflexivity|].
    cbn. repeat split; reflexivity.
  - unfold bind at 1. unfold await at 1.
    cbn [createAlert MemoryStorage_IStorage
         World.storage World.runtime World.connectedClients World.trace].
    unfold MemoryStorage.createAlert, generateId, newDate.
    cbn [uuids uuid_calls clock clock_reads startOfDay nextDay fst snd].
    rewrite broadcast_afterBroadcast.
    unfold bind at 1. rewrite broadcast_afterBroadcast. unfold ret.
    eexists. split; [reflexivity|].
    cbn. repeat split; reflexivity.
Qed.

(** With the in-memory storage a manual grant is always answered 200; it
    writes its log entry and leaves the alert map alone. *)
Lemma memory_post_grant_access_run body (w : World MemoryStorage.t) :
  let m := World.storage w in
  let rt := World.runtime w in
  let student :=
    MemoryStorage.getStudentByStudentId (GrantBody.studentId body) m in
  let vehicle :=
    MemoryStorage.getVehicleByPlate (GrantBody.plateNumber body) m in
  let log := memoryLog rt (grantAccessLog body student vehicle) in
  exists w',
    post_grant_access JSON_stringify body w
    = (Response.mk 200 (BGranted (LogWithDetails.mk log student vehicle)), w')
    /\ MemoryStorage.accessLogs (World.storage w')
       = JsMap.set (AccessLog.id log) log (MemoryStorage.accessLogs m)
    /\ MemoryStorage.alerts (World.storage w') = MemoryStorage.alerts m.
Proof.
  cbv zeta. unfold post_grant_access, tryCatch. cbv zeta.
  unfold bind at 1. erewrite await_ok by reflexivity.
  unfold bind at 1. erewrite await_ok by reflexivity.
  unfold bind at 1. unfold await at 1.
  cbn [createAccessLog MemoryStorage_IStorage afterCall
       World.storage World.runtime World.connectedClients World.trace].
  unfold MemoryStorage.createAccessLog, generateId, newDate.
  cbn [uuids uuid_calls clock clock_reads startOfDay nextDay fst snd].
  unfold bind at 1. rewrite broadcast_afterBroadcast. unfold ret.
  eexists. split; [reflexivity|]. cbn. split; reflexivity.
Qed.

(** With the in-memory storage a manual denial is always answered 200; it
    writes its log entry and then sets one new alert in the alert map. *)
Lemma memory_post_deny_access_run body (w : World MemoryStorage.t) :
  let m := World.storage w in
  let rt := World.runtime w in
  let student :=
    if truthy_str (DenyBody.studentId body)
    then MemoryStorage.getStudentByStudentId (the (DenyBody.studentId body)) m
    else None in
  let vehicle :=
    if truthy_str (DenyBody.plateNumber body)
    then MemoryStorage.getVehicleByPlate (the (DenyBody.plateNumber body)) m
    else None in
  let log := memoryLog rt (denyAccessLog body student vehicle) in
  let alert := memoryAlert (advance 1 rt) (denyAlert body) in
  exists w',
    post_deny_access JSON_stringify body w
    = (Response.mk 200
         (BDenied (LogWithDetails.mk log student vehicle) alert), w')
    /\ MemoryStorage.accessLogs (World.storage w')
       = JsMap.set (AccessLog.id log) log (MemoryStorage.accessLogs m)
    /\ MemoryStorage.alerts (World.storage w')
       = JsMap.set (Alert.id alert) alert (MemoryStorage.alerts m).
Proof.
  cbv zeta. unfold post_deny_access, tryCatch. cbv zeta.
  unfold bind at 1.
  destruct (truthy_str (DenyBody.studentId body));
    [erewrite await_ok by reflexivity|unfold ret at 1];
    (unfold bind at 1;
     destruct (truthy_str (DenyBody.plateNumber body));
     [erewrite await_ok by reflexivity|unfold ret at 1]);
    unfold bind at 1; unfold await at 1;
    cbn [createAccessLog MemoryStorage_IStorage afterCall
         World.storage World.runtime World.connectedClients World.trace];
    unfold MemoryStorage.createAccessLog, generateId, newDate;
    cbn [uuids uuid_calls clock clock_reads startOfDay nextDay fst snd];
    unfold bind at 1; unfold await at 1;
    cbn [createAlert MemoryStorage_IStorage
         World.storage World.runtime World.connectedClients World.trace];
    unfold MemoryStorage.createAlert, generateId, newDate;
    cbn [uuids uuid_calls clock clock_reads startOfDay nextDay fst snd];
    unfold bind at 1; rewrite broadcast_afterBroadcast;
    unfold bind at 1; rewrite broadcast_afterBroadcast; unfold ret;
    (eexists; split; [reflexivity|]; cbn; split; reflexivity).
Qed.
End MemoryRoutes.

Lemma post_verify_access_rejects (S : Type) (I : IStorage S)
  (JSON_stringify : WebSocketMessage -> string) body (w : World S) :
  missingFields body = true ->
  post_verify_access JSON_stringify body w
  = (Response.mk 400 (BError "Missing required fields"), w).
Proof.
  intros Hguard. unfold post_verify_access, tryCatch. cbv zeta.
  now rewrite Hguard.
Qed.

Lemma verifyAccessLog_status body v :
  (InsertAccessLog.accessStatus (verifyAccessLog body v) = "granted"
   <-> Verification.isValid v = true)
  /\ (InsertAccessLog.accessStatus (verifyAccessLog body v) = "denied"
      <-> Verification.isValid v = false).
Proof.
  unfold verifyAccessLog. simpl.
  destruct (Verification.isValid v); repeat split; congruence.
Qed.

(** ** Alerts *)

(** C2. Whatever the storage behind the routes: a run of the automatic
    route that does not end in a 500 answers a request that passes the guard
    with the verdict the storage returned, and it made the alert write once,
    with the alert built from that verdict, when the verdict is invalid and
    not at all when it is valid; a rejected request makes no alert write; so
    the alert write is made once when the response reports a denial and not
    at all otherwise. A run of the manual grant route never makes the alert
    write and never reports a denial; a run of the manual deny route that
    does not end in a 500 made the alert write exactly once and reports a
    denial, whatever its lookups resolved. With the in-memory storage no run
    ends in a 500, the verdict is the one of
    [MemoryStorage.verifyStudentAndVehicle] on the store of the request, and
    the alert map after the run is the map before it when the verdict is
    valid, the request is rejected or the grant is manual, and the map
    before it with one new alert set under its generated id when the verdict
    is invalid or the denial is manual. *)
Theorem C2_alert_iff_denial :
  forall (JSON_stringify : WebSocketMessage -> string),
    (forall (S : Type) (I : IStorage S),
        (forall body (w : World S) resp w',
            post_verify_access JSON_stringify body w = (resp, w') ->
            Response.status resp <> 500 ->
            exists evs,
              added (World.trace w) (World.trace w') evs
              /\ List.length (filter isCreateAlert evs)
                 = (if isDenial resp then 1 else 0)
              /\ (missingFields body = true ->
                  Response.status resp = 400 /\ isDenial resp = false)
              /\ (missingFields body = false ->
                  exists v s1 rt1 details,
                    verifyStudentAndVehicle
                      (the (VerifyBody.studentId body))
                      (the (VerifyBody.plateNumber body))
                      (World.storage w) (World.runtime w)
                    = (Ok v, s1, rt1)
                    /\ resp = Response.mk 200 (BVerification v details)
                    /\ isDenial resp = negb (Verification.isValid v)
                    /\ filter isCreateAlert evs
                       = (if Verification.isValid v then []
                          else [ECreateAlert (verifyAlert body v)])))
        /\ (forall body (w : World S) resp w',
            post_grant_access JSON_stringify body w = (resp, w') ->
            exists evs,
              added (World.trace w) (World.trace w') evs
              /\ List.length (filter isCreateAlert evs) = 0
              /\ isDenial resp = false)
        /\ (forall body (w : World S) resp w',
            post_deny_access JSON_stringify body w = (resp, w') ->
            Response.status resp <> 500 ->
            exists evs,
              added (World.trace w) (World.trace w') evs
              /\ List.length (filter isCreateAlert evs) = 1
              /\ isDenial resp = true))
    /\ (forall (w : World MemoryStorage.t),
        let alerts := MemoryStorage.alerts (World.storage w) in
        let alertId :=
          uuids (World.runtime w) (1 + uuid_calls (World.runtime w)) in
        (forall body resp w',
            post_verify_access JSON_stringify body w = (resp, w') ->
            Response.status resp <> 500
            /\ (isDenial resp = false ->
                MemoryStorage.alerts (World.storage w') = alerts)
            /\ (isDenial resp = true ->
                exists alert,
                  Alert.id alert = alertId
                  /\ MemoryStorage.alerts (World.storage w')
                     = JsMap.set alertId alert alerts)
            /\ (missingFields body = false ->
                let v := MemoryStorage.verifyStudentAndVehicle
                           (the (VerifyBody.studentId body))
                           (the (VerifyBody.plateNumber body))
                           (World.storage w) in
                (exists details,
                    resp = Response.mk 200 (BVerification v details))
                /\ isDenial resp = negb (Verification.isValid v)
                /\ MemoryStorage.alerts (World.storage w')
                   = (if Verification.isValid v then alerts
                      else JsMap.set alertId
                             (memoryAlert (advance 1 (World.runtime w))
                                          (verifyAlert body v))
                             alerts)))
        /\ (forall body resp w',
            post_grant_access JSON_stringify body w = (resp, w') ->
            Response.status resp = 200
            /\ MemoryStorage.alerts (World.storage w') = alerts)
        /\ (forall body resp w',
            post_deny_access JSON_stringify body w = (resp, w') ->
            Response.status resp = 200
            /\ exists details alert,
                 Response.body resp = BDenied details alert
                 /\ Alert.id alert = alertId
                 /\ MemoryStorage.alerts (World.storage w')
                    = JsMap.set alertId alert alerts)).
Proof.
  intros JSON_stringify. split.
  - intros S I. split; [|split].
    + intros body w resp w' Hrun Hok.
      destruct (post_verify_access_inv _ _ _ Hrun)
        as [(Hg & -> & ->)
           |[(Hg & ->)
            |(Hg & v & s1 & rt1 & log & s2 & rt2 & Hv & Hl & Hresp & Hcase)]].
      * exists []. unfold added. rewrite app_nil_r.
        split; [reflexivity|]. split; [reflexivity|].
        split; [split; reflexivity|congruence].
      * now contradiction Hok.
      * subst resp. unfold isDenial. cbn [Response.body].
        destruct Hcase
          as [(Hvalid & ->)|(Hvalid & alert & s3 & rt3 & Ha & ->)];
          rewrite Hvalid; cbn [negb];
          (eexists; split; [unfold added; trace_of_run; reflexivity|]);
          (split; [now count_calls|]);
          (split; [congruence|]);
          intros _; exists v, s1, rt1; eexists;
          (split; [exact Hv|]); (split; [reflexivity|]);
          rewrite Hvalid; (split; [reflexivity|]); now count_calls.
    + intros body w resp w' Hrun.
      destruct (post_grant_access_no_alert _ _ _ Hrun)
        as (evs & Hadd & Hnone & Hd).
      exists evs. rewrite Hnone. auto.
    + intros body w resp w' Hrun Hok.
      destruct (post_deny_access_one_alert _ _ _ Hrun Hok)
        as (evs & student & vehicle & Hadd & Hone & _ & Hd & _).
      exists evs. rewrite Hone. auto.
  - intros w. cbv zeta. split; [|split].
    + intros body resp w' Hrun.
      destruct (missingFields body) eqn:Hguard.
      { rewrite post_verify_access_rejects in Hrun by exact Hguard.
        injection Hrun as <- <-.
        split; [discriminate|]. split; [reflexivity|].
        split; discriminate. }
      destruct (memory_post_verify_access_run JSON_stringify body w Hguard)
        as (w1 & Hrun1 & _ & _ & _ & _ & Halerts).
      rewrite Hrun1 in Hrun. injection Hrun as <- <-.
      split; [discriminate|]. unfold isDenial. cbn [Response.body].
      rewrite Halerts.
      destruct (Verification.isValid _); cbn [negb].
      * split; [reflexivity|]. split; [discriminate|]. intros _.
        split; [eexists; reflexivity|]. split; reflexivity.
      * split; [discriminate|]. split.
        -- intros _. eexists. split; [|reflexivity]. reflexivity.
        -- intros _. split; [eexists; reflexivity|]. split; reflexivity.
    + intros body resp w' Hrun.
      destruct (memory_post_grant_access_run JSON_stringify body w)
        as (w1 & Hrun1 & _ & Halerts).
      rewrite Hrun1 in Hrun. injection Hrun as <- <-. auto.
    + intros body resp w' Hrun.
      destruct (memory_post_deny_access_run JSON_stringify body w)
        as (w1 & Hrun1 & _ & Halerts).
      rewrite Hrun1 in Hrun. injection Hrun as <- <-.
      split; [reflexivity|]. do 2 eexists.
      split; [reflexivity|]. split; [|exact Halerts]. reflexivity.
Qed.

(** ** Request validation *)

(** C3. When [studentId], [plateNumber] or [gateLocation] is missing or
    empty, [POST /api/verify-access] answers 400 and leaves the process as
    it found it: the store, the runtime, every observer and the trace are
    unchanged, so no lookup was made, no log and no alert were written and
    nothing was broadcast. *)
Theorem C3_missing_field_is_rejected_without_effect :
  forall (S : Type) (I : IStorage S)
         (JSON_stringify : WebSocketMessage -> string)
         body (w : World S),
    absent (VerifyBody.studentId body)
    \/ absent (VerifyBody.plateNumber body)
    \/ absent (VerifyBody.gateLocation body) ->
    post_verify_access JSON_stringify body w
    = (Response.mk 400 (BError "Missing required fields"), w).
Proof.
  intros S I JSON_stringify body w Habsent.
  apply post_verify_access_rejects. now apply missingFields_iff.
Qed.

(** ** Access log entries *)

(** C4. A run of [POST /api/verify-access] answered 200 made the log write
    exactly once, whatever the storage; the entry written has the status
    ['granted'] exactly when the verdict is valid and ['denied'] exactly
    when it is not, the plate and the gate location of the request, the
    reason of the verdict and the metadata [{confidence: 100}]; the response
    carries the entry the storage returned. With the in-memory storage that
    entry, under its generated id, is the one change of the log map, and
    its reason is absent when the verdict is valid. *)
Theorem C4_one_access_log_per_verification :
  forall (JSON_stringify : WebSocketMessage -> string),
    (forall (S : Type) (I : IStorage S) body (w : World S) resp w',
        post_verify_access JSON_stringify body w = (resp, w') ->
        Response.status resp = 200 ->
        exists v log evs,
          let entry := verifyAccessLog body v in
          Response.body resp
          = BVerification v
              (LogWithDetails.mk log (Verification.student v)
                                 (Verification.vehicle v))
          /\ (exists s1 rt1 s2 rt2,
                 verifyStudentAndVehicle
                   (the (VerifyBody.studentId body))
                   (the (VerifyBody.plateNumber body))
                   (World.storage w) (World.runtime w) = (Ok v, s1, rt1)
                 /\ createAccessLog entry s1 rt1 = (Ok log, s2, rt2))
          /\ added (World.trace w) (World.trace w') evs
          /\ filter isCreateAccessLog evs = [ECreateAccessLog entry]
          /\ (InsertAccessLog.accessStatus entry = "granted"
              <-> Verification.isValid v = true)
          /\ (InsertAccessLog.accessStatus entry = "denied"
              <-> Verification.isValid v = false)
          /\ (exists plate,
                 VerifyBody.plateNumber body = Some plate
                 /\ InsertAccessLog.plateNumber entry = Some plate)
          /\ (exists gate,
                 VerifyBody.gateLocation body = Some gate
                 /\ InsertAccessLog.gateLocation entry = Some gate)
          /\ InsertAccessLog.reason entry = Verification.reason v
          /\ InsertAccessLog.metadata entry = JObj [("confidence", JNum 100)])
    /\ (forall body (w : World MemoryStorage.t) resp w',
        post_verify_access JSON_stringify body w = (resp, w') ->
        Response.status resp = 200 ->
        let v := MemoryStorage.verifyStudentAndVehicle
                   (the (VerifyBody.studentId body))
                   (the (VerifyBody.plateNumber body)) (World.storage w) in
        exists log,
          Response.body resp
          = BVerification v
              (LogWithDetails.mk log (Verification.student v)
                                 (Verification.vehicle v))
          /\ MemoryStorage.accessLogs (World.storage w')
             = JsMap.set (AccessLog.id log) log
                 (MemoryStorage.accessLogs (World.storage w))
          /\ AccessLog.id log
             = uuids (World.runtime w) (uuid_calls (World.runtime w))
          /\ (AccessLog.accessStatus log = "granted"
              <-> Verification.isValid v = true)
          /\ (AccessLog.accessStatus log = "denied"
              <-> Verification.isValid v = false)
          /\ AccessLog.plateNumber log = VerifyBody.plateNumber body
          /\ AccessLog.gateLocation log = VerifyBody.gateLocation body
          /\ AccessLog.reason log = Verification.reason v
          /\ (Verification.isValid v = true -> AccessLog.reason log = None)
          /\ AccessLog.metadata log = JObj [("confidence", JNum 100)]).
Proof.
  intros JSON_stringify. split.
  - intros S I body w resp w' Hrun Hok.
    destruct (post_verify_access_inv _ _ _ Hrun)
      as [(Hg & -> & ->)
         |[(Hg & ->)
          |(Hg & v & s1 & rt1 & log & s2 & rt2 & Hv & Hl & Hresp & Hcase)]];
      [discriminate Hok|discriminate Hok|].
    subst resp. cbv zeta.
    assert (Htrace : exists evs,
               added (World.trace w) (World.trace w') evs
               /\ filter isCreateAccessLog evs
                  = [ECreateAccessLog (verifyAccessLog body v)]).
    { destruct Hcase as [(Hvalid & ->)|(Hvalid & alert & s3 & rt3 & Ha & ->)];
        (eexists; split; [unfold added; trace_of_run; reflexivity|]);
        now count_calls. }
    destruct Htrace as (evs & Hadd & Hone).
    unfold missingFields in Hg. rewrite !orb_false_iff, !negb_false_iff in Hg.
    destruct Hg as [[_ Hplate] Hgate].
    destruct (truthy_str_some _ Hplate) as (plate & Hp & _).
    destruct (truthy_str_some _ Hgate) as (gate & Hgt & _).
    exists v, log, evs.
    split; [reflexivity|].
    split; [exists s1, rt1, s2, rt2; auto|].
    split; [exact Hadd|]. split; [exact Hone|].
    split; [apply verifyAccessLog_status|].
    split; [apply verifyAccessLog_status|].
    split; [exists plate; auto|].
    split; [exists gate; auto|].
    split; reflexivity.
  - intros body w resp w' Hrun Hok. cbv zeta.
    destruct (missingFields body) eqn:Hguard.
    { rewrite post_verify_access_rejects in Hrun by exact Hguard.
      injection Hrun as <- <-. discriminate Hok. }
    destruct (memory_post_verify_access_run JSON_stringify body w Hguard)
      as (w1 & Hrun1 & _ & _ & Hlogs & _).
    rewrite Hrun1 in Hrun. injection Hrun as <- <-.
    eexists. split; [reflexivity|]. split; [exact Hlogs|].
    split; [reflexivity|].
    split; [apply verifyAccessLog_status|].
    split; [apply verifyAccessLog_status|].
    split; [reflexivity|]. split; [reflexivity|]. split; [reflexivity|].
    split; [|reflexivity].
    intros Hvalid. cbn [memoryLog AccessLog.reason verifyAccessLog
                        InsertAccessLog.reason].
    rewrite memory_verify_verdict in *.
    destruct (verdict_decidedInOrder
                (MemoryStorage.getStudentByStudentId
                   (the (VerifyBody.studentId body)) (World.storage w))
                (MemoryStorage.getVehicleByPlate
                   (the (VerifyBody.plateNumber body)) (World.storage w)))
      as (_ & _ & _ & _ & _ & Hnone).
    exact (Hnone Hvalid).
Qed.

(** ** Denial reasons *)

(** C5 (amended). For every denied verification, in both storage classes,
    the reason is exactly the string the code assigns to the first failing
    check: ["Student ID not found"] when no student matches the token,
    ["Vehicle not registered"] when no vehicle matches the plate,
    ["Vehicle does not belong to this student"] on an ownership mismatch and
    ["Student or vehicle is inactive"] when either active flag is not true.
    That reason is the one returned and the one logged: whatever the
    storage, a run of [POST /api/verify-access] answered 200 returns the
    verdict the storage gave and passes its reason to the one log write. *)
Theorem C5_denied_reason_strings :
  forall studentId plateNumber,
    (forall m : MemoryStorage.t,
        let student := MemoryStorage.getStudentByStudentId studentId m in
        let vehicle := MemoryStorage.getVehicleByPlate plateNumber m in
        let r := MemoryStorage.verifyStudentAndVehicle studentId plateNumber m in
        Verification.isValid r = false ->
        (student = None
         /\ Verification.reason r = Some "Student ID not found")
        \/ ((exists s, student = Some s) /\ vehicle = None
            /\ Verification.reason r = Some "Vehicle not registered")
        \/ ((exists s v, student = Some s /\ vehicle = Some v
                         /\ Vehicle.studentId v <> StudentWithVehicle.id s)
            /\ Verification.reason r
               = Some "Vehicle does not belong to this student")
        \/ ((exists s v, student = Some s /\ vehicle = Some v
                         /\ Vehicle.studentId v = StudentWithVehicle.id s
                         /\ (StudentWithVehicle.isActive s <> Some true
                             \/ Vehicle.isActive v <> Some true))
            /\ Verification.reason r = Some "Student or vehicle is inactive"))
    /\ (forall db : DrizzleStorage.t,
        let student := DrizzleStorage.getStudentByStudentId studentId db in
        let vehicle := DrizzleStorage.getVehicleByPlate plateNumber db in
        let r := DrizzleStorage.verifyStudentAndVehicle studentId plateNumber db in
        Verification.isValid r = false ->
        (student = None
         /\ Verification.reason r = Some "Student ID not found")
        \/ ((exists s, student = Some s) /\ vehicle = None
            /\ Verification.reason r = Some "Vehicle not registered")
        \/ ((exists s v, student = Some s /\ vehicle = Some v
                         /\ Vehicle.studentId v <> StudentWithVehicle.id s)
            /\ Verification.reason r
               = Some "Vehicle does not belong to this student")
        \/ ((exists s v, student = Some s /\ vehicle = Some v
                         /\ Vehicle.studentId v = StudentWithVehicle.id s
                         /\ (StudentWithVehicle.isActive s <> Some true
                             \/ Vehicle.isActive v <> Some true))
            /\ Verification.reason r = Some "Student or vehicle is inactive"))
    /\ (forall (S : Type) (I : IStorage S)
               (JSON_stringify : WebSocketMessage -> string)
               body (w : World S) resp w',
        VerifyBody.studentId body = Some studentId ->
        VerifyBody.plateNumber body = Some plateNumber ->
        post_verify_access JSON_stringify body w = (resp, w') ->
        Response.status resp = 200 ->
        exists v details s1 rt1 evs,
          Response.body resp = BVerification v details
          /\ verifyStudentAndVehicle studentId plateNumber
               (World.storage w) (World.runtime w) = (Ok v, s1, rt1)
          /\ added (World.trace w) (World.trace w') evs
          /\ filter isCreateAccessLog evs
             = [ECreateAccessLog (verifyAccessLog body v)]
          /\ InsertAccessLog.reason (verifyAccessLog body v)
             = Verification.reason v).
Proof.
  intros studentId plateNumber. split; [|split].
  - intros m. cbv zeta. rewrite memory_verify_verdict.
    apply verdict_denied_reason.
  - intros db. cbv zeta. rewrite drizzle_verify_verdict.
    apply verdict_denied_reason.
  - intros S I JSON_stringify body w resp w' Hsid Hplate Hrun Hok.
    destruct (post_verify_access_inv _ _ _ Hrun)
      as [(Hg & -> & ->)
         |[(Hg & ->)
          |(Hg & v & s1 & rt1 & log & s2 & rt2 & Hv & Hl & Hresp & Hcase)]];
      [discriminate Hok|discriminate Hok|].
    rewrite Hsid, Hplate in Hv. cbn [the] in Hv. subst resp.
    assert (Htrace : exists evs,
               added (World.trace w) (World.trace w') evs
               /\ filter isCreateAccessLog evs
                  = [ECreateAccessLog (verifyAccessLog body v)]).
    { destruct Hcase as [(Hvalid & ->)|(Hvalid & alert & s3 & rt3 & Ha & ->)];
        (eexists; split; [unfold added; trace_of_run; reflexivity|]);
        now count_calls. }
    destruct Htrace as (evs & Hadd & Hone).
    exists v, (LogWithDetails.mk log (Verification.student v)
                                 (Verification.vehicle v)), s1, rt1, evs.
    repeat split; auto.
Qed.

(** The amended C5 at a denied verification: a known student at the gate
    with a plate nobody registered. *)
Lemma C5_denied_reason_strings_witness :
  Verification.isValid
    (MemoryStorage.verifyStudentAndVehicle "S100" "XYZ999" campus) = false
  /\ ((MemoryStorage.getStudentByStudentId "S100" campus = None
       /\ Verification.reason
            (MemoryStorage.verifyStudentAndVehicle "S100" "XYZ999" campus)
          = Some "Student ID not found")
      \/ ((exists s, MemoryStorage.getStudentByStudentId "S100" campus = Some s)
          /\ MemoryStorage.getVehicleByPlate "XYZ999" campus = None
          /\ Verification.reason
               (MemoryStorage.verifyStudentAndVehicle "S100" "XYZ999" campus)
             = Some "Vehicle not registered")
      \/ ((exists s v,
              MemoryStorage.getStudentByStudentId "S100" campus = Some s
              /\ MemoryStorage.getVehicleByPlate "XYZ999" campus = Some v
              /\ Vehicle.studentId v <> StudentWithVehicle.id s)
          /\ Verification.reason
               (MemoryStorage.verifyStudentAndVehicle "S100" "XYZ999" campus)
             = Some "Vehicle does not belong to this student")
      \/ ((exists s v,
              MemoryStorage.getStudentByStudentId "S100" campus = Some s
              /\ MemoryStorage.getVehicleByPlate "XYZ999" campus = Some v
              /\ Vehicle.studentId v = StudentWithVehicle.id s
              /\ (StudentWithVehicle.isActive s <> Some true
                  \/ Vehicle.isActive v <> Some true))
          /\ Verification.reason
               (MemoryStorage.verifyStudentAndVehicle "S100" "XYZ999" campus)
             = Some "Student or vehicle is inactive")).
Proof.
  split; [reflexivity|].
  apply (proj1 (C5_denied_reason_strings "S100" "XYZ999") campus).
  reflexivity.
Defined.

(** ** Repeated verification *)

Lemma memory_verify_ext studentId plateNumber (m m' : MemoryStorage.t) :
  MemoryStorage.students m' = MemoryStorage.students m ->
  MemoryStorage.vehicles m' = MemoryStorage.vehicles m ->
  MemoryStorage.verifyStudentAndVehicle studentId plateNumber m'
  = MemoryStorage.verifyStudentAndVehicle studentId plateNumber m.
Proof.
  intros Hs Hv.
  unfold MemoryStorage.verifyStudentAndVehicle,
         MemoryStorage.getStudentByStudentId, MemoryStorage.getVehicleByPlate.
  now rewrite Hs, Hv.
Qed.

(** A successful insert into [access_logs]: the new row is the last one, it
    carries the fields of the input under an id that no earlier row has, and
    the other tables are untouched. *)
Lemma drizzle_createAccessLog_ok entry (db db' : DrizzleStorage.t)
      (rt rt' : Runtime) log :
  DrizzleStorage.createAccessLog entry db rt = (Ok log, db', rt') ->
  entryOf log = entry
  /\ (forall l, In l (DrizzleStorage.accessLogs db) ->
                AccessLog.id l <> AccessLog.id log)
  /\ DrizzleStorage.students db' = DrizzleStorage.students db
  /\ DrizzleStorage.vehicles db' = DrizzleStorage.vehicles db
  /\ DrizzleStorage.accessLogs db'
     = (DrizzleStorage.accessLogs db ++ [log])%list.
Proof.
  unfold DrizzleStorage.createAccessLog, insertDefaults. cbv zeta.
  destruct (InsertAccessLog.gateLocation entry) as [gate|] eqn:Hg;
    [|discriminate].
  destruct (negb _ || negb _); [discriminate|].
  destruct (DrizzleStorage.existsb_id AccessLog.id _ _) eqn:Hpk;
    [discriminate|].
  intros [= <- <- _]. cbn.
  split; [destruct entry; cbn in *; now rewrite Hg|].
  split; [|repeat split].
  intros l Hin Heq. unfold DrizzleStorage.existsb_id in Hpk.
  pose proof (existsb_exists
                (fun r => String.eqb (AccessLog.id r)
                            (gen_random_uuid (postgres rt)
                                             (uuid_draws (postgres rt))))
                (DrizzleStorage.accessLogs db)) as [_ Hex].
  rewrite Hex in Hpk; [discriminate|].
  exists l. split; [exact Hin|]. now apply String.eqb_eq.
Qed.

(** An insert into [alerts] touches no other table. *)
Lemma drizzle_createAlert_frame input (db db' : DrizzleStorage.t)
      (rt rt' : Runtime) (outcome : Outcome Alert) :
  DrizzleStorage.createAlert input db rt = (outcome, db', rt') ->
  DrizzleStorage.students db' = DrizzleStorage.students db
  /\ DrizzleStorage.vehicles db' = DrizzleStorage.vehicles db
  /\ DrizzleStorage.accessLogs db' = DrizzleStorage.accessLogs db.
Proof.
  unfold DrizzleStorage.createAlert, insertDefaults. cbv zeta.
  destruct (DrizzleStorage.existsb_id Alert.id _ _);
    intros [= _ <- _]; repeat split.
Qed.

Lemma drizzle_verify_ext studentId plateNumber (db db' : DrizzleStorage.t) :
  DrizzleStorage.students db' = DrizzleStorage.students db ->
  DrizzleStorage.vehicles db' = DrizzleStorage.vehicles db ->
  DrizzleStorage.verifyStudentAndVehicle studentId plateNumber db'
  = DrizzleStorage.verifyStudentAndVehicle studentId plateNumber db.
Proof.
  intros Hs Hv.
  unfold DrizzleStorage.verifyStudentAndVehicle,
         DrizzleStorage.getStudentByStudentId, DrizzleStorage.getVehicleByPlate.
  now rewrite Hs, Hv.
Qed.

(** A run of [POST /api/verify-access] on the database class that is
    answered 200: the verdict is the one of the class on the tables of the
    request, one row was appended to [access_logs], and the student and
    vehicle tables are as before. *)
Lemma drizzle_post_verify_access_200
      (JSON_stringify : WebSocketMessage -> string) body
      (w w' : World DrizzleStorage.t) resp :
  post_verify_access JSON_stringify body w = (resp, w') ->
  Response.status resp = 200 ->
  let db := World.storage w in
  let v := DrizzleStorage.verifyStudentAndVehicle
             (the (VerifyBody.studentId body))
             (the (VerifyBody.plateNumber body)) db in
  exists log,
    resp = Response.mk 200
             (BVerification v
                (LogWithDetails.mk log (Verification.student v)
                                   (Verification.vehicle v)))
    /\ entryOf log = verifyAccessLog body v
    /\ (forall l, In l (DrizzleStorage.accessLogs db) ->
                  AccessLog.id l <> AccessLog.id log)
    /\ DrizzleStorage.students (World.storage w') = DrizzleStorage.students db
    /\ DrizzleStorage.vehicles (World.storage w') = DrizzleStorage.vehicles db
    /\ DrizzleStorage.accessLogs (World.storage w')
       = (DrizzleStorage.accessLogs db ++ [log])%list.
Proof.
  intros Hrun Hok. cbv zeta.
  destruct (post_verify_access_inv _ _ _ Hrun)
    as [(Hg & -> & ->)
       |[(Hg & ->)
        |(Hg & v & s1 & rt1 & log & s2 & rt2 & Hv & Hl & Hresp & Hcase)]];
    [discriminate Hok|discriminate Hok|].
  cbn [verifyStudentAndVehicle DrizzleStorage_IStorage] in Hv.
  unfold pureOp in Hv. injection Hv as <- <- <-.
  cbn [createAccessLog DrizzleStorage_IStorage] in Hl.
  destruct (drizzle_createAccessLog_ok _ _ _ Hl)
    as (Hentry & Hnew & Hs & Hveh & Hlogs).
  exists log. split; [exact Hresp|]. split; [exact Hentry|].
  split; [exact Hnew|].
  destruct Hcase as [(_ & ->)|(_ & alert & s3 & rt3 & Ha & ->)];
    cbn [afterBroadcast afterCall World.storage].
  - auto.
  - cbn [createAlert DrizzleStorage_IStorage] in Ha.
    destruct (drizzle_createAlert_frame _ _ _ Ha)
      as (Hs3 & Hv3 & Hl3).
    rewrite Hs3, Hv3, Hl3. auto.
Qed.

Lemma tally_neverRepeats : neverRepeats tally.
Proof.
  intros i. induction i as [|i IH]; intros [|j]; simpl; try discriminate.
  - reflexivity.
  - intros [= Heq]. f_equal. now apply IH.
Qed.

(** C8. Log writes are not idempotent. For every request whose three
    fields are present and non-empty, calling [POST /api/verify-access]
    twice with the same request on the same store writes two log entries,
    both carrying the fields the request and its verdict determine.

    With the in-memory class both calls are answered 200 with the same
    verdict; the first entry is set under the next id of the generator and
    the second under a later one, so the log map after the two calls is the
    map before them with these two entries set. As [crypto.randomUUID()]
    never returns the same id twice, the two ids differ, the two entries
    differ, and the entry of the first call is still stored, unchanged,
    after the second call; when moreover the ids in the map were all drawn
    earlier, the map has gained exactly these two entries, in this order.

    With the database class, two calls that are answered 200 return the
    same verdict and have appended two rows to the table, in this order,
    with different ids, neither of which an earlier row has. *)
Theorem C8_two_calls_append_two_entries :
  forall (JSON_stringify : WebSocketMessage -> string) (body : VerifyBody.t),
    ~ absent (VerifyBody.studentId body) ->
    ~ absent (VerifyBody.plateNumber body) ->
    ~ absent (VerifyBody.gateLocation body) ->
    (forall (w : World MemoryStorage.t),
        let logs := MemoryStorage.accessLogs (World.storage w) in
        let rt := World.runtime w in
        let v := MemoryStorage.verifyStudentAndVehicle
                   (the (VerifyBody.studentId body))
                   (the (VerifyBody.plateNumber body)) (World.storage w) in
        let id1 := uuids rt (uuid_calls rt) in
        let id2 :=
          uuids rt ((if Verification.isValid v then 1 else 2)
                    + uuid_calls rt) in
        exists log1 log2 w1 w2,
          post_verify_access JSON_stringify body w
          = (Response.mk 200
               (BVerification v
                  (LogWithDetails.mk log1 (Verification.student v)
                                     (Verification.vehicle v))),
             w1)
          /\ post_verify_access JSON_stringify body w1
             = (Response.mk 200
                  (BVerification v
                     (LogWithDetails.mk log2 (Verification.student v)
                                        (Verification.vehicle v))),
                w2)
          /\ AccessLog.id log1 = id1
          /\ AccessLog.id log2 = id2
          /\ entryOf log1 = verifyAccessLog body v
          /\ entryOf log2 = verifyAccessLog body v
          /\ MemoryStorage.accessLogs (World.storage w2)
             = JsMap.set id2 log2 (JsMap.set id1 log1 logs)
          /\ (neverRepeats (uuids rt) ->
              id1 <> id2
              /\ log1 <> log2
              /\ JsMap.get id1 (MemoryStorage.accessLogs (World.storage w2))
                 = Some log1
              /\ JsMap.get id2 (MemoryStorage.accessLogs (World.storage w2))
                 = Some log2
              /\ (drawnEarlier rt logs ->
                  MemoryStorage.accessLogs (World.storage w2)
                  = (logs ++ [(id1, log1); (id2, log2)])%list)))
    /\ (forall (w w1 w2 : World DrizzleStorage.t) resp1 resp2,
        post_verify_access JSON_stringify body w = (resp1, w1) ->
        post_verify_access JSON_stringify body w1 = (resp2, w2) ->
        Response.status resp1 = 200 ->
        Response.status resp2 = 200 ->
        let rows := DrizzleStorage.accessLogs (World.storage w) in
        let v := DrizzleStorage.verifyStudentAndVehicle
                   (the (VerifyBody.studentId body))
                   (the (VerifyBody.plateNumber body)) (World.storage w) in
        exists log1 log2,
          resp1 = Response.mk 200
                    (BVerification v
                       (LogWithDetails.mk log1 (Verification.student v)
                                          (Verification.vehicle v)))
          /\ resp2 = Response.mk 200
                       (BVerification v
                          (LogWithDetails.mk log2 (Verification.student v)
                                             (Verification.vehicle v)))
          /\ AccessLog.id log1 <> AccessLog.id log2
          /\ (forall l, In l rows ->
                        AccessLog.id l <> AccessLog.id log1
                        /\ AccessLog.id l <> AccessLog.id log2)
          /\ entryOf log1 = verifyAccessLog body v
          /\ entryOf log2 = verifyAccessLog body v
          /\ DrizzleStorage.accessLogs (World.storage w2)
             = (rows ++ [log1; log2])%list).
Proof.
  intros JSON_stringify body Hsid Hplate Hgate. split.
  - intros w logs rt v id1 id2.
    assert (Hguard : missingFields body = false).
    { apply not_true_is_false. rewrite missingFields_iff. tauto. }
    destruct (memory_post_verify_access_run JSON_stringify body w Hguard)
      as (w1 & Hrun1 & Hs1 & Hv1 & Hlogs1 & Hrt1 & _).
    destruct (memory_post_verify_access_run JSON_stringify body w1 Hguard)
      as (w2 & Hrun2 & Hs2 & Hv2 & Hlogs2 & Hrt2 & _).
    rewrite (memory_verify_ext _ _ _ _ Hs1 Hv1) in Hrun2, Hlogs2.
    fold v in Hrun1, Hrun2, Hlogs1, Hlogs2, Hrt1.
    fold rt in Hrun1, Hlogs1, Hrt1.
    rewrite Hrt1 in Hrun2, Hlogs2.
    set (k := if Verification.isValid v then 1 else 2) in *.
    exists (memoryLog rt (verifyAccessLog body v)),
           (memoryLog (advance k rt) (verifyAccessLog body v)),
           w1, w2.
    split; [exact Hrun1|]. split; [exact Hrun2|].
    split; [reflexivity|]. split; [reflexivity|].
    split; [now destruct (verifyAccessLog body v)|].
    split; [now destruct (verifyAccessLog body v)|].
    assert (Hfinal :
      MemoryStorage.accessLogs (World.storage w2)
      = JsMap.set id2 (memoryLog (advance k rt) (verifyAccessLog body v))
          (JsMap.set id1 (memoryLog rt (verifyAccessLog body v)) logs)).
    { rewrite Hlogs2, Hlogs1. reflexivity. }
    split; [exact Hfinal|].
    intros Hunique.
    assert (Hne : id1 <> id2).
    { intros Heq. apply Hunique in Heq. subst k.
      destruct (Verification.isValid v); lia. }
    split; [exact Hne|].
    split.
    { intros Heq. apply Hne.
      change id1 with (AccessLog.id (memoryLog rt (verifyAccessLog body v))).
      now rewrite Heq. }
    rewrite Hfinal.
    split.
    { rewrite JsMapFacts.get_set_other by exact Hne.
      apply JsMapFacts.get_set_same. }
    split; [apply JsMapFacts.get_set_same|].
    intros Hdrawn.
    assert (Hfresh : forall j, uuid_calls rt <= j ->
                               JsMap.get (uuids rt j) logs = None).
    { intros j Hj. apply JsMapFacts.get_none_not_in. intros Hin.
      destruct (Hdrawn _ Hin) as (i & Hi & Heq).
      apply Hunique in Heq. lia. }
    rewrite (JsMapFacts.set_fresh _ _ _ (Hfresh _ (le_n _))).
    rewrite JsMapFacts.set_fresh.
    + now rewrite <- app_assoc.
    + rewrite JsMapFacts.get_app. unfold id2.
      rewrite Hfresh by lia. simpl. fold id2.
      assert (Hb : String.eqb id2 (uuids rt (uuid_calls rt)) = false).
      { apply String.eqb_neq. intros Heq. apply Hne. now rewrite Heq. }
      now rewrite Hb.
  - intros w w1 w2 resp1 resp2 Hrun1 Hrun2 Hok1 Hok2. cbv zeta.
    destruct (drizzle_post_verify_access_200 _ _ _ Hrun1 Hok1)
      as (log1 & Hresp1 & Hentry1 & Hnew1 & Hs1 & Hv1 & Hlogs1).
    destruct (drizzle_post_verify_access_200 _ _ _ Hrun2 Hok2)
      as (log2 & Hresp2 & Hentry2 & Hnew2 & Hs2 & Hv2 & Hlogs2).
    rewrite (drizzle_verify_ext _ _ _ _ Hs1 Hv1) in Hresp2, Hentry2.
    rewrite Hlogs1 in Hnew2, Hlogs2.
    exists log1, log2.
    split; [exact Hresp1|]. split; [exact Hresp2|].
    split.
    { intros Heq. apply (Hnew2 log1); [|exact Heq].
      apply in_or_app. right. now left. }
    split.
    { intros l Hin. split; [now apply Hnew1|].
      apply Hnew2. apply in_or_app. now left. }
    split; [exact Hentry1|]. split; [exact Hentry2|].
    rewrite Hlogs2, <- app_assoc. reflexivity.
Qed.

(** C8 at the gate of scenario 1. In memory, with a generator that counts,
    the ids [#] and [I#] are drawn and the log map holds the two entries
    afterwards; on the database, the two rows get the ids [a] and [b]. *)
Lemma C8_two_calls_append_two_entries_witness :
  (exists log1 log2 w1 w2,
      post_verify_access typeOnly scenario1 countingGate
      = (Response.mk 200
           (BVerification
              (MemoryStorage.verifyStudentAndVehicle "S100" "ABC123" campus)
              (LogWithDetails.mk log1
                 (Some (StudentWithVehicle.mk alice (Some car))) (Some car))),
         w1)
      /\ post_verify_access typeOnly scenario1 w1
         = (Response.mk 200
              (BVerification
                 (MemoryStorage.verifyStudentAndVehicle "S100" "ABC123" campus)
                 (LogWithDetails.mk log2
                    (Some (StudentWithVehicle.mk alice (Some car)))
                    (Some car))),
            w2)
      /\ log1 <> log2
      /\ MemoryStorage.accessLogs (World.storage w2)
         = [(tally 0, log1); (tally 1, log2)])
  /\ (let first := post_verify_access typeOnly scenario1 gate_db in
      let second := post_verify_access typeOnly scenario1 (snd first) in
      exists log1 log2,
        AccessLog.id log1 <> AccessLog.id log2
        /\ DrizzleStorage.accessLogs (World.storage (snd second))
           = [log1; log2]).
Proof.
  destruct (C8_two_calls_append_two_entries typeOnly scenario1)
    as [Hmemory Hdatabase].
  - intros [Habs|Habs]; discriminate Habs.
  - intros [Habs|Habs]; discriminate Habs.
  - intros [Habs|Habs]; discriminate Habs.
  - split.
    + destruct (Hmemory countingGate)
        as (log1 & log2 & w1 & w2 & Hrun1 & Hrun2 & _ & _ & _ & _ & _ & Hids).
      destruct (Hids tally_neverRepeats) as (_ & Hne & _ & _ & Happend).
      exists log1, log2, w1, w2.
      split; [exact Hrun1|]. split; [exact Hrun2|]. split; [exact Hne|].
      apply Happend. intros k [].
    + cbv zeta.
      destruct (Hdatabase gate_db
                  (snd (post_verify_access typeOnly scenario1 gate_db))
                  (snd (post_verify_access typeOnly scenario1
                          (snd (post_verify_access typeOnly scenario1
                                                   gate_db))))
                  (fst (post_verify_access typeOnly scenario1 gate_db))
                  (fst (post_verify_access typeOnly scenario1
                          (snd (post_verify_access typeOnly scenario1
                                                   gate_db)))))
        as (log1 & log2 & _ & _ & Hne & _ & _ & _ & Hrows).
      * apply surjective_pairing.
      * apply surjective_pairing.
      * reflexivity.
      * reflexivity.
      * exists log1, log2. split; [exact Hne|exact Hrows].
Defined.

(** ** The claims at the sample gate *)

(** Scenario 2 end to end: a known student with an unregistered plate is
    denied, one denied log entry and one critical alert naming the plate
    are stored, and the open dashboard receives both events. *)
Example scenario2_end_to_end :
  let run := post_verify_access typeOnly scenario2 gate in
  Response.status (fst run) = 200
  /\ isDenial (fst run) = true
  /\ map (fun kv => AccessLog.accessStatus (snd kv))
         (MemoryStorage.accessLogs (World.storage (snd run))) = ["denied"]
  /\ map (fun kv => (Alert.severity (snd kv), Alert.description (snd kv)))
         (MemoryStorage.alerts (World.storage (snd run)))
     = [("critical", "Vehicle not registered - Vehicle: XYZ999")]
  /\ map WebSocket.sent (World.connectedClients (snd run))
     = [["new_alert"; "access_log"]; []].
Proof. repeat split. Qed.

(** Scenario 3 end to end: a manual denial without a student id stores one
    denied log entry without a student and one alert. *)
Example scenario3_end_to_end :
  let run := post_deny_access typeOnly scenario3 gate in
  Response.status (fst run) = 200
  /\ map (fun kv => (AccessLog.studentId (snd kv), AccessLog.reason (snd kv)))
         (MemoryStorage.accessLogs (World.storage (snd run)))
     = [(None, Some "Suspicious")]
  /\ List.length (MemoryStorage.alerts (World.storage (snd run))) = 1.
Proof. repeat split. Qed.

(** With the database storage a log write can fail: a manual denial
    without a gate location violates the NOT NULL constraint, the route
    answers 500 and no alert write is attempted. *)
Example deny_without_gate_fails_on_database :
  let body := DenyBody.mk None (Some "ABC123") None None in
  let run :=
    post_deny_access typeOnly body
      (World.mk campus_db gateRuntime [dashboard] []) in
  Response.status (fst run) = 500
  /\ filter isCreateAlert (World.trace (snd run)) = []
  /\ DrizzleStorage.accessLogs (World.storage (snd run)) = [].
Proof. repeat split. Qed.

(** C2 at the sample gate: the automatic verification of scenario 2 is
    refused for an unregistered plate, reports a denial and made one alert
    write; the one of scenario 1 is valid, reports no denial and made none;
    the manual denial of scenario 3 made one. *)
Lemma C2_alert_iff_denial_witness :
  (isDenial (fst (post_verify_access typeOnly scenario2 gate)) = true
   /\ Verification.isValid
        (MemoryStorage.verifyStudentAndVehicle "S100" "XYZ999" campus) = false
   /\ exists evs,
        added (World.trace gate)
              (World.trace (snd (post_verify_access typeOnly scenario2 gate)))
              evs
        /\ List.length (filter isCreateAlert evs) = 1)
  /\ (isDenial (fst (post_verify_access typeOnly scenario1 gate)) = false
      /\ Verification.isValid
           (MemoryStorage.verifyStudentAndVehicle "S100" "ABC123" campus)
         = true
      /\ exists evs,
           added (World.trace gate)
                 (World.trace (snd (post_verify_access typeOnly scenario1 gate)))
                 evs
           /\ List.length (filter isCreateAlert evs) = 0)
  /\ (exists evs,
      added (World.trace gate)
            (World.trace (snd (post_deny_access typeOnly scenario3 gate))) evs
      /\ List.length (filter isCreateAlert evs) = 1
      /\ isDenial (fst (post_deny_access typeOnly scenario3 gate)) = true).
Proof.
  split; [|split].
  - destruct (proj1 (proj1 (C2_alert_iff_denial typeOnly)
                           _ MemoryStorage_IStorage)
                scenario2 gate _ _ (surjective_pairing _))
      as (evs & Hadd & Hcount & _ & Hverdict).
    + vm_compute. discriminate.
    + destruct (Hverdict eq_refl)
        as (v & s1 & rt1 & details & Hv & _ & Hd & _).
      injection Hv as <- _ _.
      split; [rewrite Hd; reflexivity|]. split; [reflexivity|].
      exists evs. split; [exact Hadd|]. rewrite Hcount, Hd. reflexivity.
  - destruct (proj1 (proj1 (C2_alert_iff_denial typeOnly)
                           _ MemoryStorage_IStorage)
                scenario1 gate _ _ (surjective_pairing _))
      as (evs & Hadd & Hcount & _ & Hverdict).
    + vm_compute. discriminate.
    + destruct (Hverdict eq_refl)
        as (v & s1 & rt1 & details & Hv & _ & Hd & _).
      injection Hv as <- _ _.
      split; [rewrite Hd; reflexivity|]. split; [reflexivity|].
      exists evs. split; [exact Hadd|]. rewrite Hcount, Hd. reflexivity.
  - apply (proj2 (proj2 (proj1 (C2_alert_iff_denial typeOnly)
                               _ MemoryStorage_IStorage))
             scenario3 gate).
    + apply surjective_pairing.
    + vm_compute. discriminate.
Defined.

(** C3 at the sample gate: an empty student id. *)
Lemma C3_missing_field_witness :
  absent (VerifyBody.studentId noStudentId)
  /\ post_verify_access typeOnly noStudentId gate
     = (Response.mk 400 (BError "Missing required fields"), gate).
Proof.
  split.
  - right. reflexivity.
  - apply C3_missing_field_is_rejected_without_effect.
    left. right. reflexivity.
Defined.

(** C4 at the sample gate: the log write of scenario 2. *)
Lemma C4_one_access_log_witness :
  Response.status (fst (post_verify_access typeOnly scenario2 gate)) = 200
  /\ exists v log evs,
       Response.body (fst (post_verify_access typeOnly scenario2 gate))
       = BVerification v
           (LogWithDetails.mk log (Verification.student v)
                              (Verification.vehicle v))
       /\ added (World.trace gate)
                (World.trace (snd (post_verify_access typeOnly scenario2 gate)))
                evs
       /\ filter isCreateAccessLog evs
          = [ECreateAccessLog (verifyAccessLog scenario2 v)].
Proof.
  split; [reflexivity|].
  destruct (proj1 (C4_one_access_log_per_verification typeOnly)
              _ MemoryStorage_IStorage scenario2 gate
              (fst (post_verify_access typeOnly scenario2 gate))
              (snd (post_verify_access typeOnly scenario2 gate)))
    as (v & log & evs & Hbody & _ & Hadd & Hone & _).
  - apply surjective_pairing.
  - reflexivity.
  - exists v, log, evs. auto.
Defined.

Lemma busyCampus_statuses :
  statusesWellFormed (JsMap.values (MemoryStorage.accessLogs busyCampus)).
Proof.
  intros l [<-|[<-|[]]]; [left|right]; reflexivity.
Qed.

(** C9 on a campus with one granted and one denied access today. *)
Lemma C9_dashboard_stats_witness :
  statusesWellFormed (JsMap.values (MemoryStorage.accessLogs busyCampus))
  /\ Stats.totalAccess (fst (MemoryStorage.getDashboardStats busyCampus gateRuntime))
     = Stats.granted (fst (MemoryStorage.getDashboardStats busyCampus gateRuntime))
       + Stats.denied (fst (MemoryStorage.getDashboardStats busyCampus gateRuntime))
  /\ Stats.totalAccess (fst (MemoryStorage.getDashboardStats busyCampus gateRuntime))
     = 2.
Proof.
  split; [exact busyCampus_statuses|]. split; [|reflexivity].
  exact (proj2 (proj1 C9_dashboard_stats_total busyCampus gateRuntime)
               busyCampus_statuses).
Defined.

(** * Further properties *)

(** ** More on maps *)

Module JsMapMoreFacts.
Section WithValue.
Variable V : Type.
Implicit Types (m : JsMap.t V) (k : string) (v : V).

Lemma get_in m k v : JsMap.get k m = Some v -> In (k, v) m.
Proof.
  intros Hget.
  destruct (JsMapFacts.get_in_split _ _ Hget) as (pre & post & -> & _).
  apply in_or_app. right. now left.
Qed.

Lemma in_get m k v : NoDup (JsMap.keys m) -> In (k, v) m -> JsMap.get k m = Some v.
Proof.
  induction m as [|[k' v'] m IH]; simpl; [tauto|].
  intros Hnd Hin. inversion Hnd as [|x xs Hnin Hnd']; subst.
  destruct Hin as [[= -> ->]|Hin].
  - now rewrite String.eqb_refl.
  - destruct (String.eqb_spec k k') as [->|Hne].
    + exfalso. apply Hnin. change k' with (fst (k', v)). now apply in_map.
    + now apply IH.
Qed.

Lemma keys_set_present m k v :
  JsMap.get k m <> None -> JsMap.keys (JsMap.set k v m) = JsMap.keys m.
Proof.
  induction m as [|[k' v'] m IH]; simpl; [congruence|].
  destruct (String.eqb_spec k k') as [->|Hne]; simpl; [reflexivity|].
  intros Hget. f_equal. now apply IH.
Qed.

Lemma keys_set_fresh m k v :
  JsMap.get k m = None ->
  JsMap.keys (JsMap.set k v m) = (JsMap.keys m ++ [k])%list.
Proof.
  intros Hget. rewrite (JsMapFacts.set_fresh _ _ _ Hget).
  unfold JsMap.keys. now rewrite map_app.
Qed.

Lemma keys_set_NoDup m k v :
  NoDup (JsMap.keys m) -> NoDup (JsMap.keys (JsMap.set k v m)).
Proof.
  intros Hnd. destruct (JsMap.get k m) as [old|] eqn:Hget.
  - rewrite keys_set_present; [exact Hnd|congruence].
  - rewrite (keys_set_fresh _ _ _ Hget).
    apply NoDup_app; [exact Hnd|repeat constructor; simpl; tauto|].
    intros x Hx [<-|[]]. now apply JsMapFacts.get_none_not_in in Hget.
Qed.

Lemma in_set m k v k' v' :
  In (k', v') (JsMap.set k v m) -> (k', v') = (k, v) \/ In (k', v') m.
Proof.
  induction m as [|[k0 v0] m IH]; simpl.
  - intros [[= <- <-]|[]]. now left.
  - destruct (String.eqb_spec k k0) as [->|Hne]; simpl.
    + intros [[= <- <-]|Hin]; auto.
    + intros [Heq|Hin]; auto.
      destruct (IH Hin); auto.
Qed.

Lemma in_set_other m k v k' v' :
  k' <> k -> In (k', v') m -> In (k', v') (JsMap.set k v m).
Proof.
  intros Hne. induction m as [|[k0 v0] m IH]; simpl; [tauto|].
  destruct (String.eqb_spec k k0) as [->|Hk]; simpl.
  - intros [[= <- <-]|Hin]; [congruence|now right].
  - intros [Heq|Hin]; [now left|right; auto].
Qed.

Lemma in_set_new m k v : In (k, v) (JsMap.set k v m).
Proof.
  apply get_in. apply JsMapFacts.get_set_same.
Qed.

Lemma in_delete m k k' v :
  In (k', v) (JsMapMore.delete k m) <-> In (k', v) m /\ k' <> k.
Proof.
  unfold JsMapMore.delete. rewrite filter_In. simpl.
  rewrite negb_true_iff, String.eqb_neq. intuition congruence.
Qed.

Lemma get_delete_same m k : JsMap.get k (JsMapMore.delete k m) = None.
Proof.
  apply JsMapFacts.get_none_not_in. unfold JsMap.keys.
  intros Hin. apply in_map_iff in Hin. destruct Hin as ([k' v] & Hk & Hin).
  simpl in Hk. subst k'. apply in_delete in Hin. tauto.
Qed.

Lemma get_delete_other m k k' :
  k' <> k -> JsMap.get k' (JsMapMore.delete k m) = JsMap.get k' m.
Proof.
  intros Hne. induction m as [|[k0 v0] m IH]; simpl; [reflexivity|].
  destruct (String.eqb_spec k k0) as [->|Hk]; simpl.
  - destruct (String.eqb_spec k' k0); [contradiction|exact IH].
  - destruct (String.eqb_spec k' k0); [reflexivity|exact IH].
Qed.

Lemma keys_delete_NoDup m k :
  NoDup (JsMap.keys m) -> NoDup (JsMap.keys (JsMapMore.delete k m)).
Proof.
  unfold JsMapMore.delete, JsMap.keys.
  induction m as [|[k0 v0] m IH]; simpl; intros Hnd; [constructor|].
  inversion Hnd as [|x xs Hnin Hnd']; subst.
  destruct (negb (String.eqb k k0)); simpl; [|now apply IH].
  constructor; [|now apply IH].
  intros Hin. apply Hnin. apply in_map_iff in Hin.
  destruct Hin as (kv & Hk & Hin). apply filter_In in Hin.
  apply in_map_iff. exists kv. tauto.
Qed.
End WithValue.
End JsMapMoreFacts.

Lemma find_values_set_new (V : Type) (p : V -> bool) (m : JsMap.t V) k v :
  (forall x, In x (JsMap.values m) -> p x = false) ->
  p v = true ->
  find p (JsMap.values (JsMap.set k v m)) = Some v.
Proof.
  induction m as [|[k0 v0] m IH]; simpl; intros Hall Hv.
  - now rewrite Hv.
  - destruct (String.eqb_spec k k0) as [->|Hne]; simpl.
    + now rewrite Hv.
    + rewrite (Hall v0 (or_introl eq_refl)). apply IH; auto.
Qed.

Lemma in_values (V : Type) (m : JsMap.t V) v :
  In v (JsMap.values m) <-> exists k, In (k, v) m.
Proof.
  unfold JsMap.values. rewrite in_map_iff. split.
  - intros ([k v'] & Hv & Hin). simpl in Hv. subst. eauto.
  - intros (k & Hin). exists (k, v). auto.
Qed.

(** Two entries under different keys whose records agree on [f] make [f]
    repeat among the values. *)
Lemma two_entries_repeat (V : Type) (f : V -> string) (m : JsMap.t V)
  k1 v1 k2 v2 :
  In (k1, v1) m -> In (k2, v2) m -> k1 <> k2 -> f v1 = f v2 ->
  ~ NoDup (map f (JsMap.values m)).
Proof.
  induction m as [|[k0 v0] m IH]; simpl; [tauto|].
  intros H1 H2 Hne Hf Hnd. inversion Hnd as [|x xs Hnin Hnd']; subst.
  destruct H1 as [[= <- <-]|H1], H2 as [[= <- <-]|H2].
  - congruence.
  - apply Hnin. rewrite Hf. apply in_map. apply in_values. eauto.
  - apply Hnin. rewrite <- Hf. apply in_map. apply in_values. eauto.
  - exact (IH H1 H2 Hne Hf Hnd').
Qed.

(** ** Registering students and vehicles *)

(** X1. [createStudent] refuses an external id that a stored student
    already carries: it throws before generating an id, and the store and
    the runtime stay as they were. *)
Theorem X1_createStudent_rejects_duplicate :
  forall (studentInput : InsertStudent) (m : MemoryStorage.t) (rt : Runtime),
    (exists s, In s (JsMap.values (MemoryStorage.students m))
               /\ Student.studentId s = InsertStudent.studentId studentInput) ->
    MemoryAdmin.createStudent studentInput m rt
    = (Throw "studentId must be unique", m, rt).
Proof.
  intros studentInput m rt (s & Hin & Hsid).
  unfold MemoryAdmin.createStudent.
  destruct (find _ (JsMap.values (MemoryStorage.students m))) eqn:Hfind;
    [reflexivity|].
  apply (find_none _ _ Hfind) in Hin. simpl in Hin.
  apply String.eqb_neq in Hin. contradiction.
Qed.

(** X2. When no stored student carries the external id, [createStudent]
    stores, under the generated id, a student with that id, the current time
    as creation time and every field of the input: external id, name, roll
    number, department, year, division and contact number as given, active
    unless the input says otherwise, without a photo unless the input gives
    one. It draws one id and reads the clock once, and a lookup by that
    external id then resolves exactly this student; vehicles, logs and
    alerts are untouched. *)
Theorem X2_createStudent_then_lookup :
  forall (studentInput : InsertStudent) (m : MemoryStorage.t) (rt : Runtime),
    (forall s, In s (JsMap.values (MemoryStorage.students m)) ->
               Student.studentId s <> InsertStudent.studentId studentInput) ->
    exists student m' rt',
      MemoryAdmin.createStudent studentInput m rt = (Ok student, m', rt')
      /\ Student.id student = uuids rt (uuid_calls rt)
      /\ Student.studentId student = InsertStudent.studentId studentInput
      /\ Student.name student = InsertStudent.name studentInput
      /\ Student.department student = InsertStudent.department studentInput
      /\ Student.isActive student
         = match InsertStudent.isActive studentInput with
           | Some flag => flag
           | None => Some true
           end
      /\ Student.photoUrl student
         = match InsertStudent.photoUrl studentInput with
           | Some url => url
           | None => None
           end
      /\ Student.rollNumber student = InsertStudent.rollNumber studentInput
      /\ Student.year student = InsertStudent.year studentInput
      /\ Student.division student = InsertStudent.division studentInput
      /\ Student.contactNumber student
         = InsertStudent.contactNumber studentInput
      /\ Student.createdAt student = Some (clock rt (clock_reads rt))
      /\ rt' = advance 1 rt
      /\ MemoryStorage.students m'
         = JsMap.set (Student.id student) student (MemoryStorage.students m)
      /\ MemoryAdmin.getStudent (Student.id student) m' = Some student
      /\ MemoryStorage.getStudentByStudentId
           (InsertStudent.studentId studentInput) m'
         = Some (StudentWithVehicle.mk student
                   (find (fun v => String.eqb (Vehicle.studentId v)
                                              (Student.id student))
                         (JsMap.values (MemoryStorage.vehicles m))))
      /\ MemoryStorage.vehicles m' = MemoryStorage.vehicles m
      /\ MemoryStorage.accessLogs m' = MemoryStorage.accessLogs m
      /\ MemoryStorage.alerts m' = MemoryStorage.alerts m.
Proof.
  intros studentInput m rt Hfresh.
  unfold MemoryAdmin.createStudent.
  assert (Hnone :
    forall x, In x (JsMap.values (MemoryStorage.students m)) ->
              String.eqb (Student.studentId x)
                         (InsertStudent.studentId studentInput) = false).
  { intros x Hx. apply String.eqb_neq. now apply Hfresh. }
  rewrite (proj2 (find_none_iff _ _) Hnone). simpl.
  do 3 eexists. split; [reflexivity|].
  repeat (split; [reflexivity|]).
  split; [apply JsMapFacts.get_set_same|].
  split; [|repeat split].
  unfold MemoryStorage.getStudentByStudentId. cbn [MemoryStorage.students].
  rewrite find_values_set_new; [reflexivity|exact Hnone|].
  simpl. apply String.eqb_refl.
Qed.

(** X2 at the sample campus: a second student. *)
Lemma X2_createStudent_then_lookup_witness :
  exists student m' rt',
    MemoryAdmin.createStudent
      (InsertStudent.mk "S200" "Bob" "R2" "EE" "1" "B" "555-0200" None None)
      campus gateRuntime = (Ok student, m', rt')
    /\ Student.isActive student = Some true
    /\ Student.rollNumber student = "R2"
    /\ Student.contactNumber student = "555-0200"
    /\ Student.createdAt student = Some 0%Z
    /\ MemoryAdmin.getStudent "A" m' = Some student.
Proof.
  destruct (X2_createStudent_then_lookup
              (InsertStudent.mk "S200" "Bob" "R2" "EE" "1" "B" "555-0200"
                                None None)
              campus gateRuntime)
    as (student & m' & rt' & Hrun & Hid & _ & _ & _ & Hact & _ & Hroll & _
        & _ & Hcontact & Hcreated & _ & _ & Hget & _).
  - intros s [<-|[]]. discriminate.
  - exists student, m', rt'. rewrite Hid in Hget. auto 10.
Defined.

(** X1 at the sample campus: the external id of the stored student. *)
Lemma X1_createStudent_rejects_duplicate_witness :
  MemoryAdmin.createStudent
    (InsertStudent.mk "S100" "Carol" "R3" "ME" "3" "C" "555-0300" None None)
    campus gateRuntime
  = (Throw "studentId must be unique", campus, gateRuntime).
Proof.
  apply X1_createStudent_rejects_duplicate.
  exists alice. split; [now left|reflexivity].
Defined.

Lemma existsb_false_forall (A : Type) (p : A -> bool) (l : list A) :
  existsb p l = false <-> forall x, In x l -> p x = false.
Proof.
  split.
  - intros He x Hin. destruct (p x) eqn:Hp; [|reflexivity].
    rewrite <- He. symmetry. apply existsb_exists. eauto.
  - intros Hall. destruct (existsb p l) eqn:He; [|reflexivity].
    apply existsb_exists in He. destruct He as (x & Hin & Hp).
    rewrite (Hall x Hin) in Hp. discriminate.
Qed.

(** X3. [createVehicle] refuses a plate that a stored vehicle already
    carries, without any effect; otherwise it stores a vehicle with the
    owner reference of the input (which it does not check against the
    stored students), active unless the input says otherwise, and a lookup
    by that plate then resolves exactly this vehicle. *)
Theorem X3_createVehicle_unique_plate :
  forall (vehicleInput : InsertVehicle) (m : MemoryStorage.t) (rt : Runtime),
    ((exists v, In v (JsMap.values (MemoryStorage.vehicles m))
                /\ Vehicle.plateNumber v
                   = InsertVehicle.plateNumber vehicleInput) ->
     MemoryAdmin.createVehicle vehicleInput m rt
     = (Throw "plateNumber must be unique", m, rt))
    /\ ((forall v, In v (JsMap.values (MemoryStorage.vehicles m)) ->
                   Vehicle.plateNumber v
                   <> InsertVehicle.plateNumber vehicleInput) ->
        exists vehicle m' rt',
          MemoryAdmin.createVehicle vehicleInput m rt = (Ok vehicle, m', rt')
          /\ Vehicle.id vehicle = uuids rt (uuid_calls rt)
          /\ Vehicle.studentId vehicle = InsertVehicle.studentId vehicleInput
          /\ Vehicle.plateNumber vehicle
             = InsertVehicle.plateNumber vehicleInput
          /\ Vehicle.isActive vehicle
             = match InsertVehicle.isActive vehicleInput with
               | Some flag => flag
               | None => Some true
               end
          /\ MemoryStorage.getVehicleByPlate
               (InsertVehicle.plateNumber vehicleInput) m' = Some vehicle
          /\ MemoryStorage.students m' = MemoryStorage.students m
          /\ MemoryStorage.accessLogs m' = MemoryStorage.accessLogs m
          /\ MemoryStorage.alerts m' = MemoryStorage.alerts m).
Proof.
  intros vehicleInput m rt. unfold MemoryAdmin.createVehicle. split.
  - intros (v & Hin & Hplate).
    assert (Hex : existsb
                    (fun v0 => String.eqb (Vehicle.plateNumber v0)
                                 (InsertVehicle.plateNumber vehicleInput))
                    (JsMap.values (MemoryStorage.vehicles m)) = true).
    { apply existsb_exists. exists v. split; [exact Hin|].
      now apply String.eqb_eq. }
    now rewrite Hex.
  - intros Hfresh.
    assert (Hnone :
      forall x, In x (JsMap.values (MemoryStorage.vehicles m)) ->
                String.eqb (Vehicle.plateNumber x)
                           (InsertVehicle.plateNumber vehicleInput) = false).
    { intros x Hx. apply String.eqb_neq. now apply Hfresh. }
    rewrite (proj2 (existsb_false_forall _ _) Hnone). simpl.
    do 3 eexists. split; [reflexivity|].
    repeat (split; [reflexivity|]).
    split; [|repeat split].
    unfold MemoryStorage.getVehicleByPlate. cbn [MemoryStorage.vehicles].
    rewrite find_values_set_new; [reflexivity|exact Hnone|].
    simpl. apply String.eqb_refl.
Qed.

(** X3 at the sample campus: the stored plate is refused, a new one is
    accepted for an owner nobody registered. *)
Lemma X3_createVehicle_unique_plate_witness :
  MemoryAdmin.createVehicle
    (InsertVehicle.mk "u-1" "ABC123" "car" None None None) campus gateRuntime
  = (Throw "plateNumber must be unique", campus, gateRuntime)
  /\ exists vehicle m' rt',
       MemoryAdmin.createVehicle
         (InsertVehicle.mk "nobody" "NEW777" "bike" None None None)
         campus gateRuntime = (Ok vehicle, m', rt')
       /\ MemoryStorage.getVehicleByPlate "NEW777" m' = Some vehicle.
Proof.
  split.
  - apply (proj1 (X3_createVehicle_unique_plate
                    (InsertVehicle.mk "u-1" "ABC123" "car" None None None)
                    campus gateRuntime)).
    exists car. split; [now left|reflexivity].
  - destruct (proj2 (X3_createVehicle_unique_plate
                       (InsertVehicle.mk "nobody" "NEW777" "bike"
                                         None None None)
                       campus gateRuntime))
      as (vehicle & m' & rt' & Hrun & _ & _ & _ & _ & Hget & _).
    + intros v [<-|[]]. discriminate.
    + exists vehicle, m', rt'. auto.
Defined.

(** ** External ids stay unique, except through updates *)

Lemma NoDup_values_set (V : Type) (f : V -> string) (m : JsMap.t V) k v :
  NoDup (map f (JsMap.values m)) ->
  ~ In (f v) (map f (JsMap.values m)) ->
  NoDup (map f (JsMap.values (JsMap.set k v m))).
Proof.
  induction m as [|[k0 v0] m IH]; simpl; intros Hnd Hnin.
  - repeat constructor. simpl. tauto.
  - inversion Hnd as [|x xs Hx Hnd']; subst.
    destruct (String.eqb_spec k k0) as [->|Hne]; simpl.
    + constructor; [tauto|exact Hnd'].
    + constructor; [|apply IH; tauto].
      intros Hin. apply in_map_iff in Hin. destruct Hin as (y & Hfy & Hy).
      apply in_values in Hy. destruct Hy as (ky & Hy).
      apply JsMapMoreFacts.in_set in Hy. destruct Hy as [[= -> ->]|Hy].
      * apply Hnin. now left.
      * apply Hx. rewrite <- Hfy. apply in_map. apply in_values. eauto.
Qed.

Lemma NoDup_map_filter (A : Type) (f : A -> string) (p : A -> bool) l :
  NoDup (map f l) -> NoDup (map f (filter p l)).
Proof.
  induction l as [|x l IH]; simpl; intros Hnd; [constructor|].
  inversion Hnd as [|y ys Hnin Hnd']; subst.
  destruct (p x); simpl; [|now apply IH].
  constructor; [|now apply IH].
  intros Hin. apply Hnin. apply in_map_iff in Hin.
  destruct Hin as (z & Hz & Hin). apply filter_In in Hin.
  apply in_map_iff. exists z. tauto.
Qed.

Lemma NoDup_values_delete (V : Type) (f : V -> string) (m : JsMap.t V) k :
  NoDup (map f (JsMap.values m)) ->
  NoDup (map f (JsMap.values (JsMapMore.delete k m))).
Proof.
  unfold JsMap.values, JsMapMore.delete. rewrite !map_map.
  apply NoDup_map_filter.
Qed.

Lemma NoDup_values_cascade (f : Vehicle -> string) id
  (l acc : JsMap.t Vehicle) :
  NoDup (map f (JsMap.values acc)) ->
  NoDup (map f (JsMap.values
                  (fold_left
                     (fun acc entry =>
                        if String.eqb (Vehicle.studentId (snd entry)) id
                        then JsMapMore.delete (fst entry) acc
                        else acc)
                     l acc))).
Proof.
  revert acc. induction l as [|e l IH]; simpl; intros acc Hnd; [exact Hnd|].
  apply IH. destruct (String.eqb _ id); [|exact Hnd].
  now apply NoDup_values_delete.
Qed.

(** X4. Registration and deletion keep the external ids unique: if no two
    stored students share an external id, this still holds after any
    [createStudent] (accepted or refused) and any [deleteStudent]; if no two
    stored vehicles share a plate, this still holds after any
    [createVehicle] and any [deleteStudent]. *)
Theorem X4_external_ids_stay_unique :
  (forall studentInput m rt,
      uniqueStudentIds m ->
      uniqueStudentIds
        (snd (fst (MemoryAdmin.createStudent studentInput m rt))))
  /\ (forall vehicleInput m rt,
      uniquePlates m ->
      uniquePlates (snd (fst (MemoryAdmin.createVehicle vehicleInput m rt))))
  /\ (forall id m,
      (uniqueStudentIds m -> uniqueStudentIds (MemoryAdmin.deleteStudent id m))
      /\ (uniquePlates m -> uniquePlates (MemoryAdmin.deleteStudent id m))).
Proof.
  unfold uniqueStudentIds, uniquePlates. split; [|split].
  - intros studentInput m rt Hu. unfold MemoryAdmin.createStudent.
    destruct (find _ (JsMap.values (MemoryStorage.students m))) eqn:Hfind;
      [exact Hu|].
    simpl. apply NoDup_values_set; [exact Hu|].
    simpl. intros Hin. apply in_map_iff in Hin.
    destruct Hin as (s & Hs & Hin).
    apply (find_none _ _ Hfind) in Hin. simpl in Hin.
    apply String.eqb_neq in Hin. contradiction.
  - intros vehicleInput m rt Hu. unfold MemoryAdmin.createVehicle.
    destruct (existsb _ (JsMap.values (MemoryStorage.vehicles m))) eqn:Hex;
      [exact Hu|].
    simpl. apply NoDup_values_set; [exact Hu|].
    simpl. intros Hin. apply in_map_iff in Hin.
    destruct Hin as (v & Hv & Hin).
    apply (proj1 (existsb_false_forall _ _) Hex) in Hin.
    apply String.eqb_neq in Hin. contradiction.
  - intros id m. unfold MemoryAdmin.deleteStudent. simpl. split; intros Hu.
    + now apply NoDup_values_delete.
    + unfold MemoryAdmin.cascade. now apply NoDup_values_cascade.
Qed.

(** X4 at the sample campus. *)
Lemma X4_external_ids_stay_unique_witness :
  uniqueStudentIds campus
  /\ uniqueStudentIds
       (snd (fst (MemoryAdmin.createStudent
                    (InsertStudent.mk "S200" "Bob" "R2" "EE" "1" "B"
                                      "555-0200" None None)
                    campus gateRuntime))).
Proof.
  assert (Hu : uniqueStudentIds campus).
  { unfold uniqueStudentIds. simpl. repeat constructor. simpl. tauto. }
  split; [exact Hu|].
  exact (proj1 X4_external_ids_stay_unique _ campus gateRuntime Hu).
Defined.

(** ** Updating and deleting students *)

Lemma set_same (V : Type) (m : JsMap.t V) k v :
  JsMap.get k m = Some v -> JsMap.set k v m = m.
Proof.
  induction m as [|[k0 v0] m IH]; simpl; [discriminate|].
  destruct (String.eqb_spec k k0) as [->|Hne].
  - now intros [= ->].
  - intros Hget. now rewrite IH.
Qed.

Lemma patch_empty existing : StudentPatch.apply existing StudentPatch.empty = existing.
Proof. now destruct existing. Qed.

(** X5. [updateStudent] on an id that is not stored throws and changes
    nothing. On a stored id it overwrites exactly that entry with the
    patched record: the keys and their order, the student's id and creation
    time, every other student, the vehicles, the logs and the alerts stay
    as they were, and the empty patch leaves the whole store as it was. *)
Theorem X5_updateStudent_frame :
  forall (id : string) (patch : StudentPatch.t) (m : MemoryStorage.t)
         (rt : Runtime),
    (JsMap.get id (MemoryStorage.students m) = None ->
     MemoryAdmin.updateStudent id patch m rt
     = (Throw "Student not found", m, rt))
    /\ (forall existing,
        JsMap.get id (MemoryStorage.students m) = Some existing ->
        exists m',
          MemoryAdmin.updateStudent id patch m rt
          = (Ok (StudentPatch.apply existing patch), m', rt)
          /\ Student.id (StudentPatch.apply existing patch)
             = Student.id existing
          /\ Student.createdAt (StudentPatch.apply existing patch)
             = Student.createdAt existing
          /\ JsMap.keys (MemoryStorage.students m')
             = JsMap.keys (MemoryStorage.students m)
          /\ MemoryAdmin.getStudent id m'
             = Some (StudentPatch.apply existing patch)
          /\ (forall k, k <> id ->
                        MemoryAdmin.getStudent k m' = MemoryAdmin.getStudent k m)
          /\ MemoryStorage.vehicles m' = MemoryStorage.vehicles m
          /\ MemoryStorage.accessLogs m' = MemoryStorage.accessLogs m
          /\ MemoryStorage.alerts m' = MemoryStorage.alerts m
          /\ (patch = StudentPatch.empty -> m' = m)).
Proof.
  intros id patch m rt. unfold MemoryAdmin.updateStudent. split.
  - intros Hget. now rewrite Hget.
  - intros existing Hget. rewrite Hget. eexists. split; [reflexivity|].
    split; [reflexivity|]. split; [reflexivity|].
    cbn [MemoryStorage.students MemoryStorage.vehicles
         MemoryStorage.accessLogs MemoryStorage.alerts].
    split; [apply JsMapMoreFacts.keys_set_present; congruence|].
    split; [apply JsMapFacts.get_set_same|].
    split; [intros k Hne; now apply JsMapFacts.get_set_other|].
    repeat (split; [reflexivity|]).
    intros ->. rewrite patch_empty, (set_same _ _ Hget). now destruct m.
Qed.

(** X5 at the sample campus: deactivating the stored student. *)
Lemma X5_updateStudent_frame_witness :
  exists m',
    MemoryAdmin.updateStudent "u-1"
      (StudentPatch.mk None None None None None None None None
                       (Some (Some false)))
      campus gateRuntime
    = (Ok (StudentPatch.apply alice
             (StudentPatch.mk None None None None None None None None
                              (Some (Some false)))),
       m', gateRuntime)
    /\ MemoryStorage.vehicles m' = MemoryStorage.vehicles campus.
Proof.
  destruct (proj2 (X5_updateStudent_frame "u-1"
                     (StudentPatch.mk None None None None None None None None
                                      (Some (Some false)))
                     campus gateRuntime) alice eq_refl)
    as (m' & Hrun & _ & _ & _ & _ & _ & Hv & _).
  exists m'. auto.
Defined.

(** X6. [updateStudent] does not check that the external id stays unique:
    a patch that gives one stored student the external id of another one is
    accepted, and afterwards two stored students share that external id. *)
Theorem X6_updateStudent_can_duplicate_external_id :
  forall (m : MemoryStorage.t) (rt : Runtime) id1 id2 s1 s2
         (patch : StudentPatch.t),
    id1 <> id2 ->
    JsMap.get id1 (MemoryStorage.students m) = Some s1 ->
    JsMap.get id2 (MemoryStorage.students m) = Some s2 ->
    StudentPatch.studentId patch = Some (Student.studentId s1) ->
    exists updated m',
      MemoryAdmin.updateStudent id2 patch m rt = (Ok updated, m', rt)
      /\ MemoryAdmin.getStudent id1 m' = Some s1
      /\ MemoryAdmin.getStudent id2 m' = Some updated
      /\ Student.studentId updated = Student.studentId s1
      /\ ~ uniqueStudentIds m'.
Proof.
  intros m rt id1 id2 s1 s2 patch Hne Hget1 Hget2 Hpatch.
  unfold MemoryAdmin.updateStudent. rewrite Hget2.
  do 2 eexists. split; [reflexivity|].
  unfold MemoryAdmin.getStudent, uniqueStudentIds.
  cbn [MemoryStorage.students].
  assert (Hsid : Student.studentId (StudentPatch.apply s2 patch)
                 = Student.studentId s1).
  { unfold StudentPatch.apply. simpl. now rewrite Hpatch. }
  split; [rewrite JsMapFacts.get_set_other by exact Hne; exact Hget1|].
  split; [apply JsMapFacts.get_set_same|].
  split; [exact Hsid|].
  apply (@two_entries_repeat _ Student.studentId _
           id1 s1 id2 (StudentPatch.apply s2 patch)).
  - apply JsMapMoreFacts.in_set_other; [exact Hne|].
    now apply JsMapMoreFacts.get_in.
  - apply JsMapMoreFacts.in_set_new.
  - exact Hne.
  - now rewrite Hsid.
Qed.

(** X6 on a campus with two students: Bob takes Alice's external id. *)
Lemma X6_updateStudent_can_duplicate_witness :
  exists updated m',
    MemoryAdmin.updateStudent "u-2"
      (StudentPatch.mk (Some "S100") None None None None None None None None)
      twoStudents gateRuntime = (Ok updated, m', gateRuntime)
    /\ ~ uniqueStudentIds m'.
Proof.
  destruct (@X6_updateStudent_can_duplicate_external_id
              twoStudents gateRuntime "u-1" "u-2" alice bob
              (StudentPatch.mk (Some "S100") None None None None None None
                               None None))
    as (updated & m' & Hrun & _ & _ & _ & Hdup).
  - discriminate.
  - reflexivity.
  - reflexivity.
  - reflexivity.
  - exists updated, m'. auto.
Defined.

Lemma cascade_in id (l acc : JsMap.t Vehicle) k v :
  In (k, v)
     (fold_left
        (fun acc entry =>
           if String.eqb (Vehicle.studentId (snd entry)) id
           then JsMapMore.delete (fst entry) acc
           else acc)
        l acc) ->
  In (k, v) acc
  /\ forall e, In e l -> Vehicle.studentId (snd e) = id -> k <> fst e.
Proof.
  revert acc. induction l as [|e l IH]; simpl; intros acc Hin.
  - split; [exact Hin|tauto].
  - apply IH in Hin. destruct Hin as [Hin Hrest].
    destruct (String.eqb_spec (Vehicle.studentId (snd e)) id) as [Heq|Hne].
    + apply JsMapMoreFacts.in_delete in Hin. destruct Hin as [Hin Hk].
      split; [exact Hin|]. intros e' [<-|He'] Hid; auto.
    + split; [exact Hin|]. intros e' [<-|He'] Hid; [contradiction|auto].
Qed.

Lemma cascade_filter id (l acc : JsMap.t Vehicle) :
  fold_left
    (fun acc entry =>
       if String.eqb (Vehicle.studentId (snd entry)) id
       then JsMapMore.delete (fst entry) acc
       else acc)
    l acc
  = filter
      (fun kv =>
         negb (existsb
                 (fun e => String.eqb (Vehicle.studentId (snd e)) id
                           && String.eqb (fst e) (fst kv))
                 l))
      acc.
Proof.
  revert acc. induction l as [|e l IH]; simpl; intros acc.
  - induction acc as [|kv acc IHa]; simpl; [reflexivity|]. now rewrite <- IHa.
  - rewrite IH.
    destruct (String.eqb (Vehicle.studentId (snd e)) id); simpl.
    + unfold JsMapMore.delete.
      induction acc as [|kv acc IHa]; simpl; [reflexivity|].
      destruct (String.eqb (fst e) (fst kv)); simpl; [exact IHa|].
      destruct (existsb _ l); simpl; [exact IHa|]. now rewrite IHa.
    + reflexivity.
Qed.

Lemma cascade_NoDup id (vs : JsMap.t Vehicle) :
  NoDup (JsMap.keys vs) ->
  MemoryAdmin.cascade id vs
  = filter (fun kv => negb (String.eqb (Vehicle.studentId (snd kv)) id)) vs.
Proof.
  intros Hnd. unfold MemoryAdmin.cascade. rewrite cascade_filter.
  apply filter_ext_in. intros [k v] Hin. simpl. f_equal.
  destruct (String.eqb_spec (Vehicle.studentId v) id) as [Hid|Hid].
  - apply existsb_exists. exists (k, v). simpl.
    split; [exact Hin|]. rewrite String.eqb_refl.
    apply String.eqb_eq in Hid. now rewrite Hid.
  - apply existsb_false_forall. intros [k' v'] Hin'. simpl.
    destruct (String.eqb_spec (Vehicle.studentId v') id) as [Hid'|]; simpl;
      [|reflexivity].
    apply String.eqb_neq. intros ->.
    pose proof (JsMapMoreFacts.in_get _ _ _ Hnd Hin) as Hg.
    pose proof (JsMapMoreFacts.in_get _ _ _ Hnd Hin') as Hg'.
    congruence.
Qed.

(** X7. [deleteStudent] removes the student stored under the id and every
    vehicle that references it, and nothing else: the other students are
    untouched, no remaining vehicle references the id, the vehicles of other
    students all remain in their order, and the logs and alerts stay as they
    were, including the logs that still reference the deleted student. *)
Theorem X7_deleteStudent_cascades :
  forall (id : string) (m : MemoryStorage.t),
    let m' := MemoryAdmin.deleteStudent id m in
    MemoryAdmin.getStudent id m' = None
    /\ (forall k, k <> id ->
                  MemoryAdmin.getStudent k m' = MemoryAdmin.getStudent k m)
    /\ (forall v, In v (JsMap.values (MemoryStorage.vehicles m')) ->
                  Vehicle.studentId v <> id)
    /\ (NoDup (JsMap.keys (MemoryStorage.vehicles m)) ->
        MemoryStorage.vehicles m'
        = filter (fun kv => negb (String.eqb (Vehicle.studentId (snd kv)) id))
                 (MemoryStorage.vehicles m))
    /\ MemoryStorage.accessLogs m' = MemoryStorage.accessLogs m
    /\ MemoryStorage.alerts m' = MemoryStorage.alerts m.
Proof.
  intros id m. cbv zeta. unfold MemoryAdmin.deleteStudent, MemoryAdmin.getStudent.
  cbn [MemoryStorage.students MemoryStorage.vehicles
       MemoryStorage.accessLogs MemoryStorage.alerts].
  split; [apply JsMapMoreFacts.get_delete_same|].
  split; [intros k Hne; now apply JsMapMoreFacts.get_delete_other|].
  split; [|split; [apply cascade_NoDup|split; reflexivity]].
  intros v Hin Hid. apply in_values in Hin. destruct Hin as (k & Hin).
  unfold MemoryAdmin.cascade in Hin. apply cascade_in in Hin.
  destruct Hin as [Hin Hrest].
  exact (Hrest (k, v) Hin Hid eq_refl).
Qed.

(** X7 on the two-student campus: the keys of the vehicle map are distinct. *)
Lemma X7_deleteStudent_cascades_witness :
  NoDup (JsMap.keys (MemoryStorage.vehicles twoStudents))
  /\ MemoryStorage.vehicles (MemoryAdmin.deleteStudent "u-1" twoStudents)
     = filter (fun kv => negb (String.eqb (Vehicle.studentId (snd kv)) "u-1"))
              (MemoryStorage.vehicles twoStudents).
Proof.
  assert (Hnd : NoDup (JsMap.keys (MemoryStorage.vehicles twoStudents))).
  { simpl. repeat constructor. simpl. tauto. }
  split; [exact Hnd|].
  exact (proj1 (proj2 (proj2 (proj2
           (X7_deleteStudent_cascades "u-1" twoStudents)))) Hnd).
Defined.

(** [DELETE /api/students/:id] with the in-memory storage: the store after
    the route is the store after [deleteStudent], and the answer is 200. *)
Lemma delete_student_run (JSON_stringify : Server.Message -> string) id srv :
  exists clients',
    Server.delete_student JSON_stringify id srv
    = (Server.mkResponse 200 Server.BSuccess,
       Server.mk (MemoryAdmin.deleteStudent id (Server.storage srv))
                 (Server.runtime srv) clients')
    /\ clients'
       = map (deliver
                (JSON_stringify
                   (Server.mkMessage "student_deleted"
                                     (Server.PStudentDeleted id))))
             (Server.connectedClients srv).
Proof.
  unfold Server.delete_student, Server.broadcast.
  cbn [Server.connectedClients]. rewrite forEachClient_delivers.
  eexists. split; reflexivity.
Qed.

(** X8. After [DELETE /api/students/:id] for the internal id of the student
    that an external id resolves, the route has answered 200 and every
    verification of that external id is denied with the reason
    ["Student ID not found"], whatever the plate; this needs the external
    ids to be unique and the students to be stored under their own ids. *)
Theorem X8_deleted_student_is_denied :
  forall (JSON_stringify : Server.Message -> string)
         (srv : Server.t) studentId plateNumber s,
    uniqueStudentIds (Server.storage srv) ->
    keyedBy Student.id (MemoryStorage.students (Server.storage srv)) ->
    MemoryStorage.getStudentByStudentId studentId (Server.storage srv)
    = Some s ->
    let run :=
      Server.delete_student JSON_stringify (StudentWithVehicle.id s) srv in
    Server.status (fst run) = 200
    /\ MemoryStorage.verifyStudentAndVehicle studentId plateNumber
         (Server.storage (snd run))
       = Verification.mk None None false (Some "Student ID not found").
Proof.
  intros JSON_stringify srv studentId plateNumber s Huniq [_ Hkeyed] Hlookup.
  cbv zeta.
  destruct (delete_student_run JSON_stringify (StudentWithVehicle.id s) srv)
    as (clients' & Hrun & _).
  rewrite Hrun. cbn [fst snd Server.status Server.storage].
  split; [reflexivity|].
  pose proof (memory_resolvesIdentity studentId (Server.storage srv)) as Hres.
  rewrite Hlookup in Hres. destruct Hres as [Hin Hsid].
  assert (Hgone :
    MemoryStorage.getStudentByStudentId studentId
      (MemoryAdmin.deleteStudent (StudentWithVehicle.id s) (Server.storage srv))
    = None).
  { unfold MemoryStorage.getStudentByStudentId, MemoryAdmin.deleteStudent.
    cbn [MemoryStorage.students].
    rewrite (proj2 (find_none_iff _ _)); [reflexivity|].
    intros x Hx. apply String.eqb_neq. intros Hx_sid.
    apply in_values in Hx. destruct Hx as (k & Hx).
    apply JsMapMoreFacts.in_delete in Hx. destruct Hx as [Hx Hk].
    apply Hk. rewrite <- (Hkeyed k x Hx).
    assert (Heq : x = StudentWithVehicle.student s).
    { apply (@unique_key_determines _ Student.studentId
               (JsMap.values (MemoryStorage.students (Server.storage srv))));
        [exact Huniq|apply in_values; eauto|exact Hin|congruence]. }
    now rewrite Heq. }
  unfold MemoryStorage.verifyStudentAndVehicle. now rewrite Hgone.
Qed.

(** ** Sorting newest first and keeping the first entries *)

Section NewestFirst.
Variable A : Type.
Variable time : A -> Z.

Let byTime (a b : A) : Z := (time b - time a)%Z.
Let atLeastAsRecent (a b : A) : Prop := (time b <= time a)%Z.

Lemma insert_perm x l : Permutation (x :: l) (Js.insert byTime x l).
Proof.
  induction l as [|y l IH]; simpl; [reflexivity|].
  destruct (byTime x y <=? 0)%Z; [reflexivity|].
  rewrite perm_swap. now constructor.
Qed.

Lemma sort_perm l : Permutation l (Js.sort byTime l).
Proof.
  induction l as [|x l IH]; simpl; [reflexivity|].
  rewrite <- insert_perm. now constructor.
Qed.

Lemma insert_sorted x l :
  StronglySorted atLeastAsRecent l ->
  StronglySorted atLeastAsRecent (Js.insert byTime x l).
Proof.
  induction l as [|y l IH]; simpl; intros Hs.
  - repeat constructor.
  - inversion Hs as [|y' l' Hs' Hall]; subst.
    destruct (byTime x y <=? 0)%Z eqn:Hc.
    + apply Z.leb_le in Hc. unfold byTime in Hc.
      constructor; [exact Hs|].
      constructor; [unfold atLeastAsRecent; lia|].
      eapply Forall_impl; [|exact Hall].
      unfold atLeastAsRecent. intros z Hz. lia.
    + apply Z.leb_gt in Hc. unfold byTime in Hc.
      constructor; [now apply IH|].
      apply Forall_forall. intros z Hz.
      apply (Permutation_in _ (Permutation_sym (insert_perm x l))) in Hz.
      destruct Hz as [<-|Hz].
      * unfold atLeastAsRecent. lia.
      * rewrite Forall_forall in Hall. now apply Hall.
Qed.

Lemma sort_sorted l : StronglySorted atLeastAsRecent (Js.sort byTime l).
Proof.
  induction l as [|x l IH]; simpl; [constructor|]. now apply insert_sorted.
Qed.

Lemma sorted_newestFirst l :
  StronglySorted atLeastAsRecent l -> newestFirst time l.
Proof.
  unfold newestFirst. induction l as [|x l IH]; intros Hs i j a b Hij Hi Hj.
  - destruct i; discriminate.
  - inversion Hs as [|x' l' Hs' Hall]; subst.
    destruct j as [|j]; [lia|]. simpl in Hj.
    destruct i as [|i]; simpl in Hi.
    + injection Hi as <-. rewrite Forall_forall in Hall.
      apply Hall. eapply nth_error_In; eauto.
    + apply (IH Hs' i j a b); auto. lia.
Qed.

Lemma newestFirst_firstn n l : newestFirst time l -> newestFirst time (firstn n l).
Proof.
  unfold newestFirst. intros Hl i j a b Hij Hi Hj.
  assert (Hjn : j < n).
  { destruct (Nat.lt_ge_cases j n) as [|Hge]; [assumption|].
    rewrite nth_error_firstn in Hj.
    destruct (Nat.ltb_spec j n); [assumption|discriminate]. }
  rewrite nth_error_firstn in Hi, Hj.
  destruct (Nat.ltb_spec i n); [|lia].
  destruct (Nat.ltb_spec j n); [|lia].
  eauto.
Qed.

Lemma slice0_prefix end_ (l : list A) :
  exists n, Js.slice0 end_ l = firstn n l.
Proof.
  destruct end_ as [|z]; simpl.
  - exists 0. reflexivity.
  - destruct (z <? 0)%Z; eauto.
Qed.

(** The kept entries and the omitted ones: every omitted entry is at most as
    recent as every kept one. *)
Lemma sorted_split n l :
  StronglySorted atLeastAsRecent l ->
  forall a b, In a (firstn n l) -> In b (skipn n l) -> (time b <= time a)%Z.
Proof.
  revert n. induction l as [|x l IH]; intros n Hs a b Ha Hb.
  - destruct n; simpl in Ha; contradiction.
  - inversion Hs as [|x' l' Hs' Hall]; subst.
    destruct n as [|n]; [simpl in Ha; contradiction|].
    simpl in Ha, Hb. destruct Ha as [<-|Ha].
    + rewrite Forall_forall in Hall. apply Hall.
      rewrite <- (firstn_skipn n l). apply in_or_app. now right.
    + eapply IH; eauto.
Qed.

Lemma sort_map (g : A -> A) l :
  (forall x, time (g x) = time x) ->
  Js.sort byTime (map g l) = map g (Js.sort byTime l).
Proof.
  intros Hg.
  assert (Hins : forall x l', Js.insert byTime (g x) (map g l')
                              = map g (Js.insert byTime x l')).
  { intros x l'. induction l' as [|y l' IH]; simpl; [reflexivity|].
    unfold byTime at 1 3. rewrite !Hg.
    destruct (time y - time x <=? 0)%Z; simpl; [reflexivity|].
    now rewrite IH. }
  induction l as [|x l IH]; simpl; [reflexivity|].
  now rewrite IH, Hins.
Qed.

Lemma slice0_map (B : Type) (g : A -> B) end_ l :
  Js.slice0 end_ (map g l) = map g (Js.slice0 end_ l).
Proof.
  destruct end_ as [|z]; simpl; [reflexivity|].
  rewrite length_map. destruct (z <? 0)%Z; now rewrite firstn_map.
Qed.
End NewestFirst.

Lemma newestFirst_map (A B : Type) (time : B -> Z) (g : A -> B) l :
  newestFirst (fun a => time (g a)) l -> newestFirst time (map g l).
Proof.
  unfold newestFirst. intros Hl i j a b Hij Hi Hj.
  rewrite nth_error_map in Hi, Hj.
  destruct (nth_error l i) as [a'|] eqn:Ha; [|discriminate].
  destruct (nth_error l j) as [b'|] eqn:Hb; [|discriminate].
  injection Hi as <-. injection Hj as <-. eauto.
Qed.

Lemma length_slice0_nonneg (A : Type) n (l : list A) :
  (0 <= n)%Z ->
  List.length (Js.slice0 (Int n) l) = Nat.min (Z.to_nat n) (List.length l).
Proof.
  intros Hn. simpl. destruct (Z.ltb_spec n 0); [lia|]. apply length_firstn.
Qed.

(** ** Listings *)

(** X9. [getRecentAccessLogs] lists stored logs newest first, each joined
    with the student and the vehicle stored under the ids it references;
    what it omits is at most as recent as everything it lists; with a
    non-negative limit it lists that many logs, or all of them when there
    are fewer, and without a limit at most 50. *)
Theorem X9_recent_access_logs :
  forall (limit : option JsNumber) (m : MemoryStorage.t),
    let time := fun l => MemoryStorage.getTime (AccessLog.timestamp l) in
    let stored := JsMap.values (MemoryStorage.accessLogs m) in
    let result := MemoryAdmin.getRecentAccessLogs limit m in
    newestFirst (fun d => time (AccessLogWithDetails.accessLog d)) result
    /\ (forall d, In d result ->
                  In (AccessLogWithDetails.accessLog d) stored
                  /\ d = MemoryAdmin.withDetails m
                           (AccessLogWithDetails.accessLog d))
    /\ (exists omitted,
           Permutation stored
             (map AccessLogWithDetails.accessLog result ++ omitted)
           /\ forall d o, In d result -> In o omitted ->
                          (time o <= time (AccessLogWithDetails.accessLog d))%Z)
    /\ (forall n, (0 <= n)%Z -> limit = Some (Int n) ->
                  List.length result
                  = Nat.min (Z.to_nat n) (List.length stored))
    /\ (limit = None ->
        List.length result = Nat.min 50 (List.length stored)).
Proof.
  intros limit m time stored result.
  pose (sorted := Js.sort MemoryAdmin.newestLogFirst stored).
  assert (Hperm : Permutation stored sorted) by apply (sort_perm time).
  assert (Hsorted : StronglySorted (fun a b => (time b <= time a)%Z) sorted)
    by apply (sort_sorted time).
  destruct (slice0_prefix (spreadOver limit (Int 50)) sorted) as (k & Hk).
  assert (Hresult : result = map (MemoryAdmin.withDetails m) (firstn k sorted)).
  { unfold result, MemoryAdmin.getRecentAccessLogs. fold stored. fold sorted.
    now rewrite Hk. }
  assert (Hlogs : map AccessLogWithDetails.accessLog result = firstn k sorted).
  { rewrite Hresult, map_map. simpl. apply map_id. }
  split; [|split; [|split; [|split]]].
  - rewrite Hresult. apply newestFirst_map. simpl.
    apply newestFirst_firstn. now apply sorted_newestFirst.
  - intros d Hd. rewrite Hresult in Hd. apply in_map_iff in Hd.
    destruct Hd as (l & <- & Hl). simpl. split; [|reflexivity].
    apply (Permutation_in _ (Permutation_sym Hperm)).
    rewrite <- (firstn_skipn k sorted). apply in_or_app. now left.
  - exists (skipn k sorted). split.
    + rewrite Hlogs, firstn_skipn. exact Hperm.
    + intros d o Hd Ho.
      apply (sorted_split time k Hsorted); [|exact Ho].
      rewrite <- Hlogs. now apply in_map.
  - intros n Hn ->. unfold result, MemoryAdmin.getRecentAccessLogs.
    rewrite length_map. simpl spreadOver. fold stored. fold sorted.
    rewrite length_slice0_nonneg by exact Hn.
    now rewrite <- (Permutation_length Hperm).
  - intros ->. unfold result, MemoryAdmin.getRecentAccessLogs.
    rewrite length_map. simpl spreadOver. fold stored. fold sorted.
    rewrite length_slice0_nonneg by lia.
    now rewrite <- (Permutation_length Hperm).
Qed.

(** X9 on the campus with two logs and a limit of one. *)
Lemma X9_recent_access_logs_witness :
  List.length (MemoryAdmin.getRecentAccessLogs (Some (Int 1)) busyCampus) = 1
  /\ map (fun d => AccessLog.id (AccessLogWithDetails.accessLog d))
         (MemoryAdmin.getRecentAccessLogs (Some (Int 1)) busyCampus)
     = ["l-2"].
Proof.
  split; [|reflexivity].
  apply (proj1 (proj2 (proj2 (proj2
           (X9_recent_access_logs (Some (Int 1)) busyCampus)))) 1%Z);
    [lia|reflexivity].
Defined.



(** X11. [getAccessLogsByStudent] lists, newest first, exactly the stored
    logs that reference the given student id, each as many times as it is
    stored, joined with the stored student and vehicle. *)
Theorem X11_access_logs_by_student :
  forall (studentId : string) (m : MemoryStorage.t),
    let time := fun l => MemoryStorage.getTime (AccessLog.timestamp l) in
    let result := MemoryAdmin.getAccessLogsByStudent studentId m in
    newestFirst (fun d => time (AccessLogWithDetails.accessLog d)) result
    /\ Permutation
         (map AccessLogWithDetails.accessLog result)
         (filter (fun l =>
                    match AccessLog.studentId l with
                    | Some id => String.eqb id studentId
                    | None => false
                    end)
                 (JsMap.values (MemoryStorage.accessLogs m)))
    /\ (forall d, In d result ->
                  AccessLog.studentId (AccessLogWithDetails.accessLog d)
                  = Some studentId
                  /\ d = MemoryAdmin.withDetails m
                           (AccessLogWithDetails.accessLog d)).
Proof.
  intros studentId m time result.
  unfold result, MemoryAdmin.getAccessLogsByStudent.
  set (mine := filter _ (JsMap.values (MemoryStorage.accessLogs m))).
  assert (Hperm : Permutation mine (Js.sort MemoryAdmin.newestLogFirst mine))
    by apply (sort_perm time).
  split; [|split].
  - apply newestFirst_map. simpl.
    apply sorted_newestFirst. apply (sort_sorted time).
  - rewrite map_map. simpl. rewrite map_id. now symmetry.
  - intros d Hd. apply in_map_iff in Hd. destruct Hd as (l & <- & Hl).
    simpl. split; [|reflexivity].
    apply (Permutation_in _ (Permutation_sym Hperm)) in Hl.
    apply filter_In in Hl. destruct Hl as [_ Hl].
    destruct (AccessLog.studentId l) as [id|]; [|discriminate].
    apply String.eqb_eq in Hl. now subst.
Qed.

(** ** Alerts: listing and marking as read *)

Lemma values_markAlertAsRead id (m : MemoryStorage.t) :
  keyedBy Alert.id (MemoryStorage.alerts m) ->
  JsMap.values (MemoryStorage.alerts (MemoryStorage.markAlertAsRead id m))
  = map (readIf id) (JsMap.values (MemoryStorage.alerts m)).
Proof.
  intros [Hnd Hkeyed]. unfold MemoryStorage.markAlertAsRead.
  assert (Hother :
    forall entries : JsMap.t Alert,
      (forall k a, In (k, a) entries -> Alert.id a = k) ->
      ~ In id (JsMap.keys entries) ->
      map (readIf id) (JsMap.values entries) = JsMap.values entries).
  { intros entries Hk Hnin. rewrite <- (map_id (JsMap.values entries)) at 2.
    apply map_ext_in. intros a Ha. apply in_values in Ha.
    destruct Ha as (k & Ha). unfold readIf.
    destruct (String.eqb_spec (Alert.id a) id) as [Heq|]; [|reflexivity].
    exfalso. apply Hnin. rewrite <- Heq, (Hk k a Ha).
    change k with (fst (k, a)). now apply in_map. }
  destruct (JsMap.get id (MemoryStorage.alerts m)) as [a|] eqn:Hget.
  - cbn [MemoryStorage.alerts].
    destruct (JsMapFacts.get_in_split _ _ Hget) as (pre & post & Heq & Hpre).
    rewrite Heq in *. rewrite JsMapFacts.set_at_first by exact Hpre.
    unfold JsMap.keys in Hnd. rewrite map_app in Hnd. simpl in Hnd.
    apply NoDup_remove_2 in Hnd.
    unfold JsMap.values. rewrite !map_app. simpl. rewrite ?map_app. simpl.
    fold (JsMap.values pre). fold (JsMap.values post).
    rewrite (Hother pre), (Hother post).
    + unfold readIf at 1.
      rewrite (Hkeyed id a), String.eqb_refl; [reflexivity|].
      apply in_or_app. right. now left.
    + intros k x Hx. apply Hkeyed. apply in_or_app. right. now right.
    + intros Hin. apply Hnd. apply in_or_app. now right.
    + intros k x Hx. apply Hkeyed. apply in_or_app. now left.
    + exact Hpre.
  - symmetry. apply Hother; [exact Hkeyed|].
    now apply JsMapFacts.get_none_not_in.
Qed.

(** X12. [getRecentAlerts] lists stored alerts newest first, and marking an
    alert as read does not reorder or drop anything in that listing: the
    listing after [markAlertAsRead] is the listing before it with the one
    alert of that id marked as read. *)
Theorem X12_markAlertAsRead_keeps_listing :
  forall (limit : option JsNumber) (id : string) (m : MemoryStorage.t),
    keyedBy Alert.id (MemoryStorage.alerts m) ->
    newestFirst (fun a => MemoryStorage.getTime (Alert.createdAt a))
                (MemoryAdmin.getRecentAlerts limit m)
    /\ (forall a, In a (MemoryAdmin.getRecentAlerts limit m) ->
                  In a (JsMap.values (MemoryStorage.alerts m)))
    /\ MemoryAdmin.getRecentAlerts limit (MemoryStorage.markAlertAsRead id m)
       = map (readIf id) (MemoryAdmin.getRecentAlerts limit m).
Proof.
  intros limit id m Hkeyed. unfold MemoryAdmin.getRecentAlerts.
  set (time := fun a => MemoryStorage.getTime (Alert.createdAt a)).
  set (stored := JsMap.values (MemoryStorage.alerts m)).
  destruct (slice0_prefix (spreadOver limit (Int 20))
              (Js.sort MemoryAdmin.newestAlertFirst stored)) as (k & Hk).
  split; [|split].
  - rewrite Hk. apply newestFirst_firstn.
    apply sorted_newestFirst. apply (sort_sorted time).
  - intros a Ha. rewrite Hk in Ha.
    apply (Permutation_in _ (Permutation_sym (sort_perm time stored))).
    rewrite <- (firstn_skipn k (Js.sort _ stored)). apply in_or_app. now left.
  - rewrite (values_markAlertAsRead id m Hkeyed). fold stored.
    rewrite <- slice0_map. f_equal.
    apply (sort_map time). intros a. unfold readIf, time.
    now destruct (String.eqb (Alert.id a) id).
Qed.

(** X12 on a campus with one unread alert. *)
Lemma X12_markAlertAsRead_keeps_listing_witness :
  keyedBy Alert.id (MemoryStorage.alerts alarmedCampus)
  /\ MemoryAdmin.getRecentAlerts None
       (MemoryStorage.markAlertAsRead "a-1" alarmedCampus)
     = [Alert.markRead firstAlert].
Proof.
  assert (Hk : keyedBy Alert.id (MemoryStorage.alerts alarmedCampus)).
  { split.
    - simpl. repeat constructor. simpl. tauto.
    - intros k v [[= <- <-]|[]]. reflexivity. }
  split; [exact Hk|].
  rewrite (proj2 (proj2 (X12_markAlertAsRead_keeps_listing None "a-1" alarmedCampus Hk))).
  reflexivity.
Defined.

(** X13. Marking an alert as read twice is the same as marking it once, in
    both storage classes. *)
Theorem X13_markAlertAsRead_idempotent :
  (forall (id : string) (m : MemoryStorage.t),
      MemoryStorage.markAlertAsRead id (MemoryStorage.markAlertAsRead id m)
      = MemoryStorage.markAlertAsRead id m)
  /\ (forall (id : string) (db : DrizzleStorage.t),
      DrizzleStorage.markAlertAsRead id (DrizzleStorage.markAlertAsRead id db)
      = DrizzleStorage.markAlertAsRead id db).
Proof.
  split.
  - intros id m.
    destruct (JsMap.get id (MemoryStorage.alerts m)) as [a|] eqn:Hget.
    + assert (Hfirst :
        MemoryStorage.markAlertAsRead id m
        = MemoryStorage.mk (MemoryStorage.students m) (MemoryStorage.vehicles m)
            (MemoryStorage.accessLogs m)
            (JsMap.set id (Alert.markRead a) (MemoryStorage.alerts m))).
      { unfold MemoryStorage.markAlertAsRead. now rewrite Hget. }
      rewrite Hfirst. unfold MemoryStorage.markAlertAsRead.
      cbn [MemoryStorage.students MemoryStorage.vehicles
           MemoryStorage.accessLogs MemoryStorage.alerts].
      rewrite JsMapFacts.get_set_same. f_equal.
      change (Alert.markRead (Alert.markRead a)) with (Alert.markRead a).
      apply set_same. apply JsMapFacts.get_set_same.
    + assert (Hfirst : MemoryStorage.markAlertAsRead id m = m).
      { unfold MemoryStorage.markAlertAsRead. now rewrite Hget. }
      now rewrite !Hfirst.
  - intros id db. unfold DrizzleStorage.markAlertAsRead.
    cbn [DrizzleStorage.students DrizzleStorage.vehicles
         DrizzleStorage.accessLogs DrizzleStorage.alerts].
    f_equal. rewrite map_map. apply map_ext. intros a.
    destruct (String.eqb (Alert.id a) id) eqn:Heq; simpl; now rewrite Heq.
Qed.

(** ** The two storage classes stay in step *)

(** X14. Marking an alert as read keeps the two storage classes in step:
    when the tables list the values of the in-memory maps and the alerts
    are stored under their own ids, this still holds after
    [markAlertAsRead] in both classes. *)
Theorem X14_markAlertAsRead_simulation :
  forall (id : string) (db : DrizzleStorage.t) (m : MemoryStorage.t),
    represents db m ->
    keyedBy Alert.id (MemoryStorage.alerts m) ->
    represents (DrizzleStorage.markAlertAsRead id db)
               (MemoryStorage.markAlertAsRead id m).
Proof.
  intros id db m (Hs & Hv & Hl & Ha) Hkeyed. unfold represents.
  rewrite (values_markAlertAsRead id m Hkeyed).
  unfold DrizzleStorage.markAlertAsRead, MemoryStorage.markAlertAsRead.
  cbn [DrizzleStorage.students DrizzleStorage.vehicles
       DrizzleStorage.accessLogs DrizzleStorage.alerts].
  rewrite Ha.
  destruct (JsMap.get id (MemoryStorage.alerts m)); repeat split; auto.
Qed.

(** X14 on the campus with one alert. *)
Lemma X14_markAlertAsRead_simulation_witness :
  represents
    (DrizzleStorage.markAlertAsRead "a-1"
       (DrizzleStorage.mk [alice] [car] [] [firstAlert]))
    (MemoryStorage.markAlertAsRead "a-1" alarmedCampus).
Proof.
  apply X14_markAlertAsRead_simulation.
  - repeat split.
  - split.
    + simpl. repeat constructor. simpl. tauto.
    + intros k v [[= <- <-]|[]]. reflexivity.
Defined.

(** X15. The two storage classes report the same dashboard statistics for
    the same content and the same clock, as long as every stored log has a
    timestamp (a log without one counts as written at the epoch in memory
    and is skipped by the database query). *)
Theorem X15_dashboard_stats_agree :
  forall (db : DrizzleStorage.t) (m : MemoryStorage.t),
    represents db m ->
    (forall l, In l (JsMap.values (MemoryStorage.accessLogs m)) ->
               AccessLog.timestamp l <> None) ->
    forall rt,
      DrizzleStorage.getDashboardStats db rt
      = MemoryStorage.getDashboardStats m rt.
Proof.
  intros db m (_ & _ & Hl & _) Hstamped rt.
  unfold DrizzleStorage.getDashboardStats, MemoryStorage.getDashboardStats,
         Sql.where_.
  simpl. rewrite Hl.
  assert (Hsame :
    filter (fun l => DrizzleStorage.inRange
                       (startOfDay rt (clock rt (clock_reads rt)))
                       (nextDay rt (startOfDay rt (clock rt (clock_reads rt))))
                       (AccessLog.timestamp l))
           (JsMap.values (MemoryStorage.accessLogs m))
    = filter (fun l =>
                (startOfDay rt (clock rt (clock_reads rt))
                 <=? MemoryStorage.getTime (AccessLog.timestamp l))%Z
                && (MemoryStorage.getTime (AccessLog.timestamp l)
                    <? nextDay rt (startOfDay rt (clock rt (clock_reads rt))))%Z)
             (JsMap.values (MemoryStorage.accessLogs m))).
  { apply filter_ext_in. intros l Hin. specialize (Hstamped l Hin).
    destruct (AccessLog.timestamp l); [reflexivity|contradiction]. }
  now rewrite Hsame.
Qed.

(** X15 on the campus with two logs. *)
Lemma X15_dashboard_stats_agree_witness :
  DrizzleStorage.getDashboardStats
    (DrizzleStorage.mk [alice] [car] [morningLog; eveningLog] []) gateRuntime
  = MemoryStorage.getDashboardStats busyCampus gateRuntime.
Proof.
  apply X15_dashboard_stats_agree.
  - repeat split.
  - intros l [<-|[<-|[]]]; discriminate.
Defined.

Lemma granted_denied_le logs :
  List.length
    (filter (fun l => String.eqb (AccessLog.accessStatus l) "granted") logs)
  + List.length
      (filter (fun l => String.eqb (AccessLog.accessStatus l) "denied") logs)
  <= List.length logs.
Proof.
  induction logs as [|l logs IH]; simpl; [lia|].
  destruct (String.eqb_spec (AccessLog.accessStatus l) "granted") as [Hg|Hg].
  - rewrite Hg. simpl. lia.
  - destruct (String.eqb (AccessLog.accessStatus l) "denied"); simpl; lia.
Qed.

(** X16. Whatever the store holds, in both storage classes the dashboard
    never reports more granted plus denied accesses than total accesses:
    the two counts never overlap, and a log with any other status is counted
    in the total only. *)
Theorem X16_dashboard_counts_bounded :
  (forall (m : MemoryStorage.t) (rt : Runtime),
      let stats := fst (MemoryStorage.getDashboardStats m rt) in
      Stats.granted stats + Stats.denied stats <= Stats.totalAccess stats
      /\ Stats.totalAccess stats
         <= List.length (MemoryStorage.accessLogs m))
  /\ (forall (db : DrizzleStorage.t) (rt : Runtime),
      let stats := fst (DrizzleStorage.getDashboardStats db rt) in
      Stats.granted stats + Stats.denied stats <= Stats.totalAccess stats
      /\ Stats.totalAccess stats
         <= List.length (DrizzleStorage.accessLogs db)).
Proof.
  split.
  - intros m rt. unfold MemoryStorage.getDashboardStats. simpl.
    split; [apply granted_denied_le|].
    etransitivity; [apply filter_length_le|].
    unfold JsMap.values. now rewrite length_map.
  - intros db rt. unfold DrizzleStorage.getDashboardStats, Sql.where_. simpl.
    split; [apply granted_denied_le|apply filter_length_le].
Qed.

Lemma existsb_id_false (A : Type) (key : A -> string) id (rows : list A) :
  (forall r, In r rows -> key r <> id) ->
  DrizzleStorage.existsb_id key id rows = false.
Proof.
  intros Hall. unfold DrizzleStorage.existsb_id.
  apply existsb_false_forall. intros r Hr. apply String.eqb_neq. auto.
Qed.

(** X17. A log write in the two storage classes. The database class fills
    the id and the timestamp of the row from the database server's column
    defaults, consults neither the id generator nor the clock of the
    process, and stores nothing when the entry has no gate location, when a
    reference names no stored row, or when the id is already in the table.
    The in-memory class fills both from the process and never refuses.
    When the tables list the values of the maps, the id of the process is
    new to the log map and the database accepts the entry, each class holds
    one more entry, the last one, the two new entries carry the seven
    fields of the input, and the tables still list the values of the maps
    up to the generated id and timestamp of the log entries. *)
Theorem X17_createAccessLog_in_both_classes :
  forall (entry : InsertAccessLog) (db : DrizzleStorage.t)
         (m : MemoryStorage.t) (rt : Runtime),
    represents db m ->
    JsMap.get (uuids rt (uuid_calls rt)) (MemoryStorage.accessLogs m) = None ->
    let pg := postgres rt in
    let row :=
      AccessLog.mk (gen_random_uuid pg (uuid_draws pg))
        (InsertAccessLog.studentId entry) (InsertAccessLog.vehicleId entry)
        (InsertAccessLog.plateNumber entry)
        (InsertAccessLog.gateLocation entry)
        (InsertAccessLog.accessStatus entry) (InsertAccessLog.reason entry)
        (Some (now pg (now_reads pg))) (InsertAccessLog.metadata entry) in
    let accepted :=
      match InsertAccessLog.gateLocation entry with
      | Some _ => true
      | None => false
      end
      && DrizzleStorage.references Student.id
           (InsertAccessLog.studentId entry) (DrizzleStorage.students db)
      && DrizzleStorage.references Vehicle.id
           (InsertAccessLog.vehicleId entry) (DrizzleStorage.vehicles db)
      && negb (DrizzleStorage.existsb_id AccessLog.id (AccessLog.id row)
                 (DrizzleStorage.accessLogs db)) in
    let viaMemory := MemoryStorage.createAccessLog entry m rt in
    let log := fst (fst viaMemory) in
    let m' := snd (fst viaMemory) in
    exists outcome db' rt',
      DrizzleStorage.createAccessLog entry db rt = (outcome, db', rt')
      /\ uuid_calls rt' = uuid_calls rt
      /\ clock_reads rt' = clock_reads rt
      /\ postgres (snd viaMemory) = postgres rt
      /\ log = memoryLog rt entry
      /\ JsMap.values (MemoryStorage.accessLogs m')
         = (JsMap.values (MemoryStorage.accessLogs m) ++ [log])%list
      /\ (accepted = false -> exists msg, outcome = Throw msg /\ db' = db)
      /\ (accepted = true ->
          outcome = Ok row
          /\ DrizzleStorage.accessLogs db'
             = (DrizzleStorage.accessLogs db ++ [row])%list
          /\ entryOf row = entry
          /\ entryOf log = entry
          /\ DrizzleStorage.students db'
             = JsMap.values (MemoryStorage.students m')
          /\ DrizzleStorage.vehicles db'
             = JsMap.values (MemoryStorage.vehicles m')
          /\ map entryOf (DrizzleStorage.accessLogs db')
             = map entryOf (JsMap.values (MemoryStorage.accessLogs m'))
          /\ DrizzleStorage.alerts db'
             = JsMap.values (MemoryStorage.alerts m')).
Proof.
  intros entry db m rt (Hs & Hv & Hl & Ha) Hfresh. cbv zeta.
  unfold DrizzleStorage.createAccessLog, MemoryStorage.createAccessLog,
    insertDefaults, generateId, newDate.
  cbn [fst snd uuids uuid_calls clock clock_reads postgres
       MemoryStorage.accessLogs MemoryStorage.students
       MemoryStorage.vehicles MemoryStorage.alerts AccessLog.id].
  assert (Hlogs :
    JsMap.values
      (JsMap.set (uuids rt (uuid_calls rt)) (memoryLog rt entry)
                 (MemoryStorage.accessLogs m))
    = (JsMap.values (MemoryStorage.accessLogs m) ++ [memoryLog rt entry])%list).
  { rewrite JsMapFacts.set_fresh by exact Hfresh.
    unfold JsMap.values. now rewrite map_app. }
  change (AccessLog.mk (uuids rt (uuid_calls rt))
            (InsertAccessLog.studentId entry) (InsertAccessLog.vehicleId entry)
            (InsertAccessLog.plateNumber entry)
            (InsertAccessLog.gateLocation entry)
            (InsertAccessLog.accessStatus entry) (InsertAccessLog.reason entry)
            (Some (clock rt (clock_reads rt)))
            (InsertAccessLog.metadata entry))
    with (memoryLog rt entry).
  destruct (InsertAccessLog.gateLocation entry) as [gate|] eqn:Hg.
  2:{ cbn [andb]. do 3 eexists. split; [reflexivity|].
      repeat (split; [reflexivity|]). split; [exact Hlogs|].
      split; [intros _; eexists; split; reflexivity|intros [=]]. }
  destruct (DrizzleStorage.references Student.id
              (InsertAccessLog.studentId entry) (DrizzleStorage.students db)).
  2:{ cbn [andb negb orb]. do 3 eexists. split; [reflexivity|].
      repeat (split; [reflexivity|]). split; [exact Hlogs|].
      split; [intros _; eexists; split; reflexivity|intros [=]]. }
  destruct (DrizzleStorage.references Vehicle.id
              (InsertAccessLog.vehicleId entry) (DrizzleStorage.vehicles db)).
  2:{ cbn [andb negb orb]. do 3 eexists. split; [reflexivity|].
      repeat (split; [reflexivity|]). split; [exact Hlogs|].
      split; [intros _; eexists; split; reflexivity|intros [=]]. }
  destruct (DrizzleStorage.existsb_id AccessLog.id
              (gen_random_uuid (postgres rt) (uuid_draws (postgres rt)))
              (DrizzleStorage.accessLogs db)) eqn:Hpk.
  { cbn [andb negb orb]. do 3 eexists. split; [reflexivity|].
    repeat (split; [reflexivity|]). split; [exact Hlogs|].
    split; [intros _; eexists; split; reflexivity|intros [=]]. }
  cbn [andb negb orb]. do 3 eexists. split; [reflexivity|].
  repeat (split; [reflexivity|]). split; [exact Hlogs|].
  split; [intros [=]|]. intros _.
  cbn [DrizzleStorage.accessLogs DrizzleStorage.students
       DrizzleStorage.vehicles DrizzleStorage.alerts].
  split; [reflexivity|]. split; [reflexivity|].
  split; [destruct entry; cbn in *; now rewrite Hg|].
  split; [destruct entry; reflexivity|].
  split; [exact Hs|]. split; [exact Hv|]. split; [|exact Ha].
  rewrite Hlogs, !map_app, Hl. f_equal. cbn [map].
  destruct entry; cbn in *. now rewrite Hg.
Qed.

(** X17 on the campus with two stored log entries: the granted entry of
    scenario 1 becomes the third row and the third map entry. *)
Lemma X17_createAccessLog_in_both_classes_witness :
  let entry :=
    verifyAccessLog scenario1
      (MemoryStorage.verifyStudentAndVehicle "S100" "ABC123" busyCampus) in
  exists row db' rt',
    DrizzleStorage.createAccessLog entry busy_db gateRuntime
    = (Ok row, db', rt')
    /\ AccessLog.id row = "a"
    /\ AccessLog.id (fst (fst (MemoryStorage.createAccessLog
                                 entry busyCampus gateRuntime))) = "A"
    /\ DrizzleStorage.accessLogs db' = [morningLog; eveningLog; row]
    /\ uuid_calls rt' = 0.
Proof.
  cbv zeta.
  destruct (@X17_createAccessLog_in_both_classes
              (verifyAccessLog scenario1
                 (MemoryStorage.verifyStudentAndVehicle
                    "S100" "ABC123" busyCampus))
              busy_db busyCampus gateRuntime)
    as (outcome & db' & rt' & Hrun & Hcalls & _ & _ & _ & _ & _ & Hok).
  - repeat split.
  - reflexivity.
  - destruct (Hok eq_refl) as (-> & Hrows & _).
    eexists. exists db', rt'. split; [exact Hrun|].
    split; [reflexivity|]. split; [reflexivity|].
    split; [exact Hrows|exact Hcalls].
Defined.

(** ** Registering through the route *)

Lemma createStudent_accepts (studentInput : InsertStudent)
  (m : MemoryStorage.t) (rt : Runtime) :
  (forall s, In s (JsMap.values (MemoryStorage.students m)) ->
             Student.studentId s <> InsertStudent.studentId studentInput) ->
  MemoryAdmin.createStudent studentInput m rt
  = (Ok (newStudent rt studentInput),
     MemoryStorage.mk
       (JsMap.set (uuids rt (uuid_calls rt)) (newStudent rt studentInput)
                  (MemoryStorage.students m))
       (MemoryStorage.vehicles m) (MemoryStorage.accessLogs m)
       (MemoryStorage.alerts m),
     advance 1 rt)
  /\ find (fun s => String.eqb (Student.studentId s)
                               (InsertStudent.studentId studentInput))
          (JsMap.values
             (JsMap.set (uuids rt (uuid_calls rt)) (newStudent rt studentInput)
                        (MemoryStorage.students m)))
     = Some (newStudent rt studentInput).
Proof.
  intros Hfresh.
  assert (Hnone :
    forall x, In x (JsMap.values (MemoryStorage.students m)) ->
              String.eqb (Student.studentId x)
                         (InsertStudent.studentId studentInput) = false).
  { intros x Hx. apply String.eqb_neq. now apply Hfresh. }
  split.
  - unfold MemoryAdmin.createStudent.
    now rewrite (proj2 (find_none_iff _ _) Hnone).
  - apply find_values_set_new; [exact Hnone|]. simpl. apply String.eqb_refl.
Qed.

Lemma createVehicle_accepts (vehicleInput : InsertVehicle)
  (m : MemoryStorage.t) (rt : Runtime) :
  (forall v, In v (JsMap.values (MemoryStorage.vehicles m)) ->
             Vehicle.plateNumber v <> InsertVehicle.plateNumber vehicleInput) ->
  MemoryAdmin.createVehicle vehicleInput m rt
  = (Ok (newVehicle rt vehicleInput),
     MemoryStorage.mk (MemoryStorage.students m)
       (JsMap.set (uuids rt (uuid_calls rt)) (newVehicle rt vehicleInput)
                  (MemoryStorage.vehicles m))
       (MemoryStorage.accessLogs m) (MemoryStorage.alerts m),
     advance 1 rt)
  /\ find (fun v => String.eqb (Vehicle.plateNumber v)
                               (InsertVehicle.plateNumber vehicleInput))
          (JsMap.values
             (JsMap.set (uuids rt (uuid_calls rt)) (newVehicle rt vehicleInput)
                        (MemoryStorage.vehicles m)))
     = Some (newVehicle rt vehicleInput).
Proof.
  intros Hfresh.
  assert (Hnone :
    forall x, In x (JsMap.values (MemoryStorage.vehicles m)) ->
              String.eqb (Vehicle.plateNumber x)
                         (InsertVehicle.plateNumber vehicleInput) = false).
  { intros x Hx. apply String.eqb_neq. now apply Hfresh. }
  split.
  - unfold MemoryAdmin.createVehicle.
    now rewrite (proj2 (existsb_false_forall _ _) Hnone).
  - apply find_values_set_new; [exact Hnone|]. simpl. apply String.eqb_refl.
Qed.

Lemma createVehicle_refuses (vehicleInput : InsertVehicle)
  (m : MemoryStorage.t) (rt : Runtime) :
  (exists v, In v (JsMap.values (MemoryStorage.vehicles m))
             /\ Vehicle.plateNumber v = InsertVehicle.plateNumber vehicleInput) ->
  MemoryAdmin.createVehicle vehicleInput m rt
  = (Throw "plateNumber must be unique", m, rt).
Proof.
  intros (v & Hin & Hplate). unfold MemoryAdmin.createVehicle.
  assert (Hex : existsb
                  (fun v0 => String.eqb (Vehicle.plateNumber v0)
                               (InsertVehicle.plateNumber vehicleInput))
                  (JsMap.values (MemoryStorage.vehicles m)) = true).
  { apply existsb_exists. exists v. split; [exact Hin|].
    now apply String.eqb_eq. }
  now rewrite Hex.
Qed.

(** X18. Registration makes the pair pass the gate: when
    [POST /api/students] receives a student whose external id and a vehicle
    whose plate are not stored yet, it answers 200, stores the vehicle with
    the new student's internal id as owner (whatever owner the request
    named), tells every open observer, and a verification of that external
    id with that plate is then valid exactly when neither input switches
    its active flag off. *)
Theorem X18_registered_pair_is_verified :
  forall (JSON_stringify : Server.Message -> string)
         (studentData : InsertStudent) (vehicleData : InsertVehicle)
         (srv : Server.t),
    (forall s, In s (JsMap.values
                       (MemoryStorage.students (Server.storage srv))) ->
               Student.studentId s <> InsertStudent.studentId studentData) ->
    (forall v, In v (JsMap.values
                       (MemoryStorage.vehicles (Server.storage srv))) ->
               Vehicle.plateNumber v <> InsertVehicle.plateNumber vehicleData) ->
    exists student vehicle srv',
      Server.post_students JSON_stringify
        (Server.mkStudentsBody (Some studentData) (Some vehicleData)) srv
      = (Server.mkResponse 200 (Server.BStudentAdded student vehicle), srv')
      /\ Student.studentId student = InsertStudent.studentId studentData
      /\ Vehicle.plateNumber vehicle = InsertVehicle.plateNumber vehicleData
      /\ Vehicle.studentId vehicle = Student.id student
      /\ Server.connectedClients srv'
         = map (deliver
                  (JSON_stringify
                     (Server.mkMessage "student_added"
                        (Server.PStudentAdded student vehicle))))
               (Server.connectedClients srv)
      /\ let v :=
           MemoryStorage.verifyStudentAndVehicle
             (InsertStudent.studentId studentData)
             (InsertVehicle.plateNumber vehicleData) (Server.storage srv') in
         option_map StudentWithVehicle.student (Verification.student v)
         = Some student
         /\ Verification.vehicle v = Some vehicle
         /\ Verification.isValid v
            = truthy (Student.isActive student)
              && truthy (Vehicle.isActive vehicle)
         /\ Student.isActive student
            = spreadOver (InsertStudent.isActive studentData) (Some true)
         /\ Vehicle.isActive vehicle
            = spreadOver (InsertVehicle.isActive vehicleData) (Some true).
Proof.
  intros JSON_stringify studentData vehicleData srv Hsid Hplate.
  destruct (createStudent_accepts studentData (Server.storage srv)
              (Server.runtime srv) Hsid) as [Hcs Hfs].
  set (student := newStudent (Server.runtime srv) studentData) in *.
  set (m1 := MemoryStorage.mk
               (JsMap.set (uuids (Server.runtime srv)
                                 (uuid_calls (Server.runtime srv)))
                          student
                          (MemoryStorage.students (Server.storage srv)))
               (MemoryStorage.vehicles (Server.storage srv))
               (MemoryStorage.accessLogs (Server.storage srv))
               (MemoryStorage.alerts (Server.storage srv))) in *.
  destruct (createVehicle_accepts
              (InsertVehicle.withStudentId vehicleData (Student.id student))
              m1 (advance 1 (Server.runtime srv)) Hplate) as [Hcv Hfv].
  set (vehicle := newVehicle (advance 1 (Server.runtime srv))
                    (InsertVehicle.withStudentId vehicleData
                       (Student.id student))) in *.
  exists student, vehicle. eexists.
  split.
  { unfold Server.post_students. cbn [Server.student Server.vehicle].
    rewrite Hcs. fold student. rewrite Hcv. fold vehicle.
    unfold Server.broadcast. cbn [Server.connectedClients].
    rewrite forEachClient_delivers. reflexivity. }
  cbn [Server.connectedClients Server.storage].
  repeat (split; [reflexivity|]).
  cbv zeta. unfold MemoryStorage.verifyStudentAndVehicle,
            MemoryStorage.getStudentByStudentId,
            MemoryStorage.getVehicleByPlate.
  cbn [MemoryStorage.students MemoryStorage.vehicles m1].
  cbn [InsertVehicle.withStudentId InsertVehicle.plateNumber] in Hfv.
  fold student in Hfs. rewrite Hfs.
  cbn [MemoryStorage.vehicles m1] in Hfv. rewrite Hfv.
  unfold StudentWithVehicle.id, StudentWithVehicle.isActive.
  cbn [StudentWithVehicle.student].
  assert (Hown : String.eqb (Vehicle.studentId vehicle) (Student.id student)
                 = true) by apply String.eqb_refl.
  rewrite Hown. cbn [negb].
  destruct (truthy (Student.isActive student)),
           (truthy (Vehicle.isActive vehicle)); repeat split.
Qed.

(** X18 at the front desk: Bob and his bike. *)
Lemma X18_registered_pair_is_verified_witness :
  exists student vehicle srv',
    Server.post_students wire
      (Server.mkStudentsBody (Some bobInput) (Some bikeInput)) frontDesk
    = (Server.mkResponse 200 (Server.BStudentAdded student vehicle), srv')
    /\ Vehicle.studentId vehicle = Student.id student
    /\ Verification.isValid
         (MemoryStorage.verifyStudentAndVehicle "S200" "NEW777"
            (Server.storage srv')) = true.
Proof.
  destruct (X18_registered_pair_is_verified wire bobInput bikeInput frontDesk)
    as (student & vehicle & srv' & Hrun & _ & _ & Hown & _
        & _ & _ & Hvalid & Hsa & Hva).
  - intros s [<-|[]]. discriminate.
  - intros v [<-|[]]. discriminate.
  - exists student, vehicle, srv'.
    split; [exact Hrun|]. split; [exact Hown|].
    cbv zeta in Hvalid. cbn [InsertStudent.studentId bobInput
                             InsertVehicle.plateNumber bikeInput] in Hvalid.
    rewrite Hvalid, Hsa, Hva. reflexivity.
Defined.

(** X8 at the front desk: Alice is deleted. *)
Lemma X8_deleted_student_is_denied_witness :
  Server.status (fst (Server.delete_student wire "u-1" frontDesk)) = 200
  /\ MemoryStorage.verifyStudentAndVehicle "S100" "ABC123"
       (Server.storage (snd (Server.delete_student wire "u-1" frontDesk)))
     = Verification.mk None None false (Some "Student ID not found").
Proof.
  apply (@X8_deleted_student_is_denied wire frontDesk "S100" "ABC123"
           (StudentWithVehicle.mk alice (Some car))).
  - unfold uniqueStudentIds. simpl. repeat constructor. simpl. tauto.
  - split.
    + simpl. repeat constructor. simpl. tauto.
    + intros k v [[= <- <-]|[]]. reflexivity.
  - reflexivity.
Defined.

(** X19. [POST /api/students] answers 400 ["Invalid student data"] in each
    of its failure cases, but not always without effect: when the insert
    schema rejects a part of the body, or a stored student already carries
    the external id, nothing changes; when only the plate is already
    stored, the new student has been stored before the vehicle is refused
    and stays stored, without a vehicle of its own, and no observer is
    told. *)
Theorem X19_registration_failures :
  forall (JSON_stringify : Server.Message -> string)
         (body : Server.StudentsBody) (srv : Server.t),
    let invalid := Server.mkResponse 400 (Server.BError "Invalid student data") in
    (Server.student body = None \/ Server.vehicle body = None ->
     Server.post_students JSON_stringify body srv = (invalid, srv))
    /\ (forall studentData vehicleData,
        Server.student body = Some studentData ->
        Server.vehicle body = Some vehicleData ->
        (exists s, In s (JsMap.values
                           (MemoryStorage.students (Server.storage srv)))
                   /\ Student.studentId s
                      = InsertStudent.studentId studentData) ->
        Server.post_students JSON_stringify body srv = (invalid, srv))
    /\ (forall studentData vehicleData,
        Server.student body = Some studentData ->
        Server.vehicle body = Some vehicleData ->
        (forall s, In s (JsMap.values
                           (MemoryStorage.students (Server.storage srv))) ->
                   Student.studentId s
                   <> InsertStudent.studentId studentData) ->
        (exists v, In v (JsMap.values
                           (MemoryStorage.vehicles (Server.storage srv)))
                   /\ Vehicle.plateNumber v
                      = InsertVehicle.plateNumber vehicleData) ->
        exists srv',
          Server.post_students JSON_stringify body srv = (invalid, srv')
          /\ MemoryAdmin.getStudent
               (uuids (Server.runtime srv) (uuid_calls (Server.runtime srv)))
               (Server.storage srv')
             = Some (newStudent (Server.runtime srv) studentData)
          /\ MemoryStorage.vehicles (Server.storage srv')
             = MemoryStorage.vehicles (Server.storage srv)
          /\ Server.connectedClients srv' = Server.connectedClients srv).
Proof.
  intros JSON_stringify body srv invalid. split; [|split].
  - unfold Server.post_students. intros [Hs|Hv].
    + now rewrite Hs.
    + rewrite Hv. now destruct (Server.student body).
  - intros studentData vehicleData Hs Hv (s & Hin & Hsid).
    unfold Server.post_students. rewrite Hs, Hv.
    unfold MemoryAdmin.createStudent.
    destruct (find _ (JsMap.values
                        (MemoryStorage.students (Server.storage srv))))
      eqn:Hfind.
    + now destruct srv.
    + apply (find_none _ _ Hfind) in Hin. simpl in Hin.
      apply String.eqb_neq in Hin. contradiction.
  - intros studentData vehicleData Hs Hv Hfresh Hdup.
    unfold Server.post_students. rewrite Hs, Hv.
    destruct (createStudent_accepts studentData (Server.storage srv)
                (Server.runtime srv) Hfresh) as [Hcs _].
    rewrite Hcs. rewrite createVehicle_refuses by exact Hdup.
    eexists. split; [reflexivity|].
    cbn [Server.storage Server.connectedClients MemoryStorage.vehicles].
    split; [|split; reflexivity].
    unfold MemoryAdmin.getStudent. cbn [MemoryStorage.students].
    apply JsMapFacts.get_set_same.
Qed.

(** X19 at the front desk: Bob arrives with the plate of Alice's car. *)
Lemma X19_registration_failures_witness :
  exists srv',
    Server.post_students wire
      (Server.mkStudentsBody (Some bobInput)
         (Some (InsertVehicle.mk "whoever" "ABC123" "car" None None None)))
      frontDesk
    = (Server.mkResponse 400 (Server.BError "Invalid student data"), srv')
    /\ MemoryAdmin.getStudent "A" (Server.storage srv')
       = Some (newStudent gateRuntime bobInput).
Proof.
  destruct (proj2 (proj2 (X19_registration_failures wire
              (Server.mkStudentsBody (Some bobInput)
                 (Some (InsertVehicle.mk "whoever" "ABC123" "car"
                                         None None None)))
              frontDesk))
              bobInput
              (InsertVehicle.mk "whoever" "ABC123" "car" None None None)
              eq_refl eq_refl)
    as (srv' & Hrun & Hget & _).
  - intros s [<-|[]]. discriminate.
  - exists car. split; [now left|reflexivity].
  - exists srv'. auto.
Defined.



(** ** Searching students *)






(** ** The socket lifecycle *)

Lemma send_deliver data client :
  snd (WebSocket.send data client) = deliver data client.
Proof.
  unfold WebSocket.send, deliver.
  destruct (WebSocket.readyState client) eqn:Hst; reflexivity.
Qed.

Lemma sendTo_absent socketId data clients :
  (forall c, In c clients -> WebSocket.socketId c <> socketId) ->
  Server.sendTo socketId data clients = (Ok tt, clients).
Proof.
  induction clients as [|c l IH]; intros Hfresh; [reflexivity|].
  simpl. destruct (Nat.eqb_spec (WebSocket.socketId c) socketId) as [He|_].
  - exfalso. apply (Hfresh c); [now left|exact He].
  - rewrite IH; [reflexivity|]. intros c' Hin. apply Hfresh. now right.
Qed.

Lemma sendTo_last socketId data clients ws :
  (forall c, In c clients -> WebSocket.socketId c <> socketId) ->
  WebSocket.socketId ws = socketId ->
  Server.sendTo socketId data (clients ++ [ws])%list
  = (fst (WebSocket.send data ws),
     (clients ++ [snd (WebSocket.send data ws)])%list).
Proof.
  intros Hfresh Hid.
  induction clients as [|c l IH].
  - simpl. rewrite Hid, Nat.eqb_refl.
    now destruct (WebSocket.send data ws).
  - simpl. destruct (Nat.eqb_spec (WebSocket.socketId c) socketId) as [He|_].
    + exfalso. apply (Hfresh c); [now left|exact He].
    + rewrite IH; [reflexivity|]. intros c' Hin. apply Hfresh. now right.
Qed.

Lemma add_fresh ws clients :
  (forall c, In c clients -> WebSocket.socketId c <> WebSocket.socketId ws) ->
  Server.add ws clients = (clients ++ [ws])%list.
Proof.
  intros Hfresh. unfold Server.add.
  destruct (existsb _ clients) eqn:Hex; [|reflexivity].
  apply existsb_exists in Hex. destruct Hex as (c & Hin & Heq).
  apply Nat.eqb_eq in Heq. now apply Hfresh in Hin.
Qed.

Lemma server_broadcast_run (M : Type) (JSON_stringify : M -> string)
      (message : M) (srv : Server.t) :
  Server.broadcast JSON_stringify message srv
  = (Ok tt,
     Server.mk (Server.storage srv) (Server.runtime srv)
       (map (deliver (JSON_stringify message)) (Server.connectedClients srv))).
Proof. unfold Server.broadcast. now rewrite forEachClient_delivers. Qed.

Lemma sendTo_ids socketId data clients :
  map WebSocket.socketId (snd (Server.sendTo socketId data clients))
  = map WebSocket.socketId clients.
Proof.
  induction clients as [|c l IH]; [reflexivity|].
  simpl. destruct (Nat.eqb (WebSocket.socketId c) socketId).
  - unfold WebSocket.send.
    destruct (WebSocket.readyState c); reflexivity.
  - destruct (Server.sendTo socketId data l) as [r l'].
    simpl in *. now rewrite IH.
Qed.

Lemma sendTo_others socketId data clients :
  Server.onClose socketId (snd (Server.sendTo socketId data clients))
  = Server.onClose socketId clients.
Proof.
  unfold Server.onClose.
  induction clients as [|c l IH]; [reflexivity|].
  simpl. destruct (Nat.eqb (WebSocket.socketId c) socketId) eqn:He.
  - assert (Hid : WebSocket.socketId (snd (WebSocket.send data c))
                  = WebSocket.socketId c).
    { unfold WebSocket.send. destruct (WebSocket.readyState c); reflexivity. }
    destruct (WebSocket.send data c) as [r c']. simpl in *.
    now rewrite Hid, He.
  - destruct (Server.sendTo socketId data l) as [r l'].
    simpl in *. now rewrite He, IH.
Qed.

Lemma sendTo_reaches socketId data clients c :
  NoDup (map WebSocket.socketId clients) ->
  In c clients -> WebSocket.socketId c = socketId ->
  In (deliver data c) (snd (Server.sendTo socketId data clients)).
Proof.
  induction clients as [|c0 l IH]; intros Hnd Hin Hid; [destruct Hin|].
  simpl. inversion Hnd as [|? ? Hnotin Hnd']; subst.
  destruct (Nat.eqb_spec (WebSocket.socketId c0) (WebSocket.socketId c))
    as [He|Hne].
  - destruct Hin as [->|Hin].
    + rewrite <- send_deliver.
      destruct (WebSocket.send data c). now left.
    + exfalso. apply Hnotin. rewrite He. now apply in_map.
  - destruct Hin as [->|Hin]; [contradiction|].
    specialize (IH Hnd' Hin eq_refl).
    destruct (Server.sendTo (WebSocket.socketId c) data l). now right.
Qed.

(** X23. A socket that connects, open and not yet in the set, joins the set
    behind the sockets already there and is sent the [connected] frame,
    which no other socket receives; a broadcast after that reaches it like
    every other open socket, so that its frames are the greeting followed by
    the broadcast message. *)
Theorem X23_connection_is_greeted_then_served :
  forall (M : Type) (JSON_stringify : M -> string) (message : M)
         (ws : WebSocket) (srv : Server.t),
    WebSocket.readyState ws = OPEN ->
    (forall c, In c (Server.connectedClients srv) ->
               WebSocket.socketId c <> WebSocket.socketId ws) ->
    let greeting := Server.typeOnlyMessage "connected" in
    Server.onConnection ws (Server.connectedClients srv)
    = (Ok tt,
       (Server.connectedClients srv
        ++ [WebSocket.mk (WebSocket.socketId ws) OPEN
              (WebSocket.sent ws ++ [greeting])])%list)
    /\ Server.broadcast JSON_stringify message
         (Server.mk (Server.storage srv) (Server.runtime srv)
            (snd (Server.onConnection ws (Server.connectedClients srv))))
       = (Ok tt,
          Server.mk (Server.storage srv) (Server.runtime srv)
            (map (deliver (JSON_stringify message))
                 (Server.connectedClients srv)
             ++ [WebSocket.mk (WebSocket.socketId ws) OPEN
                   (WebSocket.sent ws
                    ++ [greeting; JSON_stringify message])])%list).
Proof.
  intros M JSON_stringify message ws srv Hopen Hfresh greeting.
  assert (Hrun :
    Server.onConnection ws (Server.connectedClients srv)
    = (Ok tt,
       (Server.connectedClients srv
        ++ [WebSocket.mk (WebSocket.socketId ws) OPEN
              (WebSocket.sent ws ++ [greeting])])%list)).
  { unfold Server.onConnection. rewrite add_fresh by exact Hfresh.
    rewrite sendTo_last by (exact Hfresh || reflexivity).
    unfold WebSocket.send. now rewrite Hopen. }
  split; [exact Hrun|].
  rewrite Hrun, server_broadcast_run.
  cbn [snd Server.storage Server.runtime Server.connectedClients].
  rewrite map_app. cbn [map]. unfold deliver at 2.
  cbn [WebSocket.readyState WebSocket.socketId WebSocket.sent isOpen].
  now rewrite <- app_assoc.
Qed.

(** X24. Once a socket has closed, no member of the set carries its id, the
    other sockets are all still there, and a broadcast reaches the remaining
    sockets exactly as it would have reached them with the closed socket
    still in the set. *)
Theorem X24_closed_socket_leaves_the_set :
  forall (M : Type) (JSON_stringify : M -> string) (message : M)
         (socketId : nat) (srv : Server.t),
    let remaining := Server.onClose socketId (Server.connectedClients srv) in
    (forall c, In c remaining -> WebSocket.socketId c <> socketId)
    /\ (forall c, In c (Server.connectedClients srv) ->
                  WebSocket.socketId c <> socketId -> In c remaining)
    /\ Server.connectedClients
         (snd (Server.broadcast JSON_stringify message
                 (Server.mk (Server.storage srv) (Server.runtime srv)
                            remaining)))
       = Server.onClose socketId
           (Server.connectedClients
              (snd (Server.broadcast JSON_stringify message srv))).
Proof.
  intros M JSON_stringify message socketId srv remaining.
  subst remaining. unfold Server.onClose. split; [|split].
  - intros c Hin. apply filter_In in Hin. destruct Hin as [_ Hne].
    apply negb_true_iff, Nat.eqb_neq in Hne. exact Hne.
  - intros c Hin Hne. apply filter_In. split; [exact Hin|].
    now apply negb_true_iff, Nat.eqb_neq.
  - rewrite !server_broadcast_run.
    cbn [snd Server.storage Server.runtime Server.connectedClients].
    induction (Server.connectedClients srv) as [|c l IH]; [reflexivity|].
    cbn [filter map].
    assert (Hid : WebSocket.socketId (deliver (JSON_stringify message) c)
                  = WebSocket.socketId c).
    { unfold deliver. now destruct (isOpen (WebSocket.readyState c)). }
    rewrite Hid.
    destruct (negb (Nat.eqb (WebSocket.socketId c) socketId));
      cbn [map]; now rewrite IH.
Qed.

(** X25. A frame that arrives on a socket never changes who is in the set
    and never touches another socket; it changes nothing at all unless it
    parses to a message of type [ping], and then the sender, when it is open,
    is sent one [pong] frame. *)
Theorem X25_ping_is_answered_to_the_sender :
  forall (messageType : string -> option string)
         (socketId : nat) (data : string) (clients : list WebSocket),
    let clients' := Server.onMessage messageType socketId data clients in
    map WebSocket.socketId clients' = map WebSocket.socketId clients
    /\ Server.onClose socketId clients' = Server.onClose socketId clients
    /\ (messageType data <> Some "ping" -> clients' = clients)
    /\ (messageType data = Some "ping" ->
        NoDup (map WebSocket.socketId clients) ->
        forall c, In c clients -> WebSocket.socketId c = socketId ->
                  In (deliver (Server.typeOnlyMessage "pong") c) clients').
Proof.
  intros messageType socketId data clients clients'. subst clients'.
  unfold Server.onMessage.
  destruct (messageType data) as [type|].
  - destruct (String.eqb_spec type "ping") as [->|Hne].
    + split; [apply sendTo_ids|]. split; [apply sendTo_others|].
      split; [congruence|].
      intros _ Hnd c Hin Hid. now apply sendTo_reaches.
    + repeat split; congruence.
  - repeat split; congruence.
Qed.

(** X23 at the front desk: the kiosk connects, then a student is deleted. *)
Lemma X23_connection_is_greeted_witness :
  Server.onConnection kiosk [dashboard; staleDashboard]
  = (Ok tt,
     [dashboard; staleDashboard;
      WebSocket.mk 7 OPEN [Server.typeOnlyMessage "connected"]])
  /\ Server.broadcast wire
       (Server.mkMessage "student_deleted" (Server.PStudentDeleted "u-1"))
       (Server.mk campus gateRuntime
          (snd (Server.onConnection kiosk [dashboard; staleDashboard])))
     = (Ok tt,
        Server.mk campus gateRuntime
          [WebSocket.mk 1 OPEN ["student_deleted"]; staleDashboard;
           WebSocket.mk 7 OPEN
             [Server.typeOnlyMessage "connected"; "student_deleted"]]).
Proof.
  apply (@X23_connection_is_greeted_then_served Server.Message wire
           (Server.mkMessage "student_deleted" (Server.PStudentDeleted "u-1"))
           kiosk frontDesk).
  - reflexivity.
  - intros c [<-|[<-|[]]]; discriminate.
Defined.

(** ** Frames of the gate routes *)

Lemma deliver_receive data frames client :
  deliver data (receive frames client) = receive (frames ++ [data]) client.
Proof.
  unfold deliver, receive.
  destruct (isOpen (WebSocket.readyState client)) eqn:Hopen.
  - cbn [WebSocket.readyState WebSocket.socketId WebSocket.sent isOpen].
    now rewrite <- app_assoc.
  - now rewrite Hopen.
Qed.

Lemma deliver_receive_one data client : deliver data client = receive [data] client.
Proof. reflexivity. Qed.

Lemma map_deliver_receive data frames clients :
  map (deliver data) (map (receive frames) clients)
  = map (receive (frames ++ [data])) clients.
Proof.
  rewrite map_map. apply map_ext. intros c. apply deliver_receive.
Qed.

(** X26. With the in-memory storage, a verification request that passes the
    guard sends every open observer its frames in a fixed order: on a
    refusal the [new_alert] frame and then the [access_log] frame, on a
    grant the [access_log] frame alone; observers that are not open receive
    nothing. *)
Theorem X26_verification_frames_in_order :
  forall (JSON_stringify : WebSocketMessage -> string)
         (body : VerifyBody.t) (w : World MemoryStorage.t),
    missingFields body = false ->
    let rt := World.runtime w in
    let v := MemoryStorage.verifyStudentAndVehicle
               (the (VerifyBody.studentId body))
               (the (VerifyBody.plateNumber body)) (World.storage w) in
    let log :=
      LogWithDetails.mk (memoryLog rt (verifyAccessLog body v))
        (Verification.student v) (Verification.vehicle v) in
    let alert := memoryAlert (advance 1 rt) (verifyAlert body v) in
    let logFrame := JSON_stringify (WebSocketMessage.mk "access_log" (PLog log)) in
    let alertFrame :=
      JSON_stringify (WebSocketMessage.mk "new_alert" (PAlert alert)) in
    exists w',
      post_verify_access JSON_stringify body w
      = (Response.mk 200 (BVerification v log), w')
      /\ World.connectedClients w'
         = map (receive (if Verification.isValid v then [logFrame]
                         else [alertFrame; logFrame]))
               (World.connectedClients w).
Proof.
  intros JSON_stringify body w Hguard. cbv zeta.
  unfold post_verify_access, tryCatch. cbv zeta. rewrite Hguard.
  unfold bind at 1.
  erewrite await_ok by reflexivity.
  unfold bind at 1. unfold await at 1.
  cbn [createAccessLog MemoryStorage_IStorage afterCall
       World.storage World.runtime World.connectedClients World.trace].
  unfold MemoryStorage.createAccessLog, generateId, newDate.
  cbn [uuids uuid_calls clock clock_reads startOfDay nextDay fst snd].
  unfold bind at 1.
  destruct (Verification.isValid
              (MemoryStorage.verifyStudentAndVehicle
                 (the (VerifyBody.studentId body))
                 (the (VerifyBody.plateNumber body)) (World.storage w)))
    eqn:Hvalid; cbn [negb].
  - unfold ret at 1. unfold bind at 1.
    rewrite broadcast_afterBroadcast. unfold ret.
    eexists. split; [reflexivity|]. reflexivity.
  - unfold bind at 1. unfold await at 1.
    cbn [createAlert MemoryStorage_IStorage
         World.storage World.runtime World.connectedClients World.trace].
    unfold MemoryStorage.createAlert, generateId, newDate.
    cbn [uuids uuid_calls clock clock_reads startOfDay nextDay fst snd].
    rewrite broadcast_afterBroadcast.
    unfold bind at 1. rewrite broadcast_afterBroadcast. unfold ret.
    eexists. split; [reflexivity|].
    cbn [afterBroadcast afterCall World.connectedClients].
    rewrite map_map. apply map_ext. intros c.
    rewrite deliver_receive_one. apply deliver_receive.
Qed.

(** X26 at the gate: the refusal of scenario 2. *)
Lemma X26_verification_frames_witness :
  exists resp w',
    post_verify_access typeOnly scenario2 gate = (resp, w')
    /\ World.connectedClients w'
       = [WebSocket.mk 1 OPEN ["new_alert"; "access_log"]; staleDashboard].
Proof.
  destruct (@X26_verification_frames_in_order typeOnly scenario2 gate eq_refl)
    as (w' & Hrun & Hclients).
  eexists. exists w'. split; [exact Hrun|]. exact Hclients.
Defined.

(** X27. With the in-memory storage a manual denial is always answered 200,
    whatever the body holds: nothing is validated and a missing student id or
    plate is not looked up.  The log entry is [denied], with the plate
    ['Unknown'] and the reason ['Manual denial'] where the body gives none;
    the alert is stored unread; and every open observer is sent the
    [access_denied] frame and then the [new_alert] frame. *)
Theorem X27_manual_denial :
  forall (JSON_stringify : WebSocketMessage -> string)
         (body : DenyBody.t) (w : World MemoryStorage.t),
    exists student vehicle accessLog alert w',
      let log := LogWithDetails.mk accessLog student vehicle in
      post_deny_access JSON_stringify body w
      = (Response.mk 200 (BDenied log alert), w')
      /\ (absent (DenyBody.studentId body) -> student = None)
      /\ (absent (DenyBody.plateNumber body) -> vehicle = None)
      /\ AccessLog.accessStatus accessLog = "denied"
      /\ AccessLog.plateNumber accessLog
         = Some (or_default (DenyBody.plateNumber body) "Unknown")
      /\ AccessLog.reason accessLog
         = Some (or_default (DenyBody.reason body) "Manual denial")
      /\ Alert.isRead alert = Some false
      /\ MemoryStorage.accessLogs (World.storage w')
         = JsMap.set (AccessLog.id accessLog) accessLog
             (MemoryStorage.accessLogs (World.storage w))
      /\ MemoryStorage.alerts (World.storage w')
         = JsMap.set (Alert.id alert) alert
             (MemoryStorage.alerts (World.storage w))
      /\ World.connectedClients w'
         = map (receive
                  [JSON_stringify
                     (WebSocketMessage.mk "access_denied" (PLog log));
                   JSON_stringify
                     (WebSocketMessage.mk "new_alert" (PAlert alert))])
               (World.connectedClients w).
Proof.
  intros JSON_stringify body w.
  exists (if truthy_str (DenyBody.studentId body)
          then MemoryStorage.getStudentByStudentId
                 (the (DenyBody.studentId body)) (World.storage w)
          else None).
  exists (if truthy_str (DenyBody.plateNumber body)
          then MemoryStorage.getVehicleByPlate
                 (the (DenyBody.plateNumber body)) (World.storage w)
          else None).
  exists (memoryLog (World.runtime w)
            (denyAccessLog body
               (if truthy_str (DenyBody.studentId body)
                then MemoryStorage.getStudentByStudentId
                       (the (DenyBody.studentId body)) (World.storage w)
                else None)
               (if truthy_str (DenyBody.plateNumber body)
                then MemoryStorage.getVehicleByPlate
                       (the (DenyBody.plateNumber body)) (World.storage w)
                else None))).
  exists (memoryAlert (advance 1 (World.runtime w)) (denyAlert body)).
  cbv zeta. unfold post_deny_access, tryCatch. cbv zeta.
  unfold bind at 1.
  destruct (truthy_str (DenyBody.studentId body)) eqn:Hs;
    [erewrite await_ok by reflexivity|unfold ret at 1];
    (unfold bind at 1;
     destruct (truthy_str (DenyBody.plateNumber body)) eqn:Hp;
     [erewrite await_ok by reflexivity|unfold ret at 1]);
    unfold bind at 1; unfold await at 1;
    cbn [createAccessLog MemoryStorage_IStorage afterCall
         World.storage World.runtime World.connectedClients World.trace];
    unfold MemoryStorage.createAccessLog, generateId, newDate;
    cbn [uuids uuid_calls clock clock_reads startOfDay nextDay fst snd];
    unfold bind at 1; unfold await at 1;
    cbn [createAlert MemoryStorage_IStorage
         World.storage World.runtime World.connectedClients World.trace];
    unfold MemoryStorage.createAlert, generateId, newDate;
    cbn [uuids uuid_calls clock clock_reads startOfDay nextDay fst snd];
    unfold bind at 1; rewrite broadcast_afterBroadcast;
    unfold bind at 1; rewrite broadcast_afterBroadcast; unfold ret;
    (eexists; split; [reflexivity|]);
    (split; [intros Ha; apply absent_not_truthy in Ha; congruence|]);
    (split; [intros Ha; apply absent_not_truthy in Ha; congruence|]);
    cbn [afterBroadcast afterCall World.connectedClients World.storage
         MemoryStorage.accessLogs MemoryStorage.alerts];
    repeat (split; [reflexivity|]);
    (rewrite map_map; apply map_ext; intros c;
     rewrite deliver_receive_one; apply deliver_receive).
Qed.

(** X28. With the in-memory storage a manual grant is always answered 200
    and stores a [granted] log entry with the reason ['Manual approval'],
    whether or not the student and the plate are known and whatever the
    verification of the pair would say; it stores no alert, and every open
    observer is sent the one [access_granted] frame. *)
Theorem X28_manual_grant :
  forall (JSON_stringify : WebSocketMessage -> string)
         (body : GrantBody.t) (w : World MemoryStorage.t),
    let m := World.storage w in
    let student :=
      MemoryStorage.getStudentByStudentId (GrantBody.studentId body) m in
    let vehicle :=
      MemoryStorage.getVehicleByPlate (GrantBody.plateNumber body) m in
    exists accessLog w',
      let log := LogWithDetails.mk accessLog student vehicle in
      post_grant_access JSON_stringify body w
      = (Response.mk 200 (BGranted log), w')
      /\ AccessLog.accessStatus accessLog = "granted"
      /\ AccessLog.reason accessLog = Some "Manual approval"
      /\ AccessLog.studentId accessLog
         = or_null (option_map StudentWithVehicle.id student)
      /\ AccessLog.vehicleId accessLog
         = or_null (option_map Vehicle.id vehicle)
      /\ MemoryStorage.accessLogs (World.storage w')
         = JsMap.set (AccessLog.id accessLog) accessLog
             (MemoryStorage.accessLogs m)
      /\ MemoryStorage.alerts (World.storage w') = MemoryStorage.alerts m
      /\ World.connectedClients w'
         = map (receive
                  [JSON_stringify
                     (WebSocketMessage.mk "access_granted" (PLog log))])
               (World.connectedClients w).
Proof.
  intros JSON_stringify body w. cbv zeta.
  unfold post_grant_access, tryCatch. cbv zeta.
  unfold bind at 1. erewrite await_ok by reflexivity.
  unfold bind at 1. erewrite await_ok by reflexivity.
  unfold bind at 1. unfold await at 1.
  cbn [createAccessLog MemoryStorage_IStorage afterCall
       World.storage World.runtime World.connectedClients World.trace].
  unfold MemoryStorage.createAccessLog, generateId, newDate.
  cbn [uuids uuid_calls clock clock_reads startOfDay nextDay fst snd].
  unfold bind at 1. rewrite broadcast_afterBroadcast. unfold ret.
  eexists. eexists. split; [reflexivity|].
  cbn [afterBroadcast afterCall World.connectedClients World.storage
       MemoryStorage.accessLogs MemoryStorage.alerts].
  repeat (split; [reflexivity|]). reflexivity.
Qed.

(** ** Looking a student up *)

(** X29. [GET /api/students/:studentId] answers 404 exactly when no stored
    student carries the external id, and that is exactly when a
    verification with this id is refused for ['Student ID not found'];
    otherwise it answers 200 with a stored student that carries the id, the
    same one a verification reports. *)
Theorem X29_student_lookup_route :
  forall (studentId plateNumber : string) (srv : Server.t),
    let response := Server.get_student studentId srv in
    let v := MemoryStorage.verifyStudentAndVehicle studentId plateNumber
               (Server.storage srv) in
    (Server.status response = 404
     <-> forall s, In s (JsMap.values
                           (MemoryStorage.students (Server.storage srv))) ->
                   Student.studentId s <> studentId)
    /\ (Server.status response = 404
        <-> Verification.reason v = Some "Student ID not found")
    /\ (Server.status response <> 404 ->
        exists r,
          response = Server.mkResponse 200 (Server.BStudent r)
          /\ In (StudentWithVehicle.student r)
                (JsMap.values (MemoryStorage.students (Server.storage srv)))
          /\ Student.studentId (StudentWithVehicle.student r) = studentId
          /\ Verification.student v = Some r).
Proof.
  intros studentId plateNumber srv. cbv zeta.
  unfold Server.get_student, MemoryStorage.verifyStudentAndVehicle.
  unfold MemoryStorage.getStudentByStudentId.
  destruct (find (fun s => String.eqb (Student.studentId s) studentId)
                 (JsMap.values (MemoryStorage.students (Server.storage srv))))
    as [s|] eqn:Hfind; cbn [Server.status].
  - pose proof (find_some _ _ Hfind) as [Hin Heq].
    apply String.eqb_eq in Heq.
    split; [|split].
    + split; [discriminate|]. intros Hall. now apply Hall in Hin.
    + split; [discriminate|].
      destruct (MemoryStorage.getVehicleByPlate plateNumber (Server.storage srv))
        as [vehicle|]; [|discriminate].
      destruct (negb _); [discriminate|].
      destruct (_ || _); discriminate.
    + intros _. eexists. split; [reflexivity|].
      cbn [StudentWithVehicle.student]. split; [exact Hin|].
      split; [exact Heq|].
      destruct (MemoryStorage.getVehicleByPlate plateNumber (Server.storage srv))
        as [vehicle|]; [|reflexivity].
      destruct (negb _); [reflexivity|].
      destruct (_ || _); reflexivity.
  - split; [|split].
    + split; [|reflexivity]. intros _ s Hin Heq.
      apply (find_none _ _ Hfind) in Hin. simpl in Hin.
      apply String.eqb_neq in Hin. contradiction.
    + split; reflexivity.
    + intros Hn. now contradiction Hn.
Qed.

(** ** A new log entry and the counts of the day *)

(** X30. A log entry written under an id that is not yet in use counts in
    the dashboard statistics exactly when its timestamp lies in the day of
    the request: then the total grows by one, the granted count by one if
    its status is ['granted'], the denied count by one if its status is
    ['denied'], and an entry with any other status only counts in the
    total; an entry of another day leaves the statistics as they are. *)
Theorem X30_new_log_in_the_counts_of_the_day :
  forall (logInput : InsertAccessLog) (m : MemoryStorage.t)
         (rt later : Runtime),
    JsMap.get (uuids rt (uuid_calls rt)) (MemoryStorage.accessLogs m) = None ->
    let log := memoryLog rt logInput in
    let m' := snd (fst (MemoryStorage.createAccessLog logInput m rt)) in
    let today := startOfDay later (clock later (clock_reads later)) in
    let tomorrow := nextDay later today in
    let before := fst (MemoryStorage.getDashboardStats m later) in
    let after := fst (MemoryStorage.getDashboardStats m' later) in
    ((today <= clock rt (clock_reads rt) < tomorrow)%Z ->
     after = Stats.mk (S (Stats.totalAccess before))
                      (Stats.granted before + countOf "granted" log)
                      (Stats.denied before + countOf "denied" log)
                      2)
    /\ (~ (today <= clock rt (clock_reads rt) < tomorrow)%Z ->
        after = before).
Proof.
  intros logInput m rt later Hfresh. cbv zeta.
  unfold MemoryStorage.getDashboardStats, MemoryStorage.createAccessLog,
    generateId, newDate.
  cbn [fst snd uuids uuid_calls clock clock_reads startOfDay nextDay
       MemoryStorage.accessLogs].
  rewrite JsMapFacts.set_fresh by exact Hfresh.
  unfold JsMap.values. rewrite map_app. cbn [map snd].
  rewrite filter_app. cbn [filter AccessLog.timestamp MemoryStorage.getTime].
  set (today := startOfDay later (clock later (clock_reads later))).
  set (tomorrow := nextDay later today).
  set (t := clock rt (clock_reads rt)).
  split.
  - intros [Hlo Hhi].
    apply Z.leb_le in Hlo. apply Z.ltb_lt in Hhi. rewrite Hlo, Hhi.
    cbn [andb]. rewrite !filter_app, !length_app.
    cbn [filter AccessLog.accessStatus]. unfold countOf, memoryLog.
    cbn [AccessLog.accessStatus].
    destruct (String.eqb (InsertAccessLog.accessStatus logInput) "granted");
      destruct (String.eqb (InsertAccessLog.accessStatus logInput) "denied");
      cbn [List.length Stats.totalAccess Stats.granted Stats.denied];
      f_equal; lia.
  - intros Hout.
    destruct ((today <=? t)%Z && (t <? tomorrow)%Z) eqn:Hin.
    + exfalso. apply Hout. apply andb_true_iff in Hin. destruct Hin as [Hlo Hhi].
      apply Z.leb_le in Hlo. apply Z.ltb_lt in Hhi. now split.
    + now rewrite !app_nil_r.
Qed.

(** X30 at the gate: a grant written at time 0 is counted at time 1. *)
Lemma X30_new_log_in_the_counts_witness :
  fst (MemoryStorage.getDashboardStats
         (snd (fst (MemoryStorage.createAccessLog
                      (grantAccessLog (GrantBody.mk "S100" "ABC123" None)
                                      None None)
                      campus gateRuntime)))
         (advance 1 gateRuntime))
  = Stats.mk 1 1 0 2.
Proof.
  apply (proj1 (@X30_new_log_in_the_counts_of_the_day
                  (grantAccessLog (GrantBody.mk "S100" "ABC123" None)
                                  None None)
                  campus gateRuntime (advance 1 gateRuntime) eq_refl)).
  vm_compute. split; [discriminate|reflexivity].
Defined.

(** ** The further properties at the sample gate *)


(** X24 at the front desk: the dashboard closes before a deletion is
    announced. *)
Lemma X24_closed_socket_witness :
  Server.connectedClients
    (snd (Server.broadcast wire
            (Server.mkMessage "student_deleted" (Server.PStudentDeleted "u-1"))
            (Server.mk campus gateRuntime
               (Server.onClose 1 [dashboard; staleDashboard]))))
  = Server.onClose 1
      (Server.connectedClients
         (snd (Server.broadcast wire
                 (Server.mkMessage "student_deleted"
                                   (Server.PStudentDeleted "u-1"))
                 frontDesk))).
Proof.
  exact (proj2 (proj2 (X24_closed_socket_leaves_the_set wire
                         (Server.mkMessage "student_deleted"
                                           (Server.PStudentDeleted "u-1"))
                         1 frontDesk))).
Defined.

(** X25 at the front desk: the dashboard pings. *)
Lemma X25_ping_witness :
  In (WebSocket.mk 1 OPEN [Server.typeOnlyMessage "pong"])
     (Server.onMessage alwaysPing 1 "ping" [dashboard; staleDashboard]).
Proof.
  apply (proj2 (proj2 (proj2 (X25_ping_is_answered_to_the_sender
                                alwaysPing 1 "ping"
                                [dashboard; staleDashboard])))
           eq_refl) with (c := dashboard).
  - repeat constructor; simpl; intuition discriminate.
  - now left.
  - reflexivity.
Defined.

(** X27 at the gate: a denial with an empty body. *)
Lemma X27_manual_denial_witness :
  exists accessLog alert w',
    post_deny_access typeOnly (DenyBody.mk None None None None) gate
    = (Response.mk 200
         (BDenied (LogWithDetails.mk accessLog None None) alert), w')
    /\ AccessLog.plateNumber accessLog = Some "Unknown"
    /\ AccessLog.reason accessLog = Some "Manual denial"
    /\ World.connectedClients w'
       = [WebSocket.mk 1 OPEN ["access_denied"; "new_alert"]; staleDashboard].
Proof.
  destruct (X27_manual_denial typeOnly (DenyBody.mk None None None None) gate)
    as (student & vehicle & accessLog & alert & w' & Hrun & Hs & Hv & _
        & Hplate & Hreason & _ & _ & _ & Hclients).
  rewrite (Hs (or_introl eq_refl)), (Hv (or_introl eq_refl)) in Hrun.
  exists accessLog, alert, w'.
  split; [exact Hrun|]. split; [exact Hplate|]. split; [exact Hreason|].
  rewrite Hclients. reflexivity.
Defined.

(** X28 at the gate: a grant for a student and a plate nobody knows. *)
Lemma X28_manual_grant_witness :
  exists accessLog w',
    post_grant_access typeOnly (GrantBody.mk "S999" "NOPE" (Some "Gate1")) gate
    = (Response.mk 200 (BGranted (LogWithDetails.mk accessLog None None)), w')
    /\ AccessLog.accessStatus accessLog = "granted"
    /\ AccessLog.studentId accessLog = None
    /\ MemoryStorage.alerts (World.storage w') = [].
Proof.
  destruct (X28_manual_grant typeOnly
              (GrantBody.mk "S999" "NOPE" (Some "Gate1")) gate)
    as (accessLog & w' & Hrun & Hstatus & _ & Hsid & _ & _ & Halerts & _).
  exists accessLog, w'.
  split; [exact Hrun|]. split; [exact Hstatus|]. split; [exact Hsid|].
  exact Halerts.
Defined.

(** X29 at the front desk: an external id nobody carries. *)
Lemma X29_student_lookup_witness :
  Server.status (Server.get_student "S999" frontDesk) = 404
  /\ Verification.reason
       (MemoryStorage.verifyStudentAndVehicle "S999" "ABC123" campus)
     = Some "Student ID not found".
Proof.
  assert (Hnone : Server.status (Server.get_student "S999" frontDesk) = 404).
  { apply (proj1 (X29_student_lookup_route "S999" "ABC123" frontDesk)).
    intros s [<-|[]]. discriminate. }
  split; [exact Hnone|].
  exact (proj1 (proj1 (proj2 (X29_student_lookup_route
                                "S999" "ABC123" frontDesk))) Hnone).
Defined.
